(** * Wallet risk scoring: the feature-to-score pipeline

    A shallow embedding of [feature_extractor.py], [risk_scorer.py] and the
    constants of [config.py], and of the parts of [main.py],
    [sheet_parser.py] and [data_collector.py] that compute.  Python [float]s
    are IEEE binary64 values and are modelled by Rocq's primitive [float];
    Python [int]s are modelled by [Z].  A value that may be either (the
    feature dictionary mixes both) is a [Py.num]. *)

From Stdlib Require Import ZArith List String Ascii Bool Lia.
From Stdlib Require Import Floats.
Import ListNotations.

Set Warnings "-inexact-float".

Local Open Scope string_scope.
Local Open Scope Z_scope.

(* ================================================================== *)
(** ** Python numbers *)

Module Py.

(** A Python number: an arbitrary-precision [int] or a binary64 [float]. *)
Inductive num : Type :=
| PInt (z : Z)
| PFloat (f : float).

(** [float(z)]: the binary64 value nearest to [z], ties to even. *)
Definition float_of_int (z : Z) : float :=
  SF2Prim (binary_normalize prec emax z 0 false).

Definition to_float (a : num) : float :=
  match a with
  | PInt z => float_of_int z
  | PFloat f => f
  end.

(** Truncation toward zero of a finite float; [None] on nan and the
    infinities, where Python's [int()] raises. *)
Definition trunc (f : float) : option Z :=
  match Prim2SF f with
  | S754_zero _ => Some 0
  | S754_finite s m e =>
      let a := if 0 <=? e then Z.pos m * 2 ^ e else Z.pos m / 2 ^ (- e) in
      Some (if s then - a else a)
  | S754_infinity _ | S754_nan => None
  end.

(** [int(x)] *)
Definition int (a : num) : option Z :=
  match a with
  | PInt z => Some z
  | PFloat f => trunc f
  end.

(** Python compares an [int] with a [float] by value, without rounding the
    [int]; [None] is "unordered" (a nan operand). *)
Definition compare_int_float (z : Z) (f : float) : option comparison :=
  match Prim2SF f with
  | S754_nan => None
  | S754_infinity s => Some (if s then Gt else Lt)
  | S754_zero _ => Some (z ?= 0)
  | S754_finite s m e =>
      let v := if s then Z.neg m else Z.pos m in
      Some (if 0 <=? e then z ?= v * 2 ^ e else z * 2 ^ (- e) ?= v)
  end.

Definition compare_float (f g : float) : option comparison :=
  match PrimFloat.compare f g with
  | FEq => Some Eq
  | FLt => Some Lt
  | FGt => Some Gt
  | FNotComparable => None
  end.

Definition compare (a b : num) : option comparison :=
  match a, b with
  | PInt x, PInt y => Some (x ?= y)
  | PInt x, PFloat g => compare_int_float x g
  | PFloat f, PInt y => option_map CompOpp (compare_int_float y f)
  | PFloat f, PFloat g => compare_float f g
  end.

(** [a == b], [a < b], [a <= b], [a > b], [a >= b] *)
Definition eqb (a b : num) : bool :=
  match compare a b with Some Eq => true | _ => false end.
Definition ltb (a b : num) : bool :=
  match compare a b with Some Lt => true | _ => false end.
Definition leb (a b : num) : bool :=
  match compare a b with Some Lt | Some Eq => true | _ => false end.
Definition gtb (a b : num) : bool :=
  match compare a b with Some Gt => true | _ => false end.
Definition geb (a b : num) : bool :=
  match compare a b with Some Gt | Some Eq => true | _ => false end.

(** [a + b], [a * b]: exact on two ints, binary64 otherwise. *)
Definition add (a b : num) : num :=
  match a, b with
  | PInt x, PInt y => PInt (x + y)
  | _, _ => PFloat (to_float a + to_float b)
  end.

Definition mul (a b : num) : num :=
  match a, b with
  | PInt x, PInt y => PInt (x * y)
  | _, _ => PFloat (to_float a * to_float b)
  end.

(** The builtin [min(a, b)] keeps [a] unless [b < a]; [max(a, b)] keeps
    [a] unless [b > a]. *)
Definition min (a b : num) : num := if ltb b a then b else a.
Definition max (a b : num) : num := if gtb b a then b else a.

(** The integer [z] as the unrounded pair mantissa, exponent 0. *)
Definition exact_SF (z : Z) : spec_float :=
  match z with
  | Z0 => S754_zero false
  | Zpos p => S754_finite false p 0
  | Zneg p => S754_finite true p 0
  end.

(** [a / b] on two ints is the binary64 value nearest to the exact
    quotient (not the quotient of the two rounded operands).  The exact
    quotient does not change when the fraction is put in lowest terms,
    which is how it is computed here; [None] is [ZeroDivisionError]. *)
Definition int_truediv (a b : Z) : option float :=
  if b =? 0 then None
  else
    let g := Z.gcd a b in
    Some (SF2Prim (SFdiv prec emax (exact_SF (a / g)) (exact_SF (b / g)))).

Definition is_zero (a : num) : bool :=
  match a with
  | PInt z => z =? 0
  | PFloat f => PrimFloat.eqb f 0
  end.

(** [a / b] *)
Definition truediv (a b : num) : option num :=
  if is_zero b then None
  else
    match a, b with
    | PInt x, PInt y => option_map PFloat (int_truediv x y)
    | _, _ => Some (PFloat (to_float a / to_float b))
    end.

End Py.

Abbreviation PInt := Py.PInt.
Abbreviation PFloat := Py.PFloat.

(** [d.get(key, default)] on a dictionary kept as an association list. *)
Fixpoint dict_get {A : Type} (d : list (string * A)) (key : string) (default : A) : A :=
  match d with
  | [] => default
  | (k, v) :: d' => if String.eqb k key then v else dict_get d' key default
  end.

(* ================================================================== *)
(** ** config.py *)

Module Config.

Definition RISK_WEIGHTS : list (string * Py.num) :=
  [ ("borrow_supply_ratio", PFloat 0.25);
    ("liquidation_count", PFloat 0.20);
    ("inactivity_days", PFloat 0.15);
    ("repayment_frequency", PFloat 0.15);
    ("volatile_asset_usage", PFloat 0.10);
    ("protocol_version", PFloat 0.10);
    ("collateral_factor", PFloat 0.05) ].

Definition VOLATILE_ASSETS : list string :=
  ["WBTC"; "ETH"; "LINK"; "UNI"; "MKR"; "YFI"; "AAVE"; "SUSHI"].

(** The keys of [COMPOUND_V2_MARKETS] and [COMPOUND_V3_MARKETS]; the
    addresses they map to are not read by the scoring pipeline. *)
Definition COMPOUND_V2_MARKETS : list string :=
  ["cDAI"; "cUSDC"; "cETH"; "cWBTC"; "cUSDT"; "cCOMP"; "cUNI"; "cLINK";
   "cMKR"; "cYFI"; "cBAT"; "cZRX"; "cAAVE"; "cSUSHI"].

Definition COMPOUND_V3_MARKETS : list string :=
  ["USDC"; "WETH"; "WBTC"; "LINK"; "UNI"].

End Config.

(* ================================================================== *)
(** ** Strings

    Market labels and topics are ASCII text (token symbols, hexadecimal
    digests); case is mapped on the letters A-Z and a-z. *)

Module Str.

Definition lower_ascii (c : ascii) : ascii :=
  let n := nat_of_ascii c in
  if (Nat.leb 65 n && Nat.leb n 90)%bool then ascii_of_nat (n + 32) else c.

Definition upper_ascii (c : ascii) : ascii :=
  let n := nat_of_ascii c in
  if (Nat.leb 97 n && Nat.leb n 122)%bool then ascii_of_nat (n - 32) else c.

(** [s.lower()], [s.upper()] *)
Fixpoint lower (s : string) : string :=
  match s with
  | EmptyString => EmptyString
  | String c s' => String (lower_ascii c) (lower s')
  end.

Fixpoint upper (s : string) : string :=
  match s with
  | EmptyString => EmptyString
  | String c s' => String (upper_ascii c) (upper s')
  end.

(** [pat in s] *)
Fixpoint contains (pat s : string) : bool :=
  String.prefix pat s
  || match s with
     | EmptyString => false
     | String _ s' => contains pat s'
     end.

(** [x in xs] for a list of strings *)
Definition isin (x : string) (xs : list string) : bool :=
  existsb (String.eqb x) xs.

End Str.

(** [len(xs)] *)
Definition len {A : Type} (xs : list A) : Z := Z.of_nat (List.length xs).

(** [df.empty]: the frame has no rows. *)
Definition empty {A : Type} (df : list A) : bool :=
  match df with
  | [] => true
  | _ :: _ => false
  end.

(** Sequencing of computations that may raise. *)
Definition bind {A B : Type} (m : option A) (k : A -> option B) : option B :=
  match m with
  | Some a => k a
  | None => None
  end.

Notation "x <- m ;; k" := (bind m (fun x => k))
  (at level 61, m at next level, right associativity).

(* ================================================================== *)
(** ** feature_extractor.py *)

Module FeatureExtractor.

(** One row of the transactions frame.  [market] is [None] where the cell
    is missing (NaN); [topics] is [None] where the cell is not a list.
    [timestamp] counts microseconds. *)
Record Transaction : Type := {
  wallet : string;
  market : option string;
  market_address : string;
  block_number : Z;
  transaction_hash : string;
  log_index : Z;
  topics : option (list string);
  data : string;
  timestamp : Z
}.

Record Features : Type := {
  wallet_id : string;
  total_transactions : Z;
  first_transaction_date : option Z;
  last_transaction_date : option Z;
  days_since_last_activity : Z;
  total_supplied_usd : Z;
  total_borrowed_usd : Z;
  supply_to_borrow_ratio : Py.num;
  number_of_liquidations : Z;
  repayment_frequency : Py.num;
  volatile_asset_usage : Py.num;
  protocol_version_usage : string;
  collateral_factor_average : Py.num;
  borrowing_behavior : string;
  health_factor_trend : string
}.

(** [wallet_txs['market'].str.contains(pat, na=False)] for a pattern
    without regex metacharacters. *)
Definition market_contains (pat : string) (tx : Transaction) : bool :=
  match market tx with
  | Some m => Str.contains pat m
  | None => false
  end.

(** The same with [case=False]; [pat] is given in lower case. *)
Definition market_contains_nocase (pat : string) (tx : Transaction) : bool :=
  match market tx with
  | Some m => Str.contains pat (Str.lower m)
  | None => false
  end.

(** [wallet_txs['market'].isin(names)] *)
Definition market_isin (names : list string) (tx : Transaction) : bool :=
  match market tx with
  | Some m => Str.isin m names
  | None => false
  end.

(** [str(tx['market'])] *)
Definition market_str (tx : Transaction) : string :=
  match market tx with
  | Some m => m
  | None => "nan"
  end.

(** [any(kw in str(topic).lower() for topic in x) if isinstance(x, list)
    else False] *)
Definition topics_mention (kw : string) (tx : Transaction) : bool :=
  match topics tx with
  | Some x => existsb (fun topic => Str.contains kw (Str.lower topic)) x
  | None => false
  end.

(** [wallet_txs['timestamp'].max()] and [.min()] on a frame with rows. *)
Definition timestamp_max (wallet_txs : list Transaction) : Z :=
  match wallet_txs with
  | [] => 0
  | tx :: rest => fold_left (fun acc t => Z.max acc (timestamp t)) rest (timestamp tx)
  end.

Definition timestamp_min (wallet_txs : list Transaction) : Z :=
  match wallet_txs with
  | [] => 0
  | tx :: rest => fold_left (fun acc t => Z.min acc (timestamp t)) rest (timestamp tx)
  end.

(** [delta.days] of a duration in microseconds (rounds toward minus
    infinity, as [timedelta] does). *)
Definition days (delta : Z) : Z := delta / 86400000000.

Definition default_features (wallet_address : string) : Features := {|
  wallet_id := wallet_address;
  total_transactions := 0;
  first_transaction_date := None;
  last_transaction_date := None;
  days_since_last_activity := 365;
  total_supplied_usd := 0;
  total_borrowed_usd := 0;
  supply_to_borrow_ratio := PInt 0;
  number_of_liquidations := 0;
  repayment_frequency := PInt 0;
  volatile_asset_usage := PInt 0;
  protocol_version_usage := "none";
  collateral_factor_average := PInt 0;
  borrowing_behavior := "none";
  health_factor_trend := "stable"
|}.

Definition _get_default_features (wallet_address : string) : Features :=
  default_features wallet_address.

(** [now] is the value of [datetime.now()]. *)
Definition _calculate_inactivity_days (now : Z) (wallet_txs : list Transaction) : Z :=
  if empty wallet_txs then 365
  else
    let last_activity := timestamp_max wallet_txs in
    let current_time := now in
    days (current_time - last_activity).

Definition _calculate_total_supplied (wallet_txs : list Transaction) : Z :=
  let supply_events :=
    filter (fun tx => market_contains "c" tx
                      || market_isin ["USDC"; "WETH"; "WBTC"] tx) wallet_txs in
  len supply_events * 1000.

Definition _calculate_total_borrowed (wallet_txs : list Transaction) : Z :=
  let borrow_events :=
    filter (fun tx => market_contains "c" tx
                      || market_isin ["USDC"; "WETH"; "WBTC"] tx) wallet_txs in
  len borrow_events * 500.

Definition _count_liquidations (wallet_txs : list Transaction) : Z :=
  let liquidation_events :=
    filter (fun tx => market_contains_nocase "liquidate" tx
                      || topics_mention "liquidate" tx) wallet_txs in
  len liquidation_events.

Definition _calculate_repayment_frequency (wallet_txs : list Transaction)
  : option Py.num :=
  if empty wallet_txs then Some (PInt 0)
  else
    let repayment_events :=
      filter (fun tx => market_contains_nocase "repay" tx
                        || topics_mention "repay" tx) wallet_txs in
    if empty repayment_events then Some (PInt 0)
    else
      let time_span := days (timestamp_max wallet_txs - timestamp_min wallet_txs) in
      if time_span =? 0 then Some (PInt (len repayment_events))
      else
        months_active <- Py.truediv (PInt time_span) (PInt 30) ;;
        if Py.gtb months_active (PInt 0)
        then Py.truediv (PInt (len repayment_events)) months_active
        else Some (PInt 0).

Definition _calculate_volatile_asset_usage (wallet_txs : list Transaction)
  : option Py.num :=
  if empty wallet_txs then Some (PInt 0)
  else
    let volatile_transactions :=
      filter (fun tx =>
                existsb (fun asset => Str.contains asset (Str.upper (market_str tx)))
                        Config.VOLATILE_ASSETS) wallet_txs in
    Py.truediv (PInt (len volatile_transactions)) (PInt (len wallet_txs)).

Definition _determine_protocol_version (wallet_txs : list Transaction) : string :=
  if empty wallet_txs then "none"
  else
    let v2_transactions := filter (market_isin Config.COMPOUND_V2_MARKETS) wallet_txs in
    let v3_transactions := filter (market_isin Config.COMPOUND_V3_MARKETS) wallet_txs in
    if len v2_transactions <? len v3_transactions then "v3"
    else if 0 <? len v2_transactions then "v2"
    else "unknown".

Definition collateral_factors : list (string * float) :=
  [ ("USDC", 0.85); ("USDT", 0.80); ("DAI", 0.85);
    ("ETH", 0.75); ("WETH", 0.75); ("WBTC", 0.70);
    ("LINK", 0.65); ("UNI", 0.60); ("MKR", 0.55);
    ("YFI", 0.50); ("AAVE", 0.55); ("SUSHI", 0.50) ]%float.

(** The inner loop with its [break]: the factor of the first asset, in
    dictionary order, whose symbol occurs in [market]. *)
Definition first_factor (market : string) : option float :=
  option_map snd (find (fun '(asset, _) => Str.contains asset market) collateral_factors).

Definition _calculate_collateral_factor (wallet_txs : list Transaction)
  : option Py.num :=
  if empty wallet_txs then Some (PInt 0)
  else
    let '(total_factor, count) :=
      fold_left
        (fun '(total_factor, count) tx =>
           let market := Str.upper (market_str tx) in
           match first_factor market with
           | Some factor => (Py.add total_factor (PFloat factor), count + 1)
           | None => (total_factor, count)
           end)
        wallet_txs (PInt 0, 0) in
    if 0 <? count then Py.truediv total_factor (PInt count) else Some (PInt 0).

Definition _analyze_borrowing_behavior (wallet_txs : list Transaction)
  : option string :=
  if empty wallet_txs then Some "none"
  else
    let supply_count :=
      len (filter (fun tx => market_contains_nocase "mint" tx
                             || market_contains_nocase "supply" tx) wallet_txs) in
    let borrow_count := len (filter (market_contains_nocase "borrow") wallet_txs) in
    let repay_count := len (filter (market_contains_nocase "repay") wallet_txs) in
    if borrow_count =? 0 then Some "supplier_only"
    else if supply_count =? 0 then Some "borrower_only"
    else
      q <- Py.truediv (PInt repay_count) (PInt (Z.max borrow_count 1)) ;;
      if Py.gtb q (PFloat 0.8) then Some "responsible_borrower"
      else Some "risky_borrower".

(** [df.tail(n)] and [df.head(n)] for [n >= 0]. *)
Definition tail {A : Type} (n : nat) (df : list A) : list A :=
  skipn (List.length df - n) df.

Definition head {A : Type} (n : nat) (df : list A) : list A :=
  firstn n df.

Definition _calculate_health_factor_trend (wallet_txs : list Transaction)
  : option string :=
  if empty wallet_txs then Some "unknown"
  else
    let recent_txs := tail 10 wallet_txs in
    let older_txs := head (Nat.max 1 (List.length wallet_txs - 10)) wallet_txs in
    recent_volatility <- _calculate_volatile_asset_usage recent_txs ;;
    older_volatility <- _calculate_volatile_asset_usage older_txs ;;
    if Py.ltb recent_volatility older_volatility then Some "improving"
    else if Py.gtb recent_volatility older_volatility then Some "deteriorating"
    else Some "stable".

(** [None] stands for an exception raised on the way. *)
Definition extract_wallet_features (now : Z) (transactions_df : list Transaction)
           (wallet_address : string) : option Features :=
  if empty transactions_df then Some (_get_default_features wallet_address)
  else
    let wallet_txs :=
      filter (fun tx => String.eqb (wallet tx) wallet_address) transactions_df in
    if empty wallet_txs then Some (_get_default_features wallet_address)
    else
      repayment <- _calculate_repayment_frequency wallet_txs ;;
      volatile <- _calculate_volatile_asset_usage wallet_txs ;;
      collateral <- _calculate_collateral_factor wallet_txs ;;
      behavior <- _analyze_borrowing_behavior wallet_txs ;;
      trend <- _calculate_health_factor_trend wallet_txs ;;
      let total_supplied := _calculate_total_supplied wallet_txs in
      let total_borrowed := _calculate_total_borrowed wallet_txs in
      ratio <- (if 0 <? total_supplied
                then Py.truediv (PInt total_borrowed) (PInt total_supplied)
                else Some (PFloat 0.0)) ;;
      Some {|
        wallet_id := wallet_address;
        total_transactions := len wallet_txs;
        first_transaction_date := Some (timestamp_min wallet_txs);
        last_transaction_date := Some (timestamp_max wallet_txs);
        days_since_last_activity := _calculate_inactivity_days now wallet_txs;
        total_supplied_usd := total_supplied;
        total_borrowed_usd := total_borrowed;
        supply_to_borrow_ratio := ratio;
        number_of_liquidations := _count_liquidations wallet_txs;
        repayment_frequency := repayment;
        volatile_asset_usage := volatile;
        protocol_version_usage := _determine_protocol_version wallet_txs;
        collateral_factor_average := collateral;
        borrowing_behavior := behavior;
        health_factor_trend := trend
      |}.

(** [extract_all_wallet_features]: one record per address, in order. *)
Fixpoint extract_all_wallet_features (now : Z) (transactions_df : list Transaction)
         (wallet_addresses : list string) : option (list Features) :=
  match wallet_addresses with
  | [] => Some []
  | wallet :: rest =>
      features <- extract_wallet_features now transactions_df wallet ;;
      all_features <- extract_all_wallet_features now transactions_df rest ;;
      Some (features :: all_features)
  end.

End FeatureExtractor.

(* ================================================================== *)
(** ** risk_scorer.py *)

Module RiskScorer.

(** The entries of the feature dictionary that the scorer reads.  [None]
    is an absent key, for which [features.get] supplies its default. *)
Record Features : Type := {
  supply_to_borrow_ratio : option Py.num;
  number_of_liquidations : option Py.num;
  days_since_last_activity : option Py.num;
  repayment_frequency : option Py.num;
  volatile_asset_usage : option Py.num;
  protocol_version_usage : option string;
  collateral_factor_average : option Py.num
}.

Definition get {A : Type} (entry : option A) (default : A) : A :=
  match entry with
  | Some v => v
  | None => default
  end.

Definition _score_borrow_supply_ratio (features : Features) : Py.num :=
  let ratio := get (supply_to_borrow_ratio features) (PInt 0) in
  if Py.eqb ratio (PInt 0) then PInt 0
  else if Py.leb ratio (PFloat 0.3) then PInt 100
  else if Py.leb ratio (PFloat 0.5) then PInt 50
  else if Py.leb ratio (PFloat 0.7) then PInt 0
  else if Py.leb ratio (PFloat 0.9) then PInt (-50)
  else PInt (-100).

Definition _score_liquidation_count (features : Features) : Py.num :=
  let liquidations := get (number_of_liquidations features) (PInt 0) in
  if Py.eqb liquidations (PInt 0) then PInt 50
  else if Py.eqb liquidations (PInt 1) then PInt (-25)
  else if Py.eqb liquidations (PInt 2) then PInt (-50)
  else if Py.leb liquidations (PInt 5) then PInt (-75)
  else PInt (-100).

Definition _score_inactivity_days (features : Features) : Py.num :=
  let inactivity_days := get (days_since_last_activity features) (PInt 365) in
  if Py.leb inactivity_days (PInt 7) then PInt 50
  else if Py.leb inactivity_days (PInt 30) then PInt 25
  else if Py.leb inactivity_days (PInt 90) then PInt 0
  else if Py.leb inactivity_days (PInt 180) then PInt (-25)
  else PInt (-50).

Definition _score_repayment_frequency (features : Features) : Py.num :=
  let frequency := get (repayment_frequency features) (PInt 0) in
  if Py.geb frequency (PFloat 2.0) then PInt 50
  else if Py.geb frequency (PFloat 1.0) then PInt 25
  else if Py.geb frequency (PFloat 0.5) then PInt 0
  else if Py.gtb frequency (PInt 0) then PInt (-25)
  else PInt (-50).

Definition _score_volatile_asset_usage (features : Features) : Py.num :=
  let volatile_usage := get (volatile_asset_usage features) (PInt 0) in
  if Py.leb volatile_usage (PFloat 0.1) then PInt 50
  else if Py.leb volatile_usage (PFloat 0.3) then PInt 25
  else if Py.leb volatile_usage (PFloat 0.5) then PInt 0
  else if Py.leb volatile_usage (PFloat 0.7) then PInt (-25)
  else PInt (-50).

Definition _score_protocol_version (features : Features) : Py.num :=
  let version := get (protocol_version_usage features) "none" in
  if String.eqb version "v3" then PInt 25
  else if String.eqb version "v2" then PInt 0
  else if String.eqb version "none" then PInt (-25)
  else PInt 0.

Definition _score_collateral_factor (features : Features) : Py.num :=
  let collateral_factor := get (collateral_factor_average features) (PInt 0) in
  if Py.geb collateral_factor (PFloat 0.8) then PInt 25
  else if Py.geb collateral_factor (PFloat 0.6) then PInt 0
  else if Py.geb collateral_factor (PFloat 0.4) then PInt (-25)
  else PInt (-50).

(** The dictionary [risk_components], in insertion order. *)
Definition risk_components (features : Features) : list (string * Py.num) :=
  [ ("borrow_supply_ratio", _score_borrow_supply_ratio features);
    ("liquidation_count", _score_liquidation_count features);
    ("inactivity_days", _score_inactivity_days features);
    ("repayment_frequency", _score_repayment_frequency features);
    ("volatile_asset_usage", _score_volatile_asset_usage features);
    ("protocol_version", _score_protocol_version features);
    ("collateral_factor", _score_collateral_factor features) ].

(** The loop [for component, score in risk_components.items()]. *)
Definition weighted_sum (weights components : list (string * Py.num)) : Py.num :=
  fold_left
    (fun weighted_score '(component, score) =>
       let weight := dict_get weights component (PInt 0) in
       Py.add weighted_score (Py.mul score weight))
    components (PInt 0).

(** The tail of [calculate_risk_score]: base, clamp, [int]. *)
Definition final_score (weighted_score : Py.num) : option Z :=
  let base_score := PInt 500 in
  let final_score := Py.add base_score weighted_score in
  let final_score := Py.max (PInt 0) (Py.min (PInt 1000) final_score) in
  Py.int final_score.

Definition calculate_risk_score (features : Features) : option Z :=
  final_score (weighted_sum Config.RISK_WEIGHTS (risk_components features)).

Definition get_risk_category (score : Z) : string :=
  if 800 <=? score then "Very Low Risk"
  else if 600 <=? score then "Low Risk"
  else if 400 <=? score then "Moderate Risk"
  else if 200 <=? score then "High Risk"
  else "Very High Risk".

End RiskScorer.


(* ================================================================== *)
(** ** sklearn.preprocessing.MinMaxScaler

    The scaler is a library object; this is its [fit_transform] for one
    column and the default [feature_range = (0, 1)], following the
    library's [partial_fit] and [transform]:
<<
    data_range  = data_max - data_min
    self.scale_ = (feature_range[1] - feature_range[0])
                  / _handle_zeros_in_scale(data_range, copy=True)
    self.min_   = feature_range[0] - data_min * self.scale_
    ...
    X *= self.scale_
    X += self.min_
>>
    all in binary64; the int64 score column is converted to float64 on
    entry.  [normalize_scores] only calls it on a column with rows. *)

Module MinMaxScaler.

Local Open Scope float_scope.

Definition nanmin (X : list float) : float :=
  match X with
  | [] => nan
  | x :: rest => fold_left (fun a b => if b <? a then b else a) rest x
  end.

Definition nanmax (X : list float) : float :=
  match X with
  | [] => nan
  | x :: rest => fold_left (fun a b => if a <? b then b else a) rest x
  end.

(** [np.finfo(np.float64).eps] *)
Definition eps : float := 0x1p-52.

(** A range below [10 * eps] marks a constant column and is replaced by 1. *)
Definition _handle_zeros_in_scale (scale : float) : float :=
  if scale <? 10 * eps then 1 else scale.

Record fitted : Type := { scale_ : float; min_ : float }.

(** The attributes [partial_fit] sets from the column's minimum and maximum. *)
Definition fit_range (data_min data_max : float) : fitted :=
  let data_range := data_max - data_min in
  let scale := (1 - 0) / _handle_zeros_in_scale data_range in
  {| scale_ := scale; min_ := 0 - data_min * scale |}.

Definition fit (X : list float) : fitted :=
  fit_range (nanmin X) (nanmax X).

Definition transform (self : fitted) (X : list float) : list float :=
  map (fun x => x * scale_ self + min_ self) X.

Definition fit_transform (X : list float) : list float :=
  transform (fit X) X.

End MinMaxScaler.

(* ================================================================== *)
(** ** risk_scorer.py: the batch operations *)

Module Batch.

Record ScoreRecord : Type := { wallet_id : string; score : Z }.

(** A scores frame: its rows, in order. *)
Definition DataFrame : Type := list ScoreRecord.

(** Frames are objects: a variable holds a reference, and the heap maps
    each reference to the rows the frame has at the moment. *)
Definition ref : Type := nat.
Definition heap : Type := ref -> DataFrame.

Definition store (h : heap) (r : ref) (df : DataFrame) : heap :=
  fun r' => if Nat.eqb r' r then df else h r'.

Definition to_dict (row : FeatureExtractor.Features) : RiskScorer.Features := {|
  RiskScorer.supply_to_borrow_ratio :=
    Some (FeatureExtractor.supply_to_borrow_ratio row);
  RiskScorer.number_of_liquidations :=
    Some (PInt (FeatureExtractor.number_of_liquidations row));
  RiskScorer.days_since_last_activity :=
    Some (PInt (FeatureExtractor.days_since_last_activity row));
  RiskScorer.repayment_frequency :=
    Some (FeatureExtractor.repayment_frequency row);
  RiskScorer.volatile_asset_usage :=
    Some (FeatureExtractor.volatile_asset_usage row);
  RiskScorer.protocol_version_usage :=
    Some (FeatureExtractor.protocol_version_usage row);
  RiskScorer.collateral_factor_average :=
    Some (FeatureExtractor.collateral_factor_average row)
|}.

Fixpoint score_all_wallets (features_df : list FeatureExtractor.Features)
  : option DataFrame :=
  match features_df with
  | [] => Some []
  | row :: rest =>
      let features := to_dict row in
      score <- RiskScorer.calculate_risk_score features ;;
      scores <- score_all_wallets rest ;;
      Some ({| wallet_id := FeatureExtractor.wallet_id row; score := score |} :: scores)
  end.

(** [ndarray.astype(int)] on a float64 cell: truncation toward zero to an
    int64; a value with no int64 truncation (nan, infinite, too large)
    becomes [-2^63], as the conversion instruction of x86-64 leaves it. *)
Definition astype_int (f : float) : Z :=
  match Py.trunc f with
  | Some z => if (- 2 ^ 63 <=? z) && (z <? 2 ^ 63) then z else - 2 ^ 63
  | None => - 2 ^ 63
  end.

(** [scores_df['score'] = column]: the rows keep their [wallet_id]. *)
Fixpoint set_score (df : DataFrame) (column : list Z) : DataFrame :=
  match df, column with
  | row :: df', s :: column' =>
      {| wallet_id := wallet_id row; score := s |} :: set_score df' column'
  | _, _ => []
  end.

(** What the call does to the score column. *)
Definition normalize_column (column : list Z) : list Z :=
  let scores := map Py.float_of_int column in
  let normalized_scores :=
    map (fun x => (x * 1000)%float) (MinMaxScaler.fit_transform scores) in
  map astype_int normalized_scores.

(** [normalize_scores]: returns the reference it was given, and the heap
    after the assignment to the [score] column. *)
Definition normalize_scores (scores_df : ref) (h : heap) : ref * heap :=
  let df := h scores_df in
  if empty df then (scores_df, h)
  else
    (scores_df,
     store h scores_df (set_score df (normalize_column (map score df)))).

(** [np.min(scores)] and [np.max(scores)] of an array with elements. *)
Definition np_min (scores : list Z) : Z :=
  match scores with
  | [] => 0
  | s :: rest => fold_left Z.min rest s
  end.

Definition np_max (scores : list Z) : Z :=
  match scores with
  | [] => 0
  | s :: rest => fold_left Z.max rest s
  end.

Inductive summary_value : Type :=
| SInt (z : Z)
| SFloat (f : float)
| SDict (d : list (string * Z)).

Section Summary.

(** numpy's reductions of an int64 array to a float64. *)
Variables np_mean np_median np_std : list Z -> float.

(** [len(scores[mask])] *)
Definition count (mask : Z -> bool) (scores : list Z) : Z :=
  len (filter mask scores).

(** The summary dictionary; [[]] is the empty dictionary. *)
Definition generate_risk_summary (scores_df : DataFrame)
  : list (string * summary_value) :=
  if empty scores_df then []
  else
    let scores := map score scores_df in
    [ ("total_wallets", SInt (len scores));
      ("average_score", SFloat (np_mean scores));
      ("median_score", SFloat (np_median scores));
      ("std_score", SFloat (np_std scores));
      ("min_score", SInt (np_min scores));
      ("max_score", SInt (np_max scores));
      ("risk_distribution",
       SDict
         [ ("Very Low Risk", count (fun x => 800 <=? x) scores);
           ("Low Risk", count (fun x => (600 <=? x) && (x <? 800)) scores);
           ("Moderate Risk", count (fun x => (400 <=? x) && (x <? 600)) scores);
           ("High Risk", count (fun x => (200 <=? x) && (x <? 400)) scores);
           ("Very High Risk", count (fun x => x <? 200) scores) ]) ].

End Summary.

End Batch.


(* ================================================================== *)
(** ** Definitions used by the statements and their proofs *)

(** The feature record of the worked scenario. *)
Definition scenario : RiskScorer.Features := {|
  RiskScorer.supply_to_borrow_ratio := Some (PFloat 0.2);
  RiskScorer.number_of_liquidations := Some (PInt 0);
  RiskScorer.days_since_last_activity := Some (PInt 5);
  RiskScorer.repayment_frequency := Some (PFloat 2.5);
  RiskScorer.volatile_asset_usage := Some (PFloat 0.05);
  RiskScorer.protocol_version_usage := Some "v3";
  RiskScorer.collateral_factor_average := Some (PFloat 0.85)
|}.

(** A record of extreme values: a ratio of 1e9, 10^30 liquidations, an
    infinite repayment frequency, a nan volatile-asset usage, no protocol
    version entry. *)
Definition extreme : RiskScorer.Features := {|
  RiskScorer.supply_to_borrow_ratio := Some (PFloat 1e9);
  RiskScorer.number_of_liquidations := Some (PInt (10 ^ 30));
  RiskScorer.days_since_last_activity := Some (PInt (-4));
  RiskScorer.repayment_frequency := Some (PFloat infinity);
  RiskScorer.volatile_asset_usage := Some (PFloat nan);
  RiskScorer.protocol_version_usage := None;
  RiskScorer.collateral_factor_average := Some (PFloat (-1e300))
|}.

(** The row filters of the extractor, by name. *)
Definition is_supply_event (tx : FeatureExtractor.Transaction) : bool :=
  FeatureExtractor.market_contains "c" tx
  || FeatureExtractor.market_isin ["USDC"; "WETH"; "WBTC"] tx.

Definition is_repayment (tx : FeatureExtractor.Transaction) : bool :=
  FeatureExtractor.market_contains_nocase "repay" tx
  || FeatureExtractor.topics_mention "repay" tx.

(** The rows of [transactions_df] whose [wallet] is [wallet_address]. *)
Definition wallet_rows (transactions_df : list FeatureExtractor.Transaction)
           (wallet_address : string) : list FeatureExtractor.Transaction :=
  filter (fun tx => String.eqb (FeatureExtractor.wallet tx) wallet_address)
         transactions_df.

(** A row for [wallet] on [market] at time [t], with one opaque topic. *)
Definition row_at (wallet market : string) (t : Z) : FeatureExtractor.Transaction := {|
  FeatureExtractor.wallet := wallet;
  FeatureExtractor.market := Some market;
  FeatureExtractor.market_address := "";
  FeatureExtractor.block_number := 15000000;
  FeatureExtractor.transaction_hash := "0x00";
  FeatureExtractor.log_index := 0;
  FeatureExtractor.topics := Some ["0xddf252ad"];
  FeatureExtractor.data := "0x";
  FeatureExtractor.timestamp := t
|}.

(** Four rows of one wallet within one day, three of them repayments. *)
Definition one_day_rows : list FeatureExtractor.Transaction :=
  [ row_at "0xa" "repayBorrow" 1700000000000000;
    row_at "0xa" "cDAI" 1700000001000000;
    row_at "0xa" "RepayBorrow" 1700000002000000;
    row_at "0xa" "cUSDC_repay" 1700000003000000 ].

(** The calendar day (UTC) of a timestamp. *)
Definition calendar_day (t : Z) : Z := t / 86400000000.

(** Two extracted records: a wallet without transactions, and a wallet
    with the feature values of the worked scenario. *)
Definition idle_wallet : FeatureExtractor.Features :=
  FeatureExtractor.default_features "0xa".

Definition scenario_wallet : FeatureExtractor.Features := {|
  FeatureExtractor.wallet_id := "0xb";
  FeatureExtractor.total_transactions := 12;
  FeatureExtractor.first_transaction_date := Some 1690000000000000;
  FeatureExtractor.last_transaction_date := Some 1700000000000000;
  FeatureExtractor.days_since_last_activity := 5;
  FeatureExtractor.total_supplied_usd := 10000;
  FeatureExtractor.total_borrowed_usd := 2000;
  FeatureExtractor.supply_to_borrow_ratio := PFloat 0.2;
  FeatureExtractor.number_of_liquidations := 0;
  FeatureExtractor.repayment_frequency := PFloat 2.5;
  FeatureExtractor.volatile_asset_usage := PFloat 0.05;
  FeatureExtractor.protocol_version_usage := "v3";
  FeatureExtractor.collateral_factor_average := PFloat 0.85;
  FeatureExtractor.borrowing_behavior := "responsible_borrower";
  FeatureExtractor.health_factor_trend := "stable"
|}.

(** The scores frame of these two wallets. *)
Definition two_wallets_scores : Batch.DataFrame :=
  [ {| Batch.wallet_id := "0xa"; Batch.score := 495 |};
    {| Batch.wallet_id := "0xb"; Batch.score := 558 |} ].

(** A raw score as the clamp of [calculate_risk_score] leaves it. *)
Definition in_0_1000 (z : Z) : Prop := 0 <= z <= 1000.

(** The frame that [normalize_scores] returns, as the heap holds it after
    the call. *)
Definition normalized (h : Batch.heap) (r : Batch.ref) : Batch.DataFrame :=
  snd (Batch.normalize_scores r h) (fst (Batch.normalize_scores r h)).

(** A heap with one frame, at reference 0. *)
Definition one_frame (df : Batch.DataFrame) : Batch.heap :=
  Batch.store (fun _ => []) 0%nat df.

(** A frame with the given scores and made-up wallet ids. *)
Definition frame_of (scores : list Z) : Batch.DataFrame :=
  map (fun s => {| Batch.wallet_id := "0x"; Batch.score := s |}) scores.

Section NormalizeEnumeration.

Local Open Scope float_scope.

(** One cell of the normalized column, before [astype(int)]. *)
Definition image (self : MinMaxScaler.fitted) (x : float) : float :=
  (x * MinMaxScaler.scale_ self + MinMaxScaler.min_ self) * 1000.

(** The linear rescaling of [x] anchored to a batch minimum [lo] and a
    batch maximum [hi], truncated. *)
Definition rescaled (lo hi x : Z) : Z :=
  let scale := (1 - 0) / (Py.float_of_int hi - Py.float_of_int lo) in
  let min_ := 0 - Py.float_of_int lo * scale in
  Batch.astype_int ((Py.float_of_int x * scale + min_) * 1000).

(** The integers [0 .. n-1] shifted by [lo], and their floats. *)
Definition ints (lo : Z) (n : nat) : list Z := map (fun k => (lo + Z.of_nat k)%Z) (seq 0 n).

Definition with_float (z : Z) : Z * float := (z, Py.float_of_int z).

(** [P] holds of every member, of every pair and of every triple of floats
    of the integers of [l]. *)
Definition forallb1 (P : Z * float -> bool) (l : list Z) : bool :=
  forallb P (map with_float l).

Definition forallb2 (P : Z * float -> Z * float -> bool) (l : list Z) : bool :=
  let t := map with_float l in
  forallb (fun p => forallb (fun q => P p q) t) t.

Definition forallb3 (P : MinMaxScaler.fitted -> float -> float -> float -> bool)
           (l : list Z) : bool :=
  let t := map Py.float_of_int l in
  forallb (fun fm =>
    forallb (fun fM =>
      if fm <? fM
      then let self := MinMaxScaler.fit_range fm fM in
           forallb (fun fx => P self fm fM fx) t
      else true) t) t.

(** A constant batch: the image of its one value is zero. *)
Definition constant_ok (p : Z * float) : bool :=
  image (MinMaxScaler.fit_range (snd p) (snd p)) (snd p) =? 0.

(** Two scores: their floats compare as the integers do; when the first is
    the smaller, the range is kept as the scale's divisor, the image of the
    minimum is zero and the image of the maximum is in [999, 1001). *)
Definition pair_ok (p q : Z * float) : bool :=
  Bool.eqb (snd p <? snd q) (fst p <? fst q)%Z
  && Bool.eqb (snd p <=? snd q) (fst p <=? fst q)%Z
  && (if (fst p <? fst q)%Z
      then negb (snd q - snd p <? 10 * MinMaxScaler.eps)
           && (image (MinMaxScaler.fit_range (snd p) (snd q)) (snd p) =? 0)
           && (999 <=? image (MinMaxScaler.fit_range (snd p) (snd q)) (snd q))
           && (image (MinMaxScaler.fit_range (snd p) (snd q)) (snd q) <? 1001)
      else true).

(** A score between the minimum and the maximum: its image is in [0, 1001). *)
Definition triple_ok (self : MinMaxScaler.fitted) (fm fM fx : float) : bool :=
  if (fm <=? fx) && (fx <=? fM)
  then (0 <=? image self fx) && (image self fx <? 1001)
  else true.

End NormalizeEnumeration.

Section ScoreEnumeration.

Import RiskScorer.
Local Open Scope float_scope.

(** The values each step function can return. *)
Definition ratio_values : list Z := [0; 100; 50; -50; -100]%Z.
Definition liquidation_values : list Z := [50; -25; -50; -75; -100]%Z.
Definition fifty_values : list Z := [50; 25; 0; -25; -50]%Z.
Definition version_values : list Z := [25; 0; -25]%Z.
Definition collateral_values : list Z := [25; 0; -25; -50]%Z.

(** One pass of the weighting loop: [score * weight]. *)
Definition term (weight : float) (c : Z) : float := Py.float_of_int c * weight.

(** [base_score + weighted_score] once the loop is unrolled. *)
Definition unrolled (t1 t2 t3 t4 t5 t6 t7 : float) : float :=
  Py.float_of_int 500
  + (Py.float_of_int 0 + t1 + t2 + t3 + t4 + t5 + t6 + t7).

Definition in_400_601 (x : float) : bool := (400 <=? x) && (x <? 601).

(** [P] holds of every choice of one member from each of seven lists. *)
Definition forallb7 {A : Type} (g1 g2 g3 g4 g5 g6 g7 : Z -> A)
           (P : A -> A -> A -> A -> A -> A -> A -> bool)
           (l1 l2 l3 l4 l5 l6 l7 : list Z) : bool :=
  forallb (fun t1 => forallb (fun t2 => forallb (fun t3 => forallb (fun t4 =>
  forallb (fun t5 => forallb (fun t6 => forallb (fun t7 => P t1 t2 t3 t4 t5 t6 t7)
    (map g7 l7)) (map g6 l6)) (map g5 l5)) (map g4 l4)) (map g3 l3)) (map g2 l2))
    (map g1 l1).

Definition sum_in_range (t1 t2 t3 t4 t5 t6 t7 : float) : bool :=
  in_400_601 (unrolled t1 t2 t3 t4 t5 t6 t7).

(** [base_score + weighted_score], before the clamp. *)
Definition unclamped (features : Features) : Py.num :=
  Py.add (PInt 500) (weighted_sum Config.RISK_WEIGHTS (risk_components features)).

End ScoreEnumeration.

(* ================================================================== *)
(** ** Further definitions: names for the extractor's row tests *)

(** The row tests of [_calculate_volatile_asset_usage], [_count_liquidations]
    and [_determine_protocol_version]. *)
Definition is_volatile (tx : FeatureExtractor.Transaction) : bool :=
  existsb (fun asset => Str.contains asset (Str.upper (FeatureExtractor.market_str tx)))
          Config.VOLATILE_ASSETS.

Definition is_liquidation (tx : FeatureExtractor.Transaction) : bool :=
  FeatureExtractor.market_contains_nocase "liquidate" tx
  || FeatureExtractor.topics_mention "liquidate" tx.

Definition on_v2_market (tx : FeatureExtractor.Transaction) : bool :=
  FeatureExtractor.market_isin Config.COMPOUND_V2_MARKETS tx.

Definition on_v3_market (tx : FeatureExtractor.Transaction) : bool :=
  FeatureExtractor.market_isin Config.COMPOUND_V3_MARKETS tx.

(** The characters of [f"0x{bytes.hex()}"], of a log topic and of a
    transaction hash: digits, the letters a to f in either case, and x. *)
Definition is_hex_text_char (c : ascii) : bool :=
  let n := nat_of_ascii c in
  (Nat.leb 48 n && Nat.leb n 57)
  || (Nat.leb 97 n && Nat.leb n 102)
  || (Nat.leb 65 n && Nat.leb n 70)
  || Nat.eqb n 120.

Fixpoint all_chars (P : ascii -> bool) (s : string) : bool :=
  match s with
  | EmptyString => true
  | String c s' => P c && all_chars P s'
  end.

(** A row as [create_simulated_transactions] builds it: the market is one
    of the configured market names and the topics are a list of
    hexadecimal digests. *)
Definition collected_row (tx : FeatureExtractor.Transaction) : bool :=
  FeatureExtractor.market_isin
    (Config.COMPOUND_V2_MARKETS ++ Config.COMPOUND_V3_MARKETS) tx
  && match FeatureExtractor.topics tx with
     | Some x => forallb (all_chars is_hex_text_char) x
     | None => false
     end.

(** Three rows of that shape, of one wallet. *)
Definition collected_rows : list FeatureExtractor.Transaction :=
  [ row_at "0xa" "cDAI" 1700000000000000;
    row_at "0xa" "WETH" 1700090000000000;
    row_at "0xa" "LINK" 1700200000000000 ].

(* ================================================================== *)
(** ** config.py: the market dictionaries with their addresses *)

Module Addresses.

Definition COMPOUND_V2_COMPTROLLER : string :=
  "0x3d9819210A31b4961b30EF54bE2aeD79B9c9Cd3B".
Definition COMPOUND_V3_COMPTROLLER : string :=
  "0x3d9819210A31b4961b30EF54bE2aeD79B9c9Cd3B".

Definition COMPOUND_V2_MARKETS : list (string * string) :=
  [ ("cDAI", "0x5d3a536E4D6DbD6114cc1Ead35777bAB948E3643");
    ("cUSDC", "0x39AA39c021dfbaE8faC545936693aC917d5E7563");
    ("cETH", "0x4Ddc2D193948926D02f9B1fE9e1daa0718270ED5");
    ("cWBTC", "0xC11b1268C1A384e55C48c2391d8d480264A3A7F4");
    ("cUSDT", "0xf650C3d88D12dB855b8bf7D11Be6C55A4e07dCC9");
    ("cCOMP", "0x70e36f6BF80a52b3B46b3aF8e106CC0ed743E8e4");
    ("cUNI", "0x35A18000230DA775CAc24873d00Ff85BccdeD550");
    ("cLINK", "0xFAce851a4921ce59e912d19329929CE6da6EB0c7");
    ("cMKR", "0x95b4eF2869eBD94BEb4eEE400a97824Af4F4Ab1c");
    ("cYFI", "0x80a2AE356fc9ef4305676f7a3E2Ed04e12C33946");
    ("cBAT", "0x6C8c6b02E7b2BE14d4fA6022Dfd6d75921D90E4E");
    ("cZRX", "0xB3319f5D18Bc0D84dD1b4825Dcde5d5f7266d407");
    ("cAAVE", "0xe65cdB6479BaC1e22340E4E755fAE7E509EcD06c");
    ("cSUSHI", "0x4B0181102A0112A2ef11AbEE5563bb4a3176c9d7") ].

Definition COMPOUND_V3_MARKETS : list (string * string) :=
  [ ("USDC", "0xc3d688B66703497DAA19211EEdff47f25384cdc3");
    ("WETH", "0xA17581A9E3356d9A858b789D68B4d7eD7D5b8A6A");
    ("WBTC", "0xccF4429DB6322D5C611ee964527D42E5d685DD6a");
    ("LINK", "0x9c4ec768c28520B50860ea7a15bd7213a9fF58bf");
    ("UNI", "0x9a0242b7a33DAcbe44eD41d3A2b3b3a3C3b3b3b3") ].

End Addresses.

(* ================================================================== *)
(** ** data_collector.py: the test for a Compound transfer *)

Module DataCollector.

(** [transfer] is the dictionary of one asset transfer, with text values. *)
Definition _is_compound_transaction (transfer : list (string * string)) : bool :=
  let compound_addresses :=
    ((map snd Addresses.COMPOUND_V2_MARKETS ++ map snd Addresses.COMPOUND_V3_MARKETS)
     ++ [Addresses.COMPOUND_V2_COMPTROLLER; Addresses.COMPOUND_V3_COMPTROLLER])%list in
  let from_addr := Str.lower (dict_get transfer "from" "") in
  let to_addr := Str.lower (dict_get transfer "to" "") in
  existsb (fun addr => Str.isin (Str.lower addr) [from_addr; to_addr]) compound_addresses.

End DataCollector.

(* ================================================================== *)
(** ** main.py: the simulated transactions *)

Module Main.

Definition hex_digit (n : nat) : ascii :=
  nth n [ "0"; "1"; "2"; "3"; "4"; "5"; "6"; "7";
          "8"; "9"; "a"; "b"; "c"; "d"; "e"; "f" ]%char "0"%char.

(** [bytes.hex()] *)
Fixpoint hex (bs : list Byte.byte) : string :=
  match bs with
  | [] => EmptyString
  | b :: bs' =>
      String (hex_digit (Nat.div (Byte.to_nat b) 16))
             (String (hex_digit (Nat.modulo (Byte.to_nat b) 16)) (hex bs'))
  end.

(** What one pass of the inner loop draws and reads: the index that
    [np.random.choice] picks in [markets], the value of
    [np.random.randint(0, 365)], the value of [datetime.now()], the block
    number and the three byte strings.  The drawn [tx_type] is not stored
    in the row. *)
Record draws : Type := {
  market_index : nat;
  days_ago : Z;
  now : Z;
  block : Z;
  hash_bytes : list Byte.byte;
  topic_bytes : list Byte.byte;
  data_bytes : list Byte.byte
}.

Definition markets : list string :=
  (map fst Addresses.COMPOUND_V2_MARKETS ++ map fst Addresses.COMPOUND_V3_MARKETS)%list.

(** The dictionary [transaction] of pass [i] for [wallet]. *)
Definition simulated_transaction (wallet : string) (i : Z) (d : draws)
  : FeatureExtractor.Transaction :=
  let market := nth (market_index d) markets "" in
  {|
    FeatureExtractor.wallet := wallet;
    FeatureExtractor.market := Some market;
    FeatureExtractor.market_address :=
      dict_get Addresses.COMPOUND_V2_MARKETS market
               (dict_get Addresses.COMPOUND_V3_MARKETS market "");
    FeatureExtractor.block_number := block d;
    FeatureExtractor.transaction_hash := "0x" ++ hex (hash_bytes d);
    FeatureExtractor.log_index := i;
    FeatureExtractor.topics := Some ["0x" ++ hex (topic_bytes d)];
    FeatureExtractor.data := "0x" ++ hex (data_bytes d);
    FeatureExtractor.timestamp := now d - days_ago d * 86400000000
  |}.

(** [for i in range(num_transactions)], from pass [i] on. *)
Fixpoint simulated_rows (wallet : string) (i : Z) (ds : list draws)
  : list FeatureExtractor.Transaction :=
  match ds with
  | [] => []
  | d :: ds' => simulated_transaction wallet i d :: simulated_rows wallet (i + 1) ds'
  end.

(** [random k] is what the passes for the wallet at position [k] draw;
    its length is that wallet's [num_transactions]. *)
Fixpoint create_simulated_transactions_from (random : nat -> list draws) (k : nat)
         (wallet_addresses : list string) : list FeatureExtractor.Transaction :=
  match wallet_addresses with
  | [] => []
  | wallet :: rest =>
      (simulated_rows wallet 0 (random k)
       ++ create_simulated_transactions_from random (S k) rest)%list
  end.

Definition create_simulated_transactions (random : nat -> list draws)
           (wallet_addresses : list string) : list FeatureExtractor.Transaction :=
  create_simulated_transactions_from random 0 wallet_addresses.

End Main.

(** A text of ASCII characters: on such a text [Str.lower] and [Str.upper]
    are [str.lower] and [str.upper]. *)
Definition is_ascii (s : string) : bool :=
  all_chars (fun c => Nat.ltb (nat_of_ascii c) 128) s.

(** The draws that [np.random.choice] and [np.random.randint] can make. *)
Definition possible (d : Main.draws) : Prop :=
  (Main.market_index d < List.length Main.markets)%nat
  /\ 0 <= Main.days_ago d < 365.

(** One draw, used for every pass of every wallet, twice per wallet. *)
Definition one_draw : Main.draws := {|
  Main.market_index := 16;
  Main.days_ago := 30;
  Main.now := 1700000000000000;
  Main.block := 15000000;
  Main.hash_bytes := [Byte.x1f; Byte.xa0];
  Main.topic_bytes := [Byte.xdd; Byte.xf2; Byte.x52; Byte.xad];
  Main.data_bytes := []
|}.

Definition same_draws (k : nat) : list Main.draws := [one_draw; one_draw].

(* ================================================================== *)
(** ** sheet_parser.py

    Text is modelled over the code points below 256. *)

Module SheetParser.

(** The character classes [[a-fA-F0-9]] and [[a-zA-Z0-9-_]]. *)
Definition is_hex_digit (c : ascii) : bool :=
  let n := nat_of_ascii c in
  (Nat.leb 97 n && Nat.leb n 102)
  || (Nat.leb 65 n && Nat.leb n 70)
  || (Nat.leb 48 n && Nat.leb n 57).

Definition is_id_char (c : ascii) : bool :=
  let n := nat_of_ascii c in
  (Nat.leb 97 n && Nat.leb n 122)
  || (Nat.leb 65 n && Nat.leb n 90)
  || (Nat.leb 48 n && Nat.leb n 57)
  || Nat.eqb n 45
  || Nat.eqb n 95.

(** [str.isspace] of one character. *)
Definition is_space (c : ascii) : bool :=
  let n := nat_of_ascii c in
  (Nat.leb 9 n && Nat.leb n 13)
  || (Nat.leb 28 n && Nat.leb n 32)
  || Nat.eqb n 133
  || Nat.eqb n 160.

Fixpoint lstrip (s : string) : string :=
  match s with
  | EmptyString => EmptyString
  | String c s' => if is_space c then lstrip s' else s
  end.

Fixpoint rstrip (s : string) : string :=
  match s with
  | EmptyString => EmptyString
  | String c s' =>
      match rstrip s' with
      | EmptyString => if is_space c then EmptyString else String c EmptyString
      | r => String c r
      end
  end.

(** [s.strip()] *)
Definition strip (s : string) : string := rstrip (lstrip s).

(** A match of [[a-fA-F0-9]{n}] at the start of [s]: what follows it. *)
Fixpoint hex_run (n : nat) (s : string) : option string :=
  match n with
  | O => Some s
  | S n' =>
      match s with
      | String c s' => if is_hex_digit c then hex_run n' s' else None
      | EmptyString => None
      end
  end.

(** [$] without [re.MULTILINE]: the end of the text, or the newline that
    ends it. *)
Definition at_end (s : string) : bool :=
  match s with
  | EmptyString => true
  | String c EmptyString => Ascii.eqb c "010"
  | _ => false
  end.

(** [bool(re.match(r'^0x[a-fA-F0-9]{40}$', address))] *)
Definition is_valid_ethereum_address (address : string) : bool :=
  match address with
  | String "0" (String "x" rest) =>
      match hex_run 40 rest with
      | Some rest' => at_end rest'
      | None => false
      end
  | _ => false
  end.

(** [s] without the prefix [p], when it starts with it. *)
Fixpoint strip_prefix (p s : string) : option string :=
  match p with
  | EmptyString => Some s
  | String a p' =>
      match s with
      | String b s' => if Ascii.eqb a b then strip_prefix p' s' else None
      | EmptyString => None
      end
  end.

(** The longest prefix of [s] whose characters all satisfy [P]. *)
Fixpoint take_while (P : ascii -> bool) (s : string) : string :=
  match s with
  | EmptyString => EmptyString
  | String c s' => if P c then String c (take_while P s') else EmptyString
  end.

(** A match of [/spreadsheets/d/([a-zA-Z0-9-_]+)] at the start of [url]:
    its group. *)
Definition match_here (url : string) : option string :=
  match strip_prefix "/spreadsheets/d/" url with
  | Some rest =>
      match take_while is_id_char rest with
      | EmptyString => None
      | sheet_id => Some sheet_id
      end
  | None => None
  end.

(** [re.search] takes the leftmost match; [None] is the [ValueError]. *)
Fixpoint extract_sheet_id (url : string) : option string :=
  match match_here url with
  | Some sheet_id => Some sheet_id
  | None =>
      match url with
      | EmptyString => None
      | String _ url' => extract_sheet_id url'
      end
  end.

Definition get_sample_wallets : list string :=
  [ "0xfaa0768bde629806739c3a4620656c5d26f44ef2";
    "0x742d35Cc6634C0532925a3b8D4C9db96C4b4d8b6";
    "0x1234567890123456789012345678901234567890";
    "0xabcdef1234567890abcdef1234567890abcdef12";
    "0x9876543210987654321098765432109876543210";
    "0x1111111111111111111111111111111111111111";
    "0x2222222222222222222222222222222222222222";
    "0x3333333333333333333333333333333333333333";
    "0x4444444444444444444444444444444444444444";
    "0x5555555555555555555555555555555555555555";
    "0x6666666666666666666666666666666666666666";
    "0x7777777777777777777777777777777777777777";
    "0x8888888888888888888888888888888888888888";
    "0x9999999999999999999999999999999999999999";
    "0xaaaaaaaaaaaaaaaaaaaaaaaaaaaaaaaaaaaaaaaa";
    "0xbbbbbbbbbbbbbbbbbbbbbbbbbbbbbbbbbbbbbbbb";
    "0xcccccccccccccccccccccccccccccccccccccccc";
    "0xdddddddddddddddddddddddddddddddddddddddd";
    "0xeeeeeeeeeeeeeeeeeeeeeeeeeeeeeeeeeeeeeeee";
    "0xffffffffffffffffffffffffffffffffffffffff" ].

(** One cell of the sheet: [None] where [pd.notna] is false, and
    [str(value)] otherwise. *)
Definition cell : Type := option string.

(** The loop over [row.values] with its [break]: the first value that is
    present and not blank, stripped. *)
Fixpoint first_value (values : list cell) : option string :=
  match values with
  | [] => None
  | value :: rest =>
      match value with
      | Some text =>
          match strip text with
          | EmptyString => first_value rest
          | address => Some address
          end
      | None => first_value rest
      end
  end.

(** The loop over [df.iterrows()]. *)
Fixpoint row_addresses (df : list (list cell)) : list string :=
  match df with
  | [] => []
  | row :: rest =>
      match first_value row with
      | Some address =>
          if is_valid_ethereum_address address
          then address :: row_addresses rest
          else row_addresses rest
      | None => row_addresses rest
      end
  end.

Definition csv_url (sheet_id : string) : string :=
  "https://docs.google.com/spreadsheets/d/" ++ sheet_id ++ "/export?format=csv".

Section Sheet.

(** The download and [pd.read_csv]: the rows of the frame, or [None]
    when one of the two raises. *)
Variable fetch : string -> option (list (list cell)).

Definition parse_google_sheet (sheet_url : string) : list string :=
  match extract_sheet_id sheet_url with
  | Some sheet_id =>
      match fetch (csv_url sheet_id) with
      | Some df => row_addresses df
      | None => []
      end
  | None => []
  end.

Definition load_wallets_from_sheet (sheet_url : string) : list string :=
  let wallets := parse_google_sheet sheet_url in
  if empty wallets then get_sample_wallets else wallets.

(** [load_wallet_addresses] of main.py; [None] is the default argument. *)
Definition load_wallet_addresses (sheet_url : option string) : list string :=
  match sheet_url with
  | Some (String c url) => load_wallets_from_sheet (String c url)
  | _ =>
      let default_url :=
        "https://docs.google.com/spreadsheets/d/1ZzaeMgNYnxvriYYpe8PE7uMEblTI0GV5GIVUnsP-sBs/edit?usp=sharing" in
      load_wallets_from_sheet default_url
  end.

End Sheet.

End SheetParser.

(** A text of exactly [n] hexadecimal digits. *)
Fixpoint hex_digits (n : nat) (s : string) : bool :=
  match n, s with
  | O, EmptyString => true
  | S n', String c s' => SheetParser.is_hex_digit c && hex_digits n' s'
  | _, _ => false
  end.

(** The last character of [s] is a space. *)
Fixpoint ends_with_space (s : string) : bool :=
  match s with
  | EmptyString => false
  | String c EmptyString => SheetParser.is_space c
  | String _ s' => ends_with_space s'
  end.

(** A sheet of four rows: an address after a blank cell, a name before an
    address, an address with spaces around it, and a row without values. *)
Definition four_rows : list (list SheetParser.cell) :=
  [ [None; Some "  "; Some "0x742d35Cc6634C0532925a3b8D4C9db96C4b4d8b6"];
    [Some "alice"; Some "0x1234567890123456789012345678901234567890"];
    [Some " 0xfaa0768bde629806739c3a4620656c5d26f44ef2 "];
    [None; None] ].

(** A download that always gives the four rows, and one that fails. *)
Definition four_rows_sheet (url : string) : option (list (list SheetParser.cell)) :=
  Some four_rows.

Definition no_sheet (url : string) : option (list (list SheetParser.cell)) := None.

(* ================================================================== *)
(** ** Further definitions: the order of the scores *)

Section ScoreOrder.

Import RiskScorer.
Local Open Scope float_scope.

(** [unrolled] with the floats of the base score and of the initial
    [weighted_score] named. *)
Definition sum_from (base zero t1 t2 t3 t4 t5 t6 t7 : float) : float :=
  base + (zero + t1 + t2 + t3 + t4 + t5 + t6 + t7).

(** A contribution with its term of the weighted sum. *)
Definition with_term (weight : float) (c : Z) : Z * float := (c, term weight c).

(** [P] holds of every choice of one member from each of seven lists. *)
Definition forall7 {A : Type} (P : A -> A -> A -> A -> A -> A -> A -> bool)
           (l1 l2 l3 l4 l5 l6 l7 : list A) : bool :=
  forallb (fun p1 => forallb (fun p2 => forallb (fun p3 => forallb (fun p4 =>
  forallb (fun p5 => forallb (fun p6 => forallb (fun p7 => P p1 p2 p3 p4 p5 p6 p7)
    l7) l6) l5) l4) l3) l2) l1.

(** When the contribution [c] is not above that of [p], the sum with [c]
    in the place of [p] is not above the sum with [p]. *)
Definition not_above (c : Z) (p : Z * float) (lower sum : float) : bool :=
  if (c <=? fst p)%Z then lower <=? sum else true.

(** The sum for seven contributions is in [430, 559), and replacing one
    contribution by one that is not above it does not raise the sum. *)
Definition ordered_sums (base zero : float) (l1 l2 l3 l4 l5 l6 l7 : list (Z * float))
           (p1 p2 p3 p4 p5 p6 p7 : Z * float) : bool :=
  let sum := sum_from base zero (snd p1) (snd p2) (snd p3) (snd p4) (snd p5) (snd p6)
                      (snd p7) in
  (430 <=? sum) && (sum <? 559)
  && forallb (fun q => not_above (fst q) p1
       (sum_from base zero (snd q) (snd p2) (snd p3) (snd p4) (snd p5) (snd p6) (snd p7))
       sum) l1
  && forallb (fun q => not_above (fst q) p2
       (sum_from base zero (snd p1) (snd q) (snd p3) (snd p4) (snd p5) (snd p6) (snd p7))
       sum) l2
  && forallb (fun q => not_above (fst q) p3
       (sum_from base zero (snd p1) (snd p2) (snd q) (snd p4) (snd p5) (snd p6) (snd p7))
       sum) l3
  && forallb (fun q => not_above (fst q) p4
       (sum_from base zero (snd p1) (snd p2) (snd p3) (snd q) (snd p5) (snd p6) (snd p7))
       sum) l4
  && forallb (fun q => not_above (fst q) p5
       (sum_from base zero (snd p1) (snd p2) (snd p3) (snd p4) (snd q) (snd p6) (snd p7))
       sum) l5
  && forallb (fun q => not_above (fst q) p6
       (sum_from base zero (snd p1) (snd p2) (snd p3) (snd p4) (snd p5) (snd q) (snd p7))
       sum) l6
  && forallb (fun q => not_above (fst q) p7
       (sum_from base zero (snd p1) (snd p2) (snd p3) (snd p4) (snd p5) (snd p6) (snd q))
       sum) l7.

Definition all_ordered_sums (base zero : float) (l1 l2 l3 l4 l5 l6 l7 : list (Z * float))
  : bool :=
  forall7 (ordered_sums base zero l1 l2 l3 l4 l5 l6 l7) l1 l2 l3 l4 l5 l6 l7.

(** The sum before the clamp, for seven contributions. *)
Definition sum_of (c1 c2 c3 c4 c5 c6 c7 : Z) : float :=
  unrolled (term 0.25 c1) (term 0.20 c2) (term 0.15 c3) (term 0.15 c4)
           (term 0.10 c5) (term 0.10 c6) (term 0.05 c7).

(** The score for seven contributions: [int] of the sum. *)
Definition score_of (c1 c2 c3 c4 c5 c6 c7 : Z) : Z :=
  match Py.trunc (sum_of c1 c2 c3 c4 c5 c6 c7) with
  | Some s => s
  | None => 0
  end.

(** Seven values that the step functions can return, in the order of
    [risk_components]. *)
Definition contributions (c1 c2 c3 c4 c5 c6 c7 : Z) : Prop :=
  In c1 ratio_values /\ In c2 liquidation_values /\ In c3 fifty_values
  /\ In c4 fifty_values /\ In c5 fifty_values /\ In c6 version_values
  /\ In c7 collateral_values.

(** The feature dictionary with another liquidation count, and with
    another number of days of inactivity. *)
Definition with_liquidations (features : Features) (n : Z) : Features := {|
  supply_to_borrow_ratio := supply_to_borrow_ratio features;
  number_of_liquidations := Some (PInt n);
  days_since_last_activity := days_since_last_activity features;
  repayment_frequency := repayment_frequency features;
  volatile_asset_usage := volatile_asset_usage features;
  protocol_version_usage := protocol_version_usage features;
  collateral_factor_average := collateral_factor_average features
|}.

Definition with_inactivity (features : Features) (n : Z) : Features := {|
  supply_to_borrow_ratio := supply_to_borrow_ratio features;
  number_of_liquidations := number_of_liquidations features;
  days_since_last_activity := Some (PInt n);
  repayment_frequency := repayment_frequency features;
  volatile_asset_usage := volatile_asset_usage features;
  protocol_version_usage := protocol_version_usage features;
  collateral_factor_average := collateral_factor_average features
|}.

(** The features with the lowest contribution in every component. *)
Definition worst : Features := {|
  supply_to_borrow_ratio := Some (PFloat 0.95);
  number_of_liquidations := Some (PInt 6);
  days_since_last_activity := Some (PInt 200);
  repayment_frequency := Some (PInt 0);
  volatile_asset_usage := Some (PFloat 0.8);
  protocol_version_usage := Some "none";
  collateral_factor_average := Some (PFloat 0.3)
|}.

End ScoreOrder.

(** The rows of a frame whose score falls in the category [label]. *)
Definition in_category (label : string) (scores_df : Batch.DataFrame) : Batch.DataFrame :=
  filter (fun row => String.eqb (RiskScorer.get_risk_category (Batch.score row)) label)
         scores_df.

(** [score_all_wallets] followed by [normalize_scores], as [main] calls
    them: the frame that [score_all_wallets] creates is stored at a fresh
    reference [r], and [normalize_scores] is called on it.  [None] stands
    for an exception. *)
Definition score_and_normalize (features_df : list FeatureExtractor.Features)
           (h : Batch.heap) (r : Batch.ref) : option (Batch.ref * Batch.heap) :=
  scores_df <- Batch.score_all_wallets features_df ;;
  Some (Batch.normalize_scores r (Batch.store h r scores_df)).

(* ================================================================== *)
(** ** main.py: the steps of [main] up to the normalized scores *)

From Stdlib Require Import Permutation.

(** Steps 1 to 4 of [main]: the wallet addresses are loaded, their
    transactions are simulated, the features are extracted and the scores
    are computed and normalized.  [fetch] is the download of the sheet,
    [random] holds the draws of the simulation, [now] is the time of the
    extraction, and the scores frame is created at the fresh reference
    [r] of the heap [h]. *)
Definition main_scores (fetch : string -> option (list (list SheetParser.cell)))
           (random : nat -> list Main.draws) (now : Z)
           (h : Batch.heap) (r : Batch.ref) : option (Batch.ref * Batch.heap) :=
  let wallet_addresses := SheetParser.load_wallet_addresses fetch None in
  let transactions_df := Main.create_simulated_transactions random wallet_addresses in
  features_df <- FeatureExtractor.extract_all_wallet_features
                   now transactions_df wallet_addresses ;;
  score_and_normalize features_df h r.

(** Two rows of one wallet, the first on a volatile market, and the same
    rows in the other order. *)
Definition volatile_first : list FeatureExtractor.Transaction :=
  [ row_at "0xa" "WBTC" 1700000000000000; row_at "0xa" "cDAI" 1700090000000000 ].

Definition volatile_last : list FeatureExtractor.Transaction :=
  [ row_at "0xa" "cDAI" 1700090000000000; row_at "0xa" "WBTC" 1700000000000000 ].

(* ================================================================== *)
(** ** Further definitions: the order of the normalized scores *)

Section NormalizeOrder.

Local Open Scope float_scope.

(** The pairs of neighbours of a list. *)
Definition neighbours {A : Type} (t : list A) : list (A * A) := combine t (tl t).

(** Two neighbouring scores between the minimum and the maximum: their
    images are in [0, 1001) and in the order of the scores. *)
Definition step_ok (self : MinMaxScaler.fitted) (fm fM : float) (p : float * float)
  : bool :=
  if (fm <=? fst p) && (snd p <=? fM)
  then (0 <=? image self (fst p))
       && (image self (fst p) <? 1001)
       && (image self (fst p) <=? image self (snd p))
       && (image self (snd p) <? 1001)
  else true.

(** [P] holds of every minimum, maximum and pair of neighbours among the
    floats of the integers of [l]. *)
Definition forallb_steps
           (P : MinMaxScaler.fitted -> float -> float -> float * float -> bool)
           (l : list Z) : bool :=
  let t := map Py.float_of_int l in
  forallb (fun fm =>
    forallb (fun fM =>
      if fm <? fM
      then let self := MinMaxScaler.fit_range fm fM in
           forallb (P self fm fM) (neighbours t)
      else true) t) t.

(** One cell of the normalized column of a batch with minimum [lo] and
    maximum [hi]. *)
Definition batch_image (lo hi x : Z) : Z :=
  Batch.astype_int (image (MinMaxScaler.fit_range (Py.float_of_int lo)
                                                  (Py.float_of_int hi))
                          (Py.float_of_int x)).

End NormalizeOrder.

(* ================================================================== *)
(** * Facts about binary64 values

    What the comparisons of a float with a constant say about its mantissa
    and exponent, and hence about its truncation. *)

Section Binary64.

Lemma digits2_pos_bounds (p : positive) :
  2 ^ (Z.pos (digits2_pos p) - 1) <= Z.pos p < 2 ^ Z.pos (digits2_pos p).
Proof.
  induction p as [p IH | p IH | ]; cbn [digits2_pos].
  - rewrite Pos2Z.inj_succ, Z.pow_succ_r by lia.
    replace (Z.succ (Z.pos (digits2_pos p)) - 1)
      with (Z.succ (Z.pos (digits2_pos p) - 1)) by lia.
    rewrite Z.pow_succ_r by lia. lia.
  - rewrite Pos2Z.inj_succ, Z.pow_succ_r by lia.
    replace (Z.succ (Z.pos (digits2_pos p)) - 1)
      with (Z.succ (Z.pos (digits2_pos p) - 1)) by lia.
    rewrite Z.pow_succ_r by lia. lia.
  - cbn. lia.
Qed.

(** The mantissa of a finite binary64 value has at most 53 bits, and
    exactly 53 unless the exponent is the least one. *)
Lemma Prim2SF_finite_bounds (f : float) (s : bool) (m : positive) (e : Z) :
  Prim2SF f = S754_finite s m e ->
  Z.pos m < 2 ^ 53 /\ -1074 <= e <= 971 /\ (e = -1074 \/ 2 ^ 52 <= Z.pos m).
Proof.
  intros H. pose proof (Prim2SF_valid f) as V. rewrite H in V.
  unfold valid_binary, bounded, canonical_mantissa, fexp in V.
  change (SpecFloat.emin prec emax) with (-1074) in V.
  change prec with 53 in V. change emax with 1024 in V.
  apply andb_true_iff in V. destruct V as [C B].
  apply Z.eqb_eq in C. apply Z.leb_le in B.
  pose proof (digits2_pos_bounds m) as [Dlo Dhi].
  set (d := Z.pos (digits2_pos m)) in *.
  assert (Hd : d <= 53) by lia.
  split; [| split].
  - eapply Z.lt_le_trans; [exact Dhi |]. apply Z.pow_le_mono_r; lia.
  - lia.
  - destruct (Z.eq_dec e (-1074)) as [-> | Hne]; [now left | right].
    assert (d = 53) by lia.
    replace 52 with (d - 1) by lia. exact Dlo.
Qed.

Lemma SFltb_const (m : positive) (e : Z) (mc : positive) (c k : Z) :
  Z.pos m < 2 ^ 53 ->
  Z.pos mc = c * 2 ^ k -> 0 < k -> 2 ^ 52 <= Z.pos mc ->
  SFltb (S754_finite false m e) (S754_finite false mc (- k)) = true ->
  e < 0 /\ Z.pos m < c * 2 ^ (- e).
Proof.
  intros Hm Hmc Hk Hn H. unfold SFltb, SFcompare in H.
  assert (Hc : 0 < c) by (pose proof (Z.pow_pos_nonneg 2 k); nia).
  destruct (Z.compare_spec e (- k)) as [E | E | E]; try discriminate.
  - subst e. split; [lia |].
    change (Pos.compare_cont Eq m mc) with (Pos.compare m mc) in H.
    destruct (Pos.compare_spec m mc) as [? | L | ?]; try discriminate.
    rewrite Z.opp_involutive, <- Hmc. lia.
  - split; [lia |].
    assert (P : 2 ^ (k + 1) <= 2 ^ (- e)) by (apply Z.pow_le_mono_r; lia).
    rewrite Z.pow_add_r in P by lia. change (2 ^ 1) with 2 in P.
    change (2 ^ 53) with (2 * 2 ^ 52) in Hm. nia.
Qed.

Lemma SFleb_const (s : bool) (m : positive) (e : Z) (mc : positive) (c k : Z) :
  (e = -1074 \/ 2 ^ 52 <= Z.pos m) ->
  Z.pos mc = c * 2 ^ k -> 0 < k < 1074 -> Z.pos mc < 2 ^ 53 ->
  SFleb (S754_finite false mc (- k)) (S754_finite s m e) = true ->
  s = false /\ (if 0 <=? e then c <= Z.pos m * 2 ^ e else c * 2 ^ (- e) <= Z.pos m).
Proof.
  intros Hn Hmc Hk Hlt H. unfold SFleb, SFcompare in H.
  destruct s; [discriminate | split; [reflexivity |]].
  assert (Hc : 0 < c) by (pose proof (Z.pow_pos_nonneg 2 k); nia).
  assert (Hc52 : 2 * (c * 2 ^ (k - 1)) < 2 ^ 53).
  { replace (2 * (c * 2 ^ (k - 1))) with (c * (2 ^ 1 * 2 ^ (k - 1))) by (change (2 ^ 1) with 2; ring).
    rewrite <- Z.pow_add_r by lia. replace (1 + (k - 1)) with k by lia. lia. }
  change (2 ^ 53) with (2 * 2 ^ 52) in Hc52.
  destruct (Z.compare_spec (- k) e) as [E | E | E]; try discriminate.
  - subst e. replace (0 <=? - k) with false by (symmetry; apply Z.leb_gt; lia).
    change (Pos.compare_cont Eq mc m) with (Pos.compare mc m) in H.
    rewrite Z.opp_involutive, <- Hmc.
    destruct (Pos.compare_spec mc m) as [-> | L | ?]; try discriminate; lia.
  - destruct Hn as [-> | Hn]; [lia |].
    destruct (Z.leb_spec 0 e) as [P | P].
    + assert (1 <= 2 ^ e) by (pose proof (Z.pow_pos_nonneg 2 e); lia).
      assert (1 <= 2 ^ (k - 1)) by (pose proof (Z.pow_pos_nonneg 2 (k - 1)); lia).
      nia.
    + assert (Q : 2 ^ (- e) <= 2 ^ (k - 1)) by (apply Z.pow_le_mono_r; lia).
      nia.
Qed.

(** A float between two positive constants truncates between the
    integers they stand for, and compares accordingly with any [int]. *)
Lemma float_between (f flo fhi : float) (mlo mhi : positive) (clo klo chi khi : Z) :
  Prim2SF flo = S754_finite false mlo (- klo) ->
  Prim2SF fhi = S754_finite false mhi (- khi) ->
  Z.pos mlo = clo * 2 ^ klo -> 0 < klo < 1074 -> Z.pos mlo < 2 ^ 53 ->
  Z.pos mhi = chi * 2 ^ khi -> 0 < khi -> 2 ^ 52 <= Z.pos mhi ->
  PrimFloat.leb flo f = true -> PrimFloat.ltb f fhi = true ->
  exists z, Py.trunc f = Some z /\ clo <= z < chi
    /\ (forall a, a < clo -> Py.compare_int_float a f = Some Lt)
    /\ (forall b, chi <= b -> Py.compare_int_float b f = Some Gt).
Proof.
  intros Plo Phi Hlo Hklo Hmlo Hhi Hkhi Hmhi L U.
  rewrite leb_spec, Plo in L. rewrite ltb_spec, Phi in U.
  unfold Py.trunc, Py.compare_int_float.
  destruct (Prim2SF f) as [s | s | | s m e] eqn:E;
    try (destruct s; discriminate); try discriminate.
  destruct (Prim2SF_finite_bounds _ _ _ _ E) as (B1 & B2 & B3).
  destruct (SFleb_const _ _ _ _ _ _ B3 Hlo Hklo Hmlo L) as [-> Lo].
  destruct (SFltb_const _ _ _ _ _ B1 Hhi Hkhi Hmhi U) as [Eneg Up].
  replace (0 <=? e) with false in * by (symmetry; apply Z.leb_gt; lia).
  assert (P : 0 < 2 ^ (- e)) by (apply Z.pow_pos_nonneg; lia).
  exists (Z.pos m / 2 ^ (- e)). split; [reflexivity |]. split; [split |]; [| | split].
  - apply Z.div_le_lower_bound; lia.
  - apply Z.div_lt_upper_bound; lia.
  - intros a Ha. f_equal. apply Z.compare_lt_iff. nia.
  - intros b Hb. f_equal. apply Z.compare_gt_iff. nia.
Qed.

(** The same with zero for the lower constant. *)
Lemma float_below (f fhi : float) (mhi : positive) (chi khi : Z) :
  Prim2SF fhi = S754_finite false mhi (- khi) ->
  Z.pos mhi = chi * 2 ^ khi -> 0 < khi -> 2 ^ 52 <= Z.pos mhi ->
  PrimFloat.leb 0 f = true -> PrimFloat.ltb f fhi = true ->
  exists z, Py.trunc f = Some z /\ 0 <= z < chi.
Proof.
  intros Phi Hhi Hkhi Hmhi L U.
  rewrite leb_spec in L. change (Prim2SF 0) with (S754_zero false) in L.
  rewrite ltb_spec, Phi in U.
  unfold Py.trunc.
  destruct (Prim2SF f) as [s | s | | s m e] eqn:E;
    try (destruct s; discriminate); try discriminate.
  - exists 0. split; [reflexivity |].
    assert (0 < chi) by (pose proof (Z.pow_pos_nonneg 2 khi); nia). lia.
  - destruct s; [discriminate |].
    destruct (Prim2SF_finite_bounds _ _ _ _ E) as (B1 & B2 & B3).
    destruct (SFltb_const _ _ _ _ _ B1 Hhi Hkhi Hmhi U) as [Eneg Up].
    replace (0 <=? e) with false by (symmetry; apply Z.leb_gt; lia).
    assert (P : 0 < 2 ^ (- e)) by (apply Z.pow_pos_nonneg; lia).
    exists (Z.pos m / 2 ^ (- e)). split; [reflexivity |]. split.
    + apply Z.div_pos; lia.
    + apply Z.div_lt_upper_bound; lia.
Qed.

(** A float equal to zero truncates to 0. *)
Lemma float_zero (f : float) :
  PrimFloat.eqb f 0 = true -> Py.trunc f = Some 0.
Proof.
  intros H. rewrite eqb_spec in H.
  change (Prim2SF 0) with (S754_zero false) in H.
  unfold Py.trunc.
  destruct (Prim2SF f) as [s | s | | s m e]; try reflexivity;
    try (destruct s; discriminate); discriminate.
Qed.

(** A number greater than the int 0 is not zero. *)
Lemma gtb_0_not_zero (a : Py.num) :
  Py.gtb a (PInt 0) = true -> Py.is_zero a = false.
Proof.
  destruct a as [z | f]; unfold Py.gtb, Py.compare, Py.is_zero.
  - destruct (Z.compare_spec z 0); try discriminate. intros _. apply Z.eqb_neq. lia.
  - unfold Py.compare_int_float. rewrite eqb_spec.
    change (Prim2SF 0) with (S754_zero false).
    destruct (Prim2SF f) as [s | s | | s m e]; cbn; try discriminate;
      try (destruct s; discriminate || reflexivity).
Qed.

End Binary64.

(* ================================================================== *)
(** * The scorer: every raw score lies between 400 and 600 *)

Section ScoreRange.

Import RiskScorer.


Ltac step_function :=
  intros features;
  match goal with |- exists c, _ /\ ?f features = _ => unfold f end;
  repeat match goal with
         | |- context [if ?b then _ else _] => destruct b
         end;
  eexists; (split; [| reflexivity]); simpl; tauto.

Lemma _score_borrow_supply_ratio_values :
  forall features, exists c,
    In c ratio_values /\ _score_borrow_supply_ratio features = PInt c.
Proof. step_function. Qed.

Lemma _score_liquidation_count_values :
  forall features, exists c,
    In c liquidation_values /\ _score_liquidation_count features = PInt c.
Proof. step_function. Qed.

Lemma _score_inactivity_days_values :
  forall features, exists c,
    In c fifty_values /\ _score_inactivity_days features = PInt c.
Proof. step_function. Qed.

Lemma _score_repayment_frequency_values :
  forall features, exists c,
    In c fifty_values /\ _score_repayment_frequency features = PInt c.
Proof. step_function. Qed.

Lemma _score_volatile_asset_usage_values :
  forall features, exists c,
    In c fifty_values /\ _score_volatile_asset_usage features = PInt c.
Proof. step_function. Qed.

Lemma _score_protocol_version_values :
  forall features, exists c,
    In c version_values /\ _score_protocol_version features = PInt c.
Proof. step_function. Qed.

Lemma _score_collateral_factor_values :
  forall features, exists c,
    In c collateral_values /\ _score_collateral_factor features = PInt c.
Proof. step_function. Qed.

Local Open Scope float_scope.


Lemma weighted_sum_unrolled (features : Features) (c1 c2 c3 c4 c5 c6 c7 : Z) :
  _score_borrow_supply_ratio features = PInt c1 ->
  _score_liquidation_count features = PInt c2 ->
  _score_inactivity_days features = PInt c3 ->
  _score_repayment_frequency features = PInt c4 ->
  _score_volatile_asset_usage features = PInt c5 ->
  _score_protocol_version features = PInt c6 ->
  _score_collateral_factor features = PInt c7 ->
  Py.add (PInt 500) (weighted_sum Config.RISK_WEIGHTS (risk_components features))
  = PFloat (unrolled (term 0.25 c1) (term 0.20 c2) (term 0.15 c3) (term 0.15 c4)
                     (term 0.10 c5) (term 0.10 c6) (term 0.05 c7)).
Proof.
  intros H1 H2 H3 H4 H5 H6 H7.
  unfold risk_components. rewrite H1, H2, H3, H4, H5, H6, H7.
  reflexivity.
Qed.


Lemma forallb7_sound {A : Type} (g1 g2 g3 g4 g5 g6 g7 : Z -> A)
      (P : A -> A -> A -> A -> A -> A -> A -> bool)
      (l1 l2 l3 l4 l5 l6 l7 : list Z) :
  forallb7 g1 g2 g3 g4 g5 g6 g7 P l1 l2 l3 l4 l5 l6 l7 = true ->
  forall c1 c2 c3 c4 c5 c6 c7,
    In c1 l1 -> In c2 l2 -> In c3 l3 -> In c4 l4 -> In c5 l5 -> In c6 l6 -> In c7 l7 ->
    P (g1 c1) (g2 c2) (g3 c3) (g4 c4) (g5 c5) (g6 c6) (g7 c7) = true.
Proof.
  unfold forallb7.
  intros A0 c1 c2 c3 c4 c5 c6 c7 I1 I2 I3 I4 I5 I6 I7.
  pose proof (proj1 (forallb_forall _ _) A0 _ (in_map g1 _ _ I1)) as A1. cbv beta in A1.
  pose proof (proj1 (forallb_forall _ _) A1 _ (in_map g2 _ _ I2)) as A2. cbv beta in A2.
  pose proof (proj1 (forallb_forall _ _) A2 _ (in_map g3 _ _ I3)) as A3. cbv beta in A3.
  pose proof (proj1 (forallb_forall _ _) A3 _ (in_map g4 _ _ I4)) as A4. cbv beta in A4.
  pose proof (proj1 (forallb_forall _ _) A4 _ (in_map g5 _ _ I5)) as A5. cbv beta in A5.
  pose proof (proj1 (forallb_forall _ _) A5 _ (in_map g6 _ _ I6)) as A6. cbv beta in A6.
  exact (proj1 (forallb_forall _ _) A6 _ (in_map g7 _ _ I7)).
Qed.


(** Every combination of step-function values, checked by evaluation. *)
Lemma all_sums_in_range :
  forallb7 (term 0.25) (term 0.20) (term 0.15) (term 0.15)
           (term 0.10) (term 0.10) (term 0.05) sum_in_range
           ratio_values liquidation_values fifty_values fifty_values fifty_values
           version_values collateral_values = true.
Proof. vm_cast_no_check (eq_refl true). Qed.

Lemma sums_in_range (c1 c2 c3 c4 c5 c6 c7 : Z) :
  In c1 ratio_values -> In c2 liquidation_values -> In c3 fifty_values ->
  In c4 fifty_values -> In c5 fifty_values -> In c6 version_values ->
  In c7 collateral_values ->
  in_400_601 (unrolled (term 0.25 c1) (term 0.20 c2) (term 0.15 c3) (term 0.15 c4)
                       (term 0.10 c5) (term 0.10 c6) (term 0.05 c7)) = true.
Proof. exact (forallb7_sound _ _ _ _ _ _ _ _ _ _ _ _ _ _ _ all_sums_in_range c1 c2 c3 c4 c5 c6 c7). Qed.

Local Close Scope float_scope.


(** The shared fact: the unclamped value is a float in [400, 601), the
    clamp returns it as it is, and its truncation is the score. *)
Lemma score_in_400_600 (features : Features) :
  exists s,
    calculate_risk_score features = Some s
    /\ 400 <= s <= 600
    /\ Py.max (PInt 0) (Py.min (PInt 1000) (unclamped features)) = unclamped features
    /\ Py.int (unclamped features) = Some s.
Proof.
  destruct (_score_borrow_supply_ratio_values features) as (c1 & I1 & E1).
  destruct (_score_liquidation_count_values features) as (c2 & I2 & E2).
  destruct (_score_inactivity_days_values features) as (c3 & I3 & E3).
  destruct (_score_repayment_frequency_values features) as (c4 & I4 & E4).
  destruct (_score_volatile_asset_usage_values features) as (c5 & I5 & E5).
  destruct (_score_protocol_version_values features) as (c6 & I6 & E6).
  destruct (_score_collateral_factor_values features) as (c7 & I7 & E7).
  pose proof (weighted_sum_unrolled features _ _ _ _ _ _ _ E1 E2 E3 E4 E5 E6 E7) as W.
  pose proof (sums_in_range _ _ _ _ _ _ _ I1 I2 I3 I4 I5 I6 I7) as R.
  unfold calculate_risk_score, final_score, unclamped. rewrite W.
  set (x := unrolled _ _ _ _ _ _ _) in *.
  unfold in_400_601 in R. apply andb_true_iff in R. destruct R as [L U].
  destruct (float_between x 400 601 (Z.to_pos (400 * 2 ^ 44)) (Z.to_pos (601 * 2 ^ 43))
              400 44 601 43) as (z & T & B & Lt0 & Gt1000);
    try reflexivity; try lia; try assumption.
  assert (M : Py.max (PInt 0) (Py.min (PInt 1000) (PFloat x)) = PFloat x).
  { unfold Py.min, Py.ltb, Py.compare. rewrite (Gt1000 1000) by lia. cbn [option_map CompOpp].
    unfold Py.max, Py.gtb, Py.compare. rewrite (Lt0 0) by lia. reflexivity. }
  exists z. rewrite M. cbn [Py.int]. repeat split; try assumption; lia.
Qed.

(** Scoring a batch never raises, keeps the wallet ids in order, and
    yields raw scores between 400 and 600. *)
Lemma score_all_wallets_in_400_600 (features_df : list FeatureExtractor.Features) :
  exists scores_df,
    Batch.score_all_wallets features_df = Some scores_df
    /\ map Batch.wallet_id scores_df = map FeatureExtractor.wallet_id features_df
    /\ Forall (fun s => 400 <= s <= 600) (map Batch.score scores_df).
Proof.
  induction features_df as [| row rest (scores & E & W & F)].
  - exists []. repeat split. constructor.
  - cbn [Batch.score_all_wallets].
    destruct (score_in_400_600 (Batch.to_dict row)) as (s & Es & Bs & _).
    rewrite Es, E. cbn [bind]. eexists. split; [reflexivity |].
    cbn [map Batch.wallet_id Batch.score]. split; [now rewrite W | now constructor].
Qed.

End ScoreRange.

(* ================================================================== *)
(** * The scorer: the worked scenario and the score bounds *)

Section ScorerClaims.

Import RiskScorer.

(** C1, as stated, does not hold: with the seven contributions
    100, 50, 50, 50, 50, 25, 25, the weighted sum 58.75 and the raw score
    558, the category of 558 would have to be "Low Risk"; the thresholds of
    [get_risk_category] put 558 below 600. *)
Lemma scenario_category_is_not_low_risk :
  ~ (map snd (risk_components scenario)
     = [PInt 100; PInt 50; PInt 50; PInt 50; PInt 50; PInt 25; PInt 25]
     /\ weighted_sum Config.RISK_WEIGHTS (risk_components scenario) = PFloat 58.75
     /\ calculate_risk_score scenario = Some 558
     /\ get_risk_category 558 = "Low Risk").
Proof.
  intros (_ & _ & _ & H). vm_compute in H. discriminate H.
Qed.

(** C1, amended: for the scenario record the seven contributions are
    100, 50, 50, 50, 50, 25, 25, the weighted sum under the default
    weights is 58.75, [calculate_risk_score] returns 558, and
    [get_risk_category 558] is "Moderate Risk". *)
Theorem scenario_scores_558_moderate_risk :
  map snd (risk_components scenario)
  = [PInt 100; PInt 50; PInt 50; PInt 50; PInt 50; PInt 25; PInt 25]
  /\ weighted_sum Config.RISK_WEIGHTS (risk_components scenario) = PFloat 58.75
  /\ calculate_risk_score scenario = Some 558
  /\ get_risk_category 558 = "Moderate Risk".
Proof.
  repeat split; vm_compute; reflexivity.
Qed.

(** C4: for every feature record, whatever its field values (every int,
    every binary64 value including the infinities and nan, every string,
    absent keys), [calculate_risk_score] returns an integer, and that
    integer lies in the closed interval from 0 to 1000; for the record
    [extreme], with a ratio of 1e9, it returns 460. *)
Theorem calculate_risk_score_in_0_1000 :
  (forall features : Features,
     exists s, calculate_risk_score features = Some s /\ 0 <= s <= 1000)
  /\ calculate_risk_score extreme = Some 460.
Proof.
  split; [| vm_compute; reflexivity].
  intros features.
  destruct (score_in_400_600 features) as (s & E & B & _).
  exists s. split; [exact E | lia].
Qed.

(** C10: for every feature record the raw score lies between 400 and 600
    and the clamp to 0..1000 returns its argument unchanged; each of the
    seven contributions is an int between -100 and 100, every configured
    weight is non-negative, and the weights sum to 1.0. *)
Theorem calculate_risk_score_in_400_600 :
  forall features : Features,
    (exists s, calculate_risk_score features = Some s /\ 400 <= s <= 600)
    /\ Py.max (PInt 0) (Py.min (PInt 1000) (unclamped features)) = unclamped features
    /\ Forall (fun entry => exists c, snd entry = PInt c /\ -100 <= c <= 100)
              (risk_components features)
    /\ Forall (fun entry => Py.geb (snd entry) (PInt 0) = true) Config.RISK_WEIGHTS
    /\ fold_left Py.add (map snd Config.RISK_WEIGHTS) (PInt 0) = PFloat 1.
Proof.
  intros features.
  destruct (score_in_400_600 features) as (s & E & B & C & _).
  split; [exists s; split; assumption |].
  split; [exact C |].
  split; [| split].
  - unfold risk_components.
    destruct (_score_borrow_supply_ratio_values features) as (c1 & I1 & ->).
    destruct (_score_liquidation_count_values features) as (c2 & I2 & ->).
    destruct (_score_inactivity_days_values features) as (c3 & I3 & ->).
    destruct (_score_repayment_frequency_values features) as (c4 & I4 & ->).
    destruct (_score_volatile_asset_usage_values features) as (c5 & I5 & ->).
    destruct (_score_protocol_version_values features) as (c6 & I6 & ->).
    destruct (_score_collateral_factor_values features) as (c7 & I7 & ->).
    assert (B1 : -100 <= c1 <= 100) by (simpl in I1; lia).
    assert (B2 : -100 <= c2 <= 100) by (simpl in I2; lia).
    assert (B3 : -100 <= c3 <= 100) by (simpl in I3; lia).
    assert (B4 : -100 <= c4 <= 100) by (simpl in I4; lia).
    assert (B5 : -100 <= c5 <= 100) by (simpl in I5; lia).
    assert (B6 : -100 <= c6 <= 100) by (simpl in I6; lia).
    assert (B7 : -100 <= c7 <= 100) by (simpl in I7; lia).
    clear I1 I2 I3 I4 I5 I6 I7.
    repeat constructor; cbn [snd]; eexists; (split; [reflexivity | assumption]).
  - repeat constructor; vm_compute; reflexivity.
  - vm_compute. reflexivity.
Qed.

End ScorerClaims.

(* ================================================================== *)
(** * The feature extractor *)

Section ExtractorClaims.

Import FeatureExtractor.

Lemma empty_false_iff {A : Type} (l : list A) : empty l = false <-> l <> [].
Proof. destruct l; cbn; split; congruence. Qed.

Lemma len_pos {A : Type} (l : list A) : l <> [] -> 0 < len l.
Proof. destruct l; [congruence |]. intros _. unfold len. cbn [List.length]. lia. Qed.

Lemma len_nonneg {A : Type} (l : list A) : 0 <= len l.
Proof. unfold len. lia. Qed.

(** Division by a non-zero int does not raise. *)
Lemma truediv_int_int (a b : Z) :
  b <> 0 -> exists f, Py.truediv (PInt a) (PInt b) = Some (PFloat f).
Proof.
  intros Hb. unfold Py.truediv, Py.is_zero, Py.int_truediv.
  apply Z.eqb_neq in Hb. rewrite Hb. cbn [option_map]. eexists. reflexivity.
Qed.

Lemma truediv_by_int (a : Py.num) (b : Z) :
  b <> 0 -> exists f, Py.truediv a (PInt b) = Some (PFloat f).
Proof.
  intros Hb. destruct a as [x | f]; [now apply truediv_int_int |].
  unfold Py.truediv, Py.is_zero. apply Z.eqb_neq in Hb. rewrite Hb.
  eexists. reflexivity.
Qed.

Lemma timestamp_fold_max (rest : list Transaction) (a : Z) :
  a <= fold_left (fun acc t => Z.max acc (timestamp t)) rest a.
Proof.
  revert a. induction rest as [| t rest IH]; intros a; cbn [fold_left]; [lia |].
  specialize (IH (Z.max a (timestamp t))). lia.
Qed.

Lemma timestamp_fold_min (rest : list Transaction) (a : Z) :
  fold_left (fun acc t => Z.min acc (timestamp t)) rest a <= a.
Proof.
  revert a. induction rest as [| t rest IH]; intros a; cbn [fold_left]; [lia |].
  specialize (IH (Z.min a (timestamp t))). lia.
Qed.

Lemma timestamp_min_le_max (wallet_txs : list Transaction) :
  timestamp_min wallet_txs <= timestamp_max wallet_txs.
Proof.
  destruct wallet_txs as [| tx rest]; cbn [timestamp_min timestamp_max]; [lia |].
  pose proof (timestamp_fold_max rest (timestamp tx)).
  pose proof (timestamp_fold_min rest (timestamp tx)). lia.
Qed.

(** Two timestamps of one calendar day are less than a day apart. *)
Lemma same_day_zero_span (wallet_txs : list Transaction) :
  calendar_day (timestamp_max wallet_txs) = calendar_day (timestamp_min wallet_txs) ->
  days (timestamp_max wallet_txs - timestamp_min wallet_txs) = 0.
Proof.
  unfold calendar_day, days. intros H.
  pose proof (timestamp_min_le_max wallet_txs) as L.
  set (hi := timestamp_max wallet_txs) in *. set (lo := timestamp_min wallet_txs) in *.
  apply Z.div_small.
  pose proof (Z.div_mod hi 86400000000 ltac:(lia)).
  pose proof (Z.div_mod lo 86400000000 ltac:(lia)).
  pose proof (Z.mod_pos_bound hi 86400000000 ltac:(lia)).
  pose proof (Z.mod_pos_bound lo 86400000000 ltac:(lia)).
  lia.
Qed.

(** C5: for every wallet address with no matching row in the transactions
    (the empty collection included), [extract_wallet_features] returns the
    fixed default record: 365 days of inactivity, zero transactions, no
    dates, every monetary and ratio field 0, "none" for the protocol version
    and the borrowing behaviour, "stable" for the health-factor trend. *)
Theorem extract_wallet_features_default :
  forall (now : Z) (transactions_df : list Transaction) (wallet_address : string),
    wallet_rows transactions_df wallet_address = [] ->
    extract_wallet_features now transactions_df wallet_address
    = Some {|
        wallet_id := wallet_address;
        total_transactions := 0;
        first_transaction_date := None;
        last_transaction_date := None;
        days_since_last_activity := 365;
        total_supplied_usd := 0;
        total_borrowed_usd := 0;
        supply_to_borrow_ratio := PInt 0;
        number_of_liquidations := 0;
        repayment_frequency := PInt 0;
        volatile_asset_usage := PInt 0;
        protocol_version_usage := "none";
        collateral_factor_average := PInt 0;
        borrowing_behavior := "none";
        health_factor_trend := "stable"
      |}.
Proof.
  intros now transactions_df wallet_address H.
  unfold extract_wallet_features. unfold wallet_rows in H.
  destruct (empty transactions_df); [reflexivity |].
  rewrite H. reflexivity.
Qed.

(** C7: when less than a whole day separates the wallet's earliest and
    latest transaction, [_calculate_repayment_frequency] returns the number
    of repayment-keyword rows itself, as an int and without dividing: [n]
    when there are [n] such rows, so 3 for three and 0 for none. *)
Theorem repayment_frequency_zero_span :
  forall (wallet_txs : list Transaction) (n : Z),
    days (timestamp_max wallet_txs - timestamp_min wallet_txs) = 0 ->
    len (filter is_repayment wallet_txs) = n ->
    _calculate_repayment_frequency wallet_txs = Some (PInt n).
Proof.
  intros wallet_txs n Hspan Hn.
  unfold _calculate_repayment_frequency.
  fold is_repayment. unfold is_repayment in Hn |- *.
  destruct (empty wallet_txs) eqn:E.
  - destruct wallet_txs; [| discriminate]. cbn in Hn. now subst n.
  - destruct (filter _ wallet_txs) as [| tx evs] eqn:F.
    + cbn in Hn |- *. now subst n.
    + cbn [empty]. rewrite Hspan. cbn [Z.eqb]. now subst n.
Qed.

(** None of the five derived features that divide can raise. *)
Lemma _calculate_repayment_frequency_total (wallet_txs : list Transaction) :
  exists v, _calculate_repayment_frequency wallet_txs = Some v.
Proof.
  unfold _calculate_repayment_frequency.
  destruct (empty wallet_txs); [eexists; reflexivity |].
  destruct (empty (filter _ wallet_txs)); [eexists; reflexivity |].
  destruct (_ =? 0); [eexists; reflexivity |].
  destruct (truediv_int_int (days (timestamp_max wallet_txs - timestamp_min wallet_txs)) 30)
    as [f ->]; [lia |].
  cbn [bind].
  destruct (Py.gtb (PFloat f) (PInt 0)) eqn:G; [| eexists; reflexivity].
  apply gtb_0_not_zero in G.
  unfold Py.truediv. rewrite G. eexists. reflexivity.
Qed.

Lemma _calculate_volatile_asset_usage_total (wallet_txs : list Transaction) :
  exists v, _calculate_volatile_asset_usage wallet_txs = Some v.
Proof.
  unfold _calculate_volatile_asset_usage.
  destruct (empty wallet_txs) eqn:E; [eexists; reflexivity |].
  apply empty_false_iff, len_pos in E.
  destruct (truediv_int_int (len (filter
    (fun tx => existsb (fun asset => Str.contains asset (Str.upper (market_str tx)))
                       Config.VOLATILE_ASSETS) wallet_txs)) (len wallet_txs)) as [f ->];
    [lia | eexists; reflexivity].
Qed.

Lemma _calculate_collateral_factor_total (wallet_txs : list Transaction) :
  exists v, _calculate_collateral_factor wallet_txs = Some v.
Proof.
  unfold _calculate_collateral_factor.
  destruct (empty wallet_txs); [eexists; reflexivity |].
  destruct (fold_left _ wallet_txs (PInt 0, 0)) as [total_factor count].
  destruct (Z.ltb_spec 0 count) as [P | P]; [| eexists; reflexivity].
  destruct (truediv_by_int total_factor count) as [f ->]; [lia | eexists; reflexivity].
Qed.

Lemma _analyze_borrowing_behavior_total (wallet_txs : list Transaction) :
  exists v, _analyze_borrowing_behavior wallet_txs = Some v.
Proof.
  unfold _analyze_borrowing_behavior.
  destruct (empty wallet_txs); [eexists; reflexivity |].
  destruct (_ =? 0); [eexists; reflexivity |].
  destruct (_ =? 0); [eexists; reflexivity |].
  match goal with
  | |- context [Py.truediv (PInt ?a) (PInt ?b)] =>
      destruct (truediv_int_int a b) as [f ->]; [lia |]
  end.
  cbn [bind]. destruct (Py.gtb _ _); eexists; reflexivity.
Qed.

Lemma _calculate_health_factor_trend_total (wallet_txs : list Transaction) :
  exists v, _calculate_health_factor_trend wallet_txs = Some v.
Proof.
  unfold _calculate_health_factor_trend.
  destruct (empty wallet_txs); [eexists; reflexivity |].
  destruct (_calculate_volatile_asset_usage_total (tail 10 wallet_txs)) as [r ->].
  destruct (_calculate_volatile_asset_usage_total
              (head (Nat.max 1 (List.length wallet_txs - 10)) wallet_txs)) as [o ->].
  cbn [bind]. destruct (Py.ltb r o); [eexists; reflexivity |].
  destruct (Py.gtb r o); eexists; reflexivity.
Qed.

(** [500 n / 1000 n] is one half, for every positive [n]. *)
Lemma half_ratio (n : Z) :
  0 < n -> Py.truediv (PInt (n * 500)) (PInt (n * 1000)) = Some (PFloat 0.5).
Proof.
  intros Hn. unfold Py.truediv, Py.is_zero, Py.int_truediv.
  replace (n * 1000 =? 0) with false by (symmetry; apply Z.eqb_neq; lia).
  replace (Z.gcd (n * 500) (n * 1000)) with (n * 500).
  - rewrite Z.div_same by lia.
    replace (n * 1000 / (n * 500)) with 2
      by (apply Z.div_unique_exact; lia).
    reflexivity.
  - replace (n * 500) with (n * 500 * 1) at 2 by lia.
    replace (n * 1000) with (n * 500 * 2) by lia.
    rewrite Z.gcd_mul_mono_l_nonneg by lia. change (Z.gcd 1 2) with 1. lia.
Qed.

(** C9: for every wallet with at least one matching row, extraction
    returns a record whose [total_supplied_usd] and [total_borrowed_usd] are
    1000 and 500 times the number of rows passing the one market-label
    filter, and whose [supply_to_borrow_ratio] is the float 0.5 when
    [total_supplied_usd] is positive and the float 0 otherwise. *)
Theorem supply_to_borrow_ratio_zero_or_half :
  forall (now : Z) (transactions_df : list Transaction) (wallet_address : string),
    wallet_rows transactions_df wallet_address <> [] ->
    exists features,
      extract_wallet_features now transactions_df wallet_address = Some features
      /\ total_supplied_usd features
         = len (filter is_supply_event (wallet_rows transactions_df wallet_address)) * 1000
      /\ total_borrowed_usd features
         = len (filter is_supply_event (wallet_rows transactions_df wallet_address)) * 500
      /\ ((0 < total_supplied_usd features
           /\ supply_to_borrow_ratio features = PFloat 0.5)
          \/ (total_supplied_usd features = 0
              /\ supply_to_borrow_ratio features = PFloat 0)).
Proof.
  intros now transactions_df wallet_address H.
  unfold extract_wallet_features. fold (wallet_rows transactions_df wallet_address).
  set (wallet_txs := wallet_rows transactions_df wallet_address) in *.
  assert (E : empty transactions_df = false).
  { destruct transactions_df; [now contradiction H | reflexivity]. }
  rewrite E. apply empty_false_iff in H. rewrite H.
  destruct (_calculate_repayment_frequency_total wallet_txs) as [v1 ->].
  destruct (_calculate_volatile_asset_usage_total wallet_txs) as [v2 ->].
  destruct (_calculate_collateral_factor_total wallet_txs) as [v3 ->].
  destruct (_analyze_borrowing_behavior_total wallet_txs) as [v4 ->].
  destruct (_calculate_health_factor_trend_total wallet_txs) as [v5 ->].
  cbn [bind].
  unfold _calculate_total_supplied, _calculate_total_borrowed.
  fold is_supply_event.
  set (n := len (filter is_supply_event wallet_txs)).
  pose proof (len_nonneg (filter is_supply_event wallet_txs)) as Hn. fold n in Hn.
  destruct (Z.ltb_spec 0 (n * 1000)) as [P | P].
  - rewrite half_ratio by lia. cbn [bind].
    eexists. split; [reflexivity |]. cbn. repeat split. left. split; [lia | reflexivity].
  - cbn [bind].
    eexists. split; [reflexivity |]. cbn. repeat split. right. split; [lia | reflexivity].
Qed.

(** The default record, for an address that none of the four rows carries. *)
Lemma extract_wallet_features_default_witness :
  extract_wallet_features 1700000000000000 one_day_rows "0xb"
  = Some {|
      wallet_id := "0xb";
      total_transactions := 0;
      first_transaction_date := None;
      last_transaction_date := None;
      days_since_last_activity := 365;
      total_supplied_usd := 0;
      total_borrowed_usd := 0;
      supply_to_borrow_ratio := PInt 0;
      number_of_liquidations := 0;
      repayment_frequency := PInt 0;
      volatile_asset_usage := PInt 0;
      protocol_version_usage := "none";
      collateral_factor_average := PInt 0;
      borrowing_behavior := "none";
      health_factor_trend := "stable"
    |}.
Proof.
  apply (extract_wallet_features_default 1700000000000000 one_day_rows "0xb").
  reflexivity.
Defined.

(** Four rows within one day, three repayments: the frequency is the int 3. *)
Lemma repayment_frequency_zero_span_witness :
  _calculate_repayment_frequency one_day_rows = Some (PInt 3).
Proof.
  apply (repayment_frequency_zero_span one_day_rows 3); reflexivity.
Defined.

(** The ratio of the wallet that owns the four rows. *)
Lemma supply_to_borrow_ratio_zero_or_half_witness :
  exists features,
    extract_wallet_features 1700000000000000 one_day_rows "0xa" = Some features
    /\ total_supplied_usd features
       = len (filter is_supply_event (wallet_rows one_day_rows "0xa")) * 1000
    /\ total_borrowed_usd features
       = len (filter is_supply_event (wallet_rows one_day_rows "0xa")) * 500
    /\ ((0 < total_supplied_usd features
         /\ supply_to_borrow_ratio features = PFloat 0.5)
        \/ (total_supplied_usd features = 0
            /\ supply_to_borrow_ratio features = PFloat 0)).
Proof.
  apply (supply_to_borrow_ratio_zero_or_half 1700000000000000 one_day_rows "0xa").
  vm_compute. discriminate.
Defined.

End ExtractorClaims.

(* ================================================================== *)
(** * The batch operations: normalization and the summary *)

Section BatchFacts.

Import Batch.

Lemma in_ints (lo : Z) (n : nat) (z : Z) :
  lo <= z < lo + Z.of_nat n -> In z (ints lo n).
Proof.
  intros H. unfold ints. apply in_map_iff. exists (Z.to_nat (z - lo)).
  split; [lia | apply in_seq; lia].
Qed.

Lemma forallb1_sound (P : Z * float -> bool) (l : list Z) :
  forallb1 P l = true -> forall z, In z l -> P (with_float z) = true.
Proof.
  unfold forallb1. intros H z I.
  exact (proj1 (forallb_forall _ _) H _ (in_map with_float _ _ I)).
Qed.

Lemma forallb2_sound (P : Z * float -> Z * float -> bool) (l : list Z) :
  forallb2 P l = true ->
  forall a b, In a l -> In b l -> P (with_float a) (with_float b) = true.
Proof.
  unfold forallb2. intros H a b Ia Ib.
  pose proof (proj1 (forallb_forall _ _) H _ (in_map with_float _ _ Ia)) as H1.
  cbv beta in H1.
  exact (proj1 (forallb_forall _ _) H1 _ (in_map with_float _ _ Ib)).
Qed.

Lemma forallb3_sound (P : MinMaxScaler.fitted -> float -> float -> float -> bool)
      (l : list Z) :
  forallb3 P l = true ->
  forall m M x, In m l -> In M l -> In x l ->
    PrimFloat.ltb (Py.float_of_int m) (Py.float_of_int M) = true ->
    P (MinMaxScaler.fit_range (Py.float_of_int m) (Py.float_of_int M))
      (Py.float_of_int m) (Py.float_of_int M) (Py.float_of_int x) = true.
Proof.
  unfold forallb3. intros H m M x Im IM Ix L.
  pose proof (proj1 (forallb_forall _ _) H _ (in_map Py.float_of_int _ _ Im)) as H1.
  cbv beta in H1.
  pose proof (proj1 (forallb_forall _ _) H1 _ (in_map Py.float_of_int _ _ IM)) as H2.
  cbv beta in H2. rewrite L in H2.
  exact (proj1 (forallb_forall _ _) H2 _ (in_map Py.float_of_int _ _ Ix)).
Qed.

(** The three checks, by evaluation. *)
Lemma constants_ok : forallb1 constant_ok (ints 0 1001) = true.
Proof. vm_cast_no_check (eq_refl true). Qed.

Lemma pairs_ok : forallb2 pair_ok (ints 0 1001) = true.
Proof. vm_cast_no_check (eq_refl true). Qed.

Lemma triples_ok : forallb3 triple_ok (ints 400 201) = true.
Proof. vm_cast_no_check (eq_refl true). Qed.

Lemma in_0_1000_ints (z : Z) : in_0_1000 z -> In z (ints 0 1001).
Proof. unfold in_0_1000. intros H. apply in_ints. lia. Qed.

(** On the integers 0..1000 the floats compare as the integers do. *)
Lemma float_of_int_ltb (a b : Z) :
  in_0_1000 a -> in_0_1000 b ->
  PrimFloat.ltb (Py.float_of_int a) (Py.float_of_int b) = (a <? b).
Proof.
  intros Ha Hb.
  pose proof (forallb2_sound _ _ pairs_ok a b (in_0_1000_ints a Ha) (in_0_1000_ints b Hb)) as H.
  unfold pair_ok, with_float in H. cbn [fst snd] in H.
  apply andb_true_iff in H. destruct H as [H _].
  apply andb_true_iff in H. destruct H as [H _].
  now apply eqb_prop in H.
Qed.

Lemma float_of_int_leb (a b : Z) :
  in_0_1000 a -> in_0_1000 b ->
  PrimFloat.leb (Py.float_of_int a) (Py.float_of_int b) = (a <=? b).
Proof.
  intros Ha Hb.
  pose proof (forallb2_sound _ _ pairs_ok a b (in_0_1000_ints a Ha) (in_0_1000_ints b Hb)) as H.
  unfold pair_ok, with_float in H. cbn [fst snd] in H.
  apply andb_true_iff in H. destruct H as [H _].
  apply andb_true_iff in H. destruct H as [_ H].
  now apply eqb_prop in H.
Qed.

(** With distinct minimum and maximum the range is the divisor of the
    scale, and the image of the minimum is zero. *)
Lemma range_kept (lo hi : Z) :
  in_0_1000 lo -> in_0_1000 hi -> lo < hi ->
  MinMaxScaler._handle_zeros_in_scale (Py.float_of_int hi - Py.float_of_int lo)
  = (Py.float_of_int hi - Py.float_of_int lo)%float.
Proof.
  intros Ha Hb L.
  pose proof (forallb2_sound _ _ pairs_ok lo hi (in_0_1000_ints lo Ha) (in_0_1000_ints hi Hb)) as H.
  unfold pair_ok, with_float in H. cbn [fst snd] in H.
  apply andb_true_iff in H. destruct H as [_ H].
  replace (lo <? hi) with true in H by (symmetry; apply Z.ltb_lt; exact L).
  rewrite !andb_true_iff in H. destruct H as [[[H _] _] _].
  unfold MinMaxScaler._handle_zeros_in_scale.
  apply negb_true_iff in H. rewrite H. reflexivity.
Qed.

Lemma astype_int_trunc (f : float) (z : Z) :
  Py.trunc f = Some z -> - 2 ^ 63 <= z < 2 ^ 63 -> astype_int f = z.
Proof.
  intros T B. unfold astype_int. rewrite T.
  replace (- 2 ^ 63 <=? z) with true by (symmetry; apply Z.leb_le; lia).
  replace (z <? 2 ^ 63) with true by (symmetry; apply Z.ltb_lt; lia).
  reflexivity.
Qed.

Lemma minimum_image_zero (lo hi : Z) :
  in_0_1000 lo -> in_0_1000 hi -> lo < hi ->
  astype_int (image (MinMaxScaler.fit_range (Py.float_of_int lo) (Py.float_of_int hi))
                    (Py.float_of_int lo)) = 0.
Proof.
  intros Ha Hb L.
  pose proof (forallb2_sound _ _ pairs_ok lo hi (in_0_1000_ints lo Ha) (in_0_1000_ints hi Hb)) as H.
  unfold pair_ok, with_float in H. cbn [fst snd] in H.
  apply andb_true_iff in H. destruct H as [_ H].
  replace (lo <? hi) with true in H by (symmetry; apply Z.ltb_lt; exact L).
  rewrite !andb_true_iff in H. destruct H as [[[_ H] _] _].
  apply astype_int_trunc; [now apply float_zero | lia].
Qed.

Lemma maximum_image_999_or_1000 (lo hi : Z) :
  in_0_1000 lo -> in_0_1000 hi -> lo < hi ->
  999 <= astype_int (image (MinMaxScaler.fit_range (Py.float_of_int lo) (Py.float_of_int hi))
                           (Py.float_of_int hi)) <= 1000.
Proof.
  intros Ha Hb L.
  pose proof (forallb2_sound _ _ pairs_ok lo hi (in_0_1000_ints lo Ha) (in_0_1000_ints hi Hb)) as H.
  unfold pair_ok, with_float in H. cbn [fst snd] in H.
  apply andb_true_iff in H. destruct H as [_ H].
  replace (lo <? hi) with true in H by (symmetry; apply Z.ltb_lt; exact L).
  rewrite !andb_true_iff in H. destruct H as [[_ H0] H1].
  set (y := image _ _) in *.
  destruct (float_between y 999%float 1001%float
              (Z.to_pos (999 * 2 ^ 43)) (Z.to_pos (1001 * 2 ^ 43)) 999 43 1001 43)
    as (z & T & B & _); try reflexivity; try lia; try assumption.
  rewrite (astype_int_trunc _ z T) by lia. lia.
Qed.

Lemma constant_image_zero (s : Z) :
  in_0_1000 s ->
  astype_int (image (MinMaxScaler.fit_range (Py.float_of_int s) (Py.float_of_int s))
                    (Py.float_of_int s)) = 0.
Proof.
  intros Hs.
  pose proof (forallb1_sound _ _ constants_ok s (in_0_1000_ints s Hs)) as H.
  unfold constant_ok, with_float in H. cbn [snd] in H.
  apply astype_int_trunc; [now apply float_zero | lia].
Qed.

Lemma between_image_in_range (lo hi x : Z) :
  400 <= lo -> hi <= 600 -> lo < hi -> lo <= x <= hi ->
  0 <= astype_int (image (MinMaxScaler.fit_range (Py.float_of_int lo) (Py.float_of_int hi))
                         (Py.float_of_int x)) <= 1000.
Proof.
  intros Hlo Hhi L Hx.
  assert (Ilo : in_0_1000 lo) by (unfold in_0_1000; lia).
  assert (Ihi : in_0_1000 hi) by (unfold in_0_1000; lia).
  assert (Ix : in_0_1000 x) by (unfold in_0_1000; lia).
  pose proof (forallb3_sound _ _ triples_ok lo hi x) as H.
  specialize (H ltac:(apply in_ints; lia) ltac:(apply in_ints; lia) ltac:(apply in_ints; lia)).
  rewrite float_of_int_ltb in H by assumption.
  specialize (H ltac:(apply Z.ltb_lt; exact L)).
  unfold triple_ok in H.
  rewrite !float_of_int_leb in H by assumption.
  replace (lo <=? x) with true in H by (symmetry; apply Z.leb_le; lia).
  replace (x <=? hi) with true in H by (symmetry; apply Z.leb_le; lia).
  cbn [andb] in H. apply andb_true_iff in H. destruct H as [H0 H1].
  set (y := image _ _) in *.
  destruct (float_below y 1001%float (Z.to_pos (1001 * 2 ^ 43)) 1001 43) as (z & T & B);
    try reflexivity; try lia; try assumption.
  rewrite (astype_int_trunc _ z T) by lia. lia.
Qed.

(** The column minimum and maximum, on floats and on integers. *)
Lemma fold_min_floats (rest : list Z) (a : Z) :
  in_0_1000 a -> Forall in_0_1000 rest ->
  fold_left (fun x y => if PrimFloat.ltb y x then y else x)
            (map Py.float_of_int rest) (Py.float_of_int a)
  = Py.float_of_int (fold_left Z.min rest a).
Proof.
  revert a. induction rest as [| b rest IH]; intros a Ha Hr; [reflexivity |].
  inversion Hr as [| ? ? Hb Hr']; subst. cbn [map fold_left].
  rewrite float_of_int_ltb by assumption.
  destruct (Z.ltb_spec b a) as [L | L].
  - rewrite Z.min_r by lia. now apply IH.
  - rewrite Z.min_l by lia. now apply IH.
Qed.

Lemma fold_max_floats (rest : list Z) (a : Z) :
  in_0_1000 a -> Forall in_0_1000 rest ->
  fold_left (fun x y => if PrimFloat.ltb x y then y else x)
            (map Py.float_of_int rest) (Py.float_of_int a)
  = Py.float_of_int (fold_left Z.max rest a).
Proof.
  revert a. induction rest as [| b rest IH]; intros a Ha Hr; [reflexivity |].
  inversion Hr as [| ? ? Hb Hr']; subst. cbn [map fold_left].
  rewrite float_of_int_ltb by assumption.
  destruct (Z.ltb_spec a b) as [L | L].
  - rewrite Z.max_r by lia. now apply IH.
  - rewrite Z.max_l by lia. now apply IH.
Qed.

Lemma fold_min_spec (rest : list Z) (a : Z) :
  (fold_left Z.min rest a = a \/ In (fold_left Z.min rest a) rest)
  /\ fold_left Z.min rest a <= a
  /\ Forall (fun x => fold_left Z.min rest a <= x) rest.
Proof.
  revert a. induction rest as [| b rest IH]; intros a; cbn [fold_left].
  - repeat split; [now left | lia | constructor].
  - destruct (IH (Z.min a b)) as (I & L & F).
    split; [| split].
    + destruct I as [E | I]; [| right; now right].
      rewrite E. destruct (Z.min_spec a b) as [[_ ->] | [_ ->]]; [now left | right; now left].
    + lia.
    + constructor; [lia | exact F].
Qed.

Lemma fold_max_spec (rest : list Z) (a : Z) :
  (fold_left Z.max rest a = a \/ In (fold_left Z.max rest a) rest)
  /\ a <= fold_left Z.max rest a
  /\ Forall (fun x => x <= fold_left Z.max rest a) rest.
Proof.
  revert a. induction rest as [| b rest IH]; intros a; cbn [fold_left].
  - repeat split; [now left | lia | constructor].
  - destruct (IH (Z.max a b)) as (I & L & F).
    split; [| split].
    + destruct I as [E | I]; [| right; now right].
      rewrite E. destruct (Z.max_spec a b) as [[_ ->] | [_ ->]]; [right; now left | now left].
    + lia.
    + constructor; [lia | exact F].
Qed.

Lemma np_min_spec (col : list Z) :
  col <> [] -> In (np_min col) col /\ Forall (fun x => np_min col <= x) col.
Proof.
  destruct col as [| a rest]; [congruence | intros _]. cbn [np_min].
  destruct (fold_min_spec rest a) as (I & L & F).
  split; [destruct I as [-> | I]; [now left | now right] | now constructor].
Qed.

Lemma np_max_spec (col : list Z) :
  col <> [] -> In (np_max col) col /\ Forall (fun x => x <= np_max col) col.
Proof.
  destruct col as [| a rest]; [congruence | intros _]. cbn [np_max].
  destruct (fold_max_spec rest a) as (I & L & F).
  split; [destruct I as [-> | I]; [now left | now right] | now constructor].
Qed.

Lemma fit_ints (col : list Z) :
  col <> [] -> Forall in_0_1000 col ->
  MinMaxScaler.fit (map Py.float_of_int col)
  = MinMaxScaler.fit_range (Py.float_of_int (np_min col)) (Py.float_of_int (np_max col)).
Proof.
  destruct col as [| a rest]; [congruence | intros _ H].
  inversion H as [| ? ? Ha Hr]; subst.
  unfold MinMaxScaler.fit, MinMaxScaler.nanmin, MinMaxScaler.nanmax.
  cbn [map np_min np_max].
  now rewrite fold_min_floats, fold_max_floats.
Qed.

(** The normalized column, cell by cell. *)
Lemma normalize_column_cells (col : list Z) :
  normalize_column col
  = map (fun s => astype_int (image (MinMaxScaler.fit (map Py.float_of_int col))
                                   (Py.float_of_int s))) col.
Proof.
  unfold normalize_column, MinMaxScaler.fit_transform, MinMaxScaler.transform.
  rewrite !map_map. reflexivity.
Qed.

Lemma set_score_map (df : DataFrame) (g : Z -> Z) :
  set_score df (map g (map score df))
  = map (fun row => {| wallet_id := wallet_id row; score := g (score row) |}) df.
Proof.
  induction df as [| row df IH]; [reflexivity |].
  cbn [map set_score]. now rewrite IH.
Qed.

(** The frame after the call, for a frame with rows. *)
Lemma normalized_cells (h : heap) (r : ref) :
  h r <> [] ->
  normalized h r
  = map (fun row =>
           {| wallet_id := wallet_id row;
              score := astype_int
                         (image (MinMaxScaler.fit (map Py.float_of_int (map score (h r))))
                                (Py.float_of_int (score row))) |}) (h r).
Proof.
  intros H. unfold normalized, normalize_scores.
  apply empty_false_iff in H. rewrite H. cbn [fst snd].
  unfold store. rewrite Nat.eqb_refl.
  rewrite normalize_column_cells. apply set_score_map.
Qed.

Lemma Forall_map_score {P : Z -> Prop} (df : DataFrame) (row : ScoreRecord) :
  Forall P (map score df) -> In row df -> P (score row).
Proof.
  intros F I. rewrite Forall_forall in F. apply F. now apply in_map.
Qed.

End BatchFacts.

Section BatchClaims.

Import Batch.

(** C2, as stated, does not hold: a batch of three equal scores of 500 is
    mapped to 0, 0, 0, not to 500. *)
Lemma constant_batch_not_mapped_to_500 :
  map score (normalized (one_frame (frame_of [500; 500; 500])) 0%nat) = [0; 0; 0]
  /\ ~ Forall (fun row => score row = 500)
             (normalized (one_frame (frame_of [500; 500; 500])) 0%nat).
Proof.
  split; [vm_compute; reflexivity |].
  intros H. apply Forall_inv in H. vm_compute in H. discriminate H.
Qed.

(** C2, amended: for every non-empty batch in which all raw scores are
    equal to one value between 0 and 1000, normalization raises no error and
    maps every score to 0, keeping the rows and their wallet ids. *)
Theorem normalize_scores_constant_batch :
  forall (h : heap) (r : ref) (s : Z),
    h r <> [] -> in_0_1000 s ->
    Forall (fun row => score row = s) (h r) ->
    normalized h r
    = map (fun row => {| wallet_id := wallet_id row; score := 0 |}) (h r).
Proof.
  intros h r s Hne Hs Hall.
  rewrite normalized_cells by assumption.
  assert (Hcol : map score (h r) = map (fun _ => s) (h r)).
  { apply map_ext_in. intros row I. rewrite Forall_forall in Hall. now apply Hall. }
  assert (Hin : Forall in_0_1000 (map score (h r))).
  { rewrite Hcol. apply Forall_forall. intros x I. apply in_map_iff in I.
    destruct I as (_ & <- & _). exact Hs. }
  assert (Hnil : map score (h r) <> []) by (destruct (h r); [congruence | discriminate]).
  rewrite fit_ints by assumption.
  destruct (np_min_spec _ Hnil) as [Imin _]. destruct (np_max_spec _ Hnil) as [Imax _].
  rewrite Hcol in Imin at 2. rewrite Hcol in Imax at 2.
  apply in_map_iff in Imin. destruct Imin as (_ & Emin & _).
  apply in_map_iff in Imax. destruct Imax as (_ & Emax & _).
  rewrite <- Emin, <- Emax.
  apply map_ext_in. intros row I. f_equal.
  rewrite Forall_forall in Hall. rewrite (Hall row I).
  now apply constant_image_zero.
Qed.

(** C3: the batch maximum is not always mapped to 1000.  Scoring a wallet
    without transactions and a wallet with the scenario's features gives
    the raw scores 495 and 558; for the maximum the scaler returns
    0.9999999999999991, which times 1000 is truncated by [astype(int)] to
    999: the batch normalizes to 0 and 999, not to 0 and 1000, although
    [normalize_scores] is documented as min-max scaling to the range of 0 to
    1000. *)
Lemma batch_maximum_not_mapped_to_1000 :
  score_all_wallets [idle_wallet; scenario_wallet] = Some two_wallets_scores
  /\ MinMaxScaler.fit_transform [495; 558]%float = [0; 0.9999999999999991]%float
  /\ map score (normalized (one_frame two_wallets_scores) 0%nat) = [0; 999]
  /\ ~ (map score (normalized (one_frame two_wallets_scores) 0%nat) = [0; 1000]).
Proof.
  split; [vm_compute; reflexivity |].
  split; [vm_compute; reflexivity |].
  split; [vm_compute; reflexivity |].
  intros H. vm_compute in H. discriminate H.
Qed.

(** C6, as stated, does not hold: normalizing the frame with scores
    200, 500, 800 returns that same frame, and its score column, 200, 500,
    800 before the call, is 0, 500, 1000 after it. *)
Lemma normalize_scores_changes_its_input :
  fst (normalize_scores 0%nat (one_frame (frame_of [200; 500; 800]))) = 0%nat
  /\ map score (one_frame (frame_of [200; 500; 800]) 0%nat) = [200; 500; 800]
  /\ map score (snd (normalize_scores 0%nat (one_frame (frame_of [200; 500; 800]))) 0%nat)
     = [0; 500; 1000]
  /\ ~ (map score (snd (normalize_scores 0%nat (one_frame (frame_of [200; 500; 800]))) 0%nat)
        = map score (one_frame (frame_of [200; 500; 800]) 0%nat)).
Proof.
  split; [reflexivity |].
  split; [reflexivity |].
  split; [vm_compute; reflexivity |].
  intros H. vm_compute in H. discriminate H.
Qed.

(** C6, amended: [normalize_scores] returns the frame it was given, not a
    new one; it overwrites the score column of that frame in place with the
    normalized values (an empty frame stays as it is), keeps the rows'
    wallet ids and their order, and leaves every other frame unchanged. *)
Theorem normalize_scores_in_place :
  forall (h : heap) (r : ref),
    fst (normalize_scores r h) = r
    /\ map wallet_id (snd (normalize_scores r h) r) = map wallet_id (h r)
    /\ map score (snd (normalize_scores r h) r) = normalize_column (map score (h r))
    /\ (forall r', r' <> r -> snd (normalize_scores r h) r' = h r').
Proof.
  intros h r. unfold normalize_scores.
  destruct (h r) as [| row df] eqn:E; cbn [empty fst snd].
  - rewrite E. now repeat split.
  - unfold store. rewrite Nat.eqb_refl.
    rewrite normalize_column_cells, set_score_map, !map_map. cbn [wallet_id score].
    repeat split.
    intros r' Hr. apply Nat.eqb_neq in Hr. now rewrite Hr.
Qed.

(** C8: for the empty batch, [normalize_scores] returns the empty frame it
    was given and changes nothing, and [generate_risk_summary] returns the
    empty dictionary, whatever numpy's reductions would compute; neither
    raises. *)
Theorem empty_batch_normalize_and_summary :
  forall (np_mean np_median np_std : list Z -> float) (h : heap) (r : ref),
    h r = [] ->
    normalize_scores r h = (r, h)
    /\ normalized h r = []
    /\ generate_risk_summary np_mean np_median np_std (h r) = [].
Proof.
  intros np_mean np_median np_std h r H.
  unfold normalized, normalize_scores, generate_risk_summary.
  rewrite H. cbn [empty fst snd]. repeat split. exact H.
Qed.

(** Three equal scores of 500 all become 0. *)
Lemma normalize_scores_constant_batch_witness :
  normalized (one_frame (frame_of [500; 500; 500])) 0%nat
  = map (fun row => {| wallet_id := wallet_id row; score := 0 |})
        (one_frame (frame_of [500; 500; 500]) 0%nat).
Proof.
  apply (normalize_scores_constant_batch (one_frame (frame_of [500; 500; 500])) 0%nat 500).
  - vm_compute. discriminate.
  - unfold in_0_1000. lia.
  - vm_compute. repeat constructor.
Defined.

(** The heap whose frames are all empty. *)
Lemma empty_batch_normalize_and_summary_witness :
  normalize_scores 0%nat (fun _ => []) = (0%nat, fun _ => [])
  /\ normalized (fun _ => []) 0%nat = []
  /\ generate_risk_summary (fun _ => 0%float) (fun _ => 0%float) (fun _ => 0%float) [] = [].
Proof.
  apply (empty_batch_normalize_and_summary
           (fun _ => 0%float) (fun _ => 0%float) (fun _ => 0%float) (fun _ => []) 0%nat).
  reflexivity.
Defined.

End BatchClaims.

(* ================================================================== *)
(** * Further properties of the feature extractor *)

Section ExtractorProperties.

Import FeatureExtractor.

(** The record built for a wallet that has rows, with the five features
    that divide named. *)
Lemma extract_wallet_features_rows (now : Z) (transactions_df : list Transaction)
      (wallet_address : string) :
  wallet_rows transactions_df wallet_address <> [] ->
  exists repayment volatile collateral behavior trend ratio,
    _calculate_repayment_frequency (wallet_rows transactions_df wallet_address)
    = Some repayment
    /\ _calculate_volatile_asset_usage (wallet_rows transactions_df wallet_address)
       = Some volatile
    /\ _calculate_collateral_factor (wallet_rows transactions_df wallet_address)
       = Some collateral
    /\ _analyze_borrowing_behavior (wallet_rows transactions_df wallet_address)
       = Some behavior
    /\ _calculate_health_factor_trend (wallet_rows transactions_df wallet_address)
       = Some trend
    /\ (ratio = PFloat 0.5 \/ ratio = PFloat 0)
    /\ extract_wallet_features now transactions_df wallet_address
       = Some {|
           wallet_id := wallet_address;
           total_transactions := len (wallet_rows transactions_df wallet_address);
           first_transaction_date :=
             Some (timestamp_min (wallet_rows transactions_df wallet_address));
           last_transaction_date :=
             Some (timestamp_max (wallet_rows transactions_df wallet_address));
           days_since_last_activity :=
             _calculate_inactivity_days now (wallet_rows transactions_df wallet_address);
           total_supplied_usd :=
             _calculate_total_supplied (wallet_rows transactions_df wallet_address);
           total_borrowed_usd :=
             _calculate_total_borrowed (wallet_rows transactions_df wallet_address);
           supply_to_borrow_ratio := ratio;
           number_of_liquidations :=
             _count_liquidations (wallet_rows transactions_df wallet_address);
           repayment_frequency := repayment;
           volatile_asset_usage := volatile;
           protocol_version_usage :=
             _determine_protocol_version (wallet_rows transactions_df wallet_address);
           collateral_factor_average := collateral;
           borrowing_behavior := behavior;
           health_factor_trend := trend
         |}.
Proof.
  intros H.
  unfold extract_wallet_features. fold (wallet_rows transactions_df wallet_address).
  set (wallet_txs := wallet_rows transactions_df wallet_address) in *.
  assert (E : empty transactions_df = false).
  { destruct transactions_df; [now contradiction H | reflexivity]. }
  rewrite E. pose proof H as H'. apply empty_false_iff in H'. rewrite H'.
  destruct (_calculate_repayment_frequency_total wallet_txs) as [v1 E1].
  destruct (_calculate_volatile_asset_usage_total wallet_txs) as [v2 E2].
  destruct (_calculate_collateral_factor_total wallet_txs) as [v3 E3].
  destruct (_analyze_borrowing_behavior_total wallet_txs) as [v4 E4].
  destruct (_calculate_health_factor_trend_total wallet_txs) as [v5 E5].
  rewrite E1, E2, E3, E4, E5. cbn [bind].
  exists v1, v2, v3, v4, v5.
  unfold _calculate_total_supplied at 1 2, _calculate_total_borrowed at 1.
  fold is_supply_event.
  set (n := len (filter is_supply_event wallet_txs)).
  pose proof (len_nonneg (filter is_supply_event wallet_txs)) as Hn. fold n in Hn.
  destruct (Z.ltb_spec 0 (n * 1000)) as [P | P].
  - rewrite half_ratio by lia. cbn [bind].
    exists (PFloat 0.5). repeat split; try reflexivity. now left.
  - cbn [bind]. exists (PFloat 0). repeat split; try reflexivity. now right.
Qed.

Lemma extract_wallet_features_total (now : Z) (transactions_df : list Transaction)
      (wallet_address : string) :
  exists features,
    extract_wallet_features now transactions_df wallet_address = Some features
    /\ wallet_id features = wallet_address
    /\ total_transactions features = len (wallet_rows transactions_df wallet_address).
Proof.
  destruct (wallet_rows transactions_df wallet_address) as [| tx rest] eqn:E.
  - exists (default_features wallet_address). repeat split.
    unfold extract_wallet_features. unfold wallet_rows in E.
    destruct (empty transactions_df); [reflexivity |]. rewrite E. reflexivity.
  - assert (H : wallet_rows transactions_df wallet_address <> []) by (rewrite E; discriminate).
    destruct (extract_wallet_features_rows now transactions_df wallet_address H)
      as (v1 & v2 & v3 & v4 & v5 & ratio & _ & _ & _ & _ & _ & _ & ->).
    eexists. split; [reflexivity |]. cbn. rewrite E. split; reflexivity.
Qed.

Lemma extract_all_wallet_features_ids (now : Z) (transactions_df : list Transaction)
      (wallet_addresses : list string) :
  exists all_features,
    extract_all_wallet_features now transactions_df wallet_addresses = Some all_features
    /\ map wallet_id all_features = wallet_addresses.
Proof.
  induction wallet_addresses as [| wallet rest (fs & E & I)].
  - exists []. split; reflexivity.
  - cbn [extract_all_wallet_features].
    destruct (extract_wallet_features_total now transactions_df wallet) as (f & Ef & If & _).
    rewrite Ef, E. cbn [bind]. eexists. split; [reflexivity |].
    cbn [map]. now rewrite If, I.
Qed.

(** X1: [extract_all_wallet_features] never raises and returns exactly one
    record per requested address, in the order of the addresses, each
    carrying its address as [wallet_id] and the number of that wallet's rows
    as [total_transactions]; an address that is repeated or that has no rows
    gets its record all the same. *)
Theorem extract_all_wallet_features_one_per_address :
  forall (now : Z) (transactions_df : list Transaction) (wallet_addresses : list string),
  exists all_features,
    extract_all_wallet_features now transactions_df wallet_addresses = Some all_features
    /\ map wallet_id all_features = wallet_addresses
    /\ map total_transactions all_features
       = map (fun wallet => len (wallet_rows transactions_df wallet)) wallet_addresses.
Proof.
  intros now transactions_df wallet_addresses.
  induction wallet_addresses as [| wallet rest (fs & E & I & T)].
  - exists []. repeat split.
  - cbn [extract_all_wallet_features].
    destruct (extract_wallet_features_total now transactions_df wallet) as (f & Ef & If & Tf).
    rewrite Ef, E. cbn [bind]. eexists. split; [reflexivity |].
    cbn [map]. now rewrite If, I, Tf, T.
Qed.

Lemma wallet_rows_idem (transactions_df : list Transaction) (wallet_address : string) :
  wallet_rows (wallet_rows transactions_df wallet_address) wallet_address
  = wallet_rows transactions_df wallet_address.
Proof.
  unfold wallet_rows. induction transactions_df as [| a l IH]; [reflexivity |].
  cbn [filter]. destruct (String.eqb (wallet a) wallet_address) eqn:Ea; [| exact IH].
  cbn [filter]. rewrite Ea. now rewrite IH.
Qed.

(** X2: the features of a wallet depend on that wallet's rows only: two
    transaction frames with the same rows for the address give the same
    record, whatever rows of other wallets they hold. *)
Theorem extract_wallet_features_own_rows_only :
  forall (now : Z) (transactions_df transactions_df' : list Transaction)
         (wallet_address : string),
    wallet_rows transactions_df wallet_address
    = wallet_rows transactions_df' wallet_address ->
    extract_wallet_features now transactions_df wallet_address
    = extract_wallet_features now transactions_df' wallet_address.
Proof.
  intros now df df' w H.
  assert (G : forall d, extract_wallet_features now d w
              = if empty (wallet_rows d w)
                then Some (_get_default_features w)
                else extract_wallet_features now (wallet_rows d w) w).
  { intros d. unfold extract_wallet_features at 1. fold (wallet_rows d w).
    destruct d as [| tx d']; [reflexivity |]. cbn [empty].
    destruct (wallet_rows (tx :: d') w) as [| tx' rows] eqn:E; [reflexivity |].
    cbn [empty]. unfold extract_wallet_features. cbn [empty].
    fold (wallet_rows (tx' :: rows) w).
    rewrite <- E, wallet_rows_idem, E. reflexivity. }
  rewrite (G df), (G df'), H. reflexivity.
Qed.

(** Two frames with the same rows for "0xa": the second also holds a row
    of another wallet. *)
Lemma extract_wallet_features_own_rows_only_witness :
  extract_wallet_features 1700000000000000 one_day_rows "0xa"
  = extract_wallet_features 1700000000000000
      (row_at "0xb" "cETH" 1600000000000000 :: one_day_rows) "0xa".
Proof.
  apply (extract_wallet_features_own_rows_only 1700000000000000 one_day_rows
           (row_at "0xb" "cETH" 1600000000000000 :: one_day_rows) "0xa").
  reflexivity.
Defined.

Lemma len_filter_le {A : Type} (P : A -> bool) (l : list A) :
  0 <= len (filter P l) <= len l.
Proof.
  unfold len. induction l as [| a l IH]; cbn [filter List.length]; [lia |].
  destruct (P a); cbn [List.length]; lia.
Qed.

(** X3: in every extracted record the counts fit together: the number of
    liquidations is between 0 and the number of transactions, the supplied
    estimate is twice the borrowed one and at most 1000 per transaction, and
    the first transaction date is not after the last. *)
Theorem extract_wallet_features_counts :
  forall (now : Z) (transactions_df : list Transaction) (wallet_address : string),
  exists features,
    extract_wallet_features now transactions_df wallet_address = Some features
    /\ 0 <= number_of_liquidations features <= total_transactions features
    /\ total_supplied_usd features = 2 * total_borrowed_usd features
    /\ 0 <= total_supplied_usd features <= 1000 * total_transactions features
    /\ (forall first last,
          first_transaction_date features = Some first ->
          last_transaction_date features = Some last -> first <= last).
Proof.
  intros now df w.
  destruct (wallet_rows df w) as [| tx rest] eqn:E.
  - exists (default_features w). split.
    + unfold extract_wallet_features. unfold wallet_rows in E.
      destruct (empty df); [reflexivity |]. rewrite E. reflexivity.
    + cbn. repeat split; try lia. intros; discriminate.
  - assert (H : wallet_rows df w <> []) by (rewrite E; discriminate).
    destruct (extract_wallet_features_rows now df w H)
      as (v1 & v2 & v3 & v4 & v5 & ratio & _ & _ & _ & _ & _ & _ & ->).
    eexists. split; [reflexivity |].
    cbn [number_of_liquidations total_transactions total_supplied_usd
         total_borrowed_usd first_transaction_date last_transaction_date].
    unfold _count_liquidations, _calculate_total_supplied, _calculate_total_borrowed.
    set (rows := wallet_rows df w).
    pose proof (len_filter_le (fun tx => market_contains_nocase "liquidate" tx
                                         || topics_mention "liquidate" tx) rows).
    pose proof (len_filter_le (fun tx => market_contains "c" tx
                                         || market_isin ["USDC"; "WETH"; "WBTC"] tx) rows).
    repeat split; try lia.
    intros first last [= <-] [= <-]. apply timestamp_min_le_max.
Qed.

Lemma len_filter_pos {A : Type} (P : A -> bool) (l : list A) :
  (0 <? len (filter P l)) = existsb P l.
Proof.
  unfold len. induction l as [| a l IH]; cbn [filter existsb]; [reflexivity |].
  destruct (P a); cbn [orb List.length]; [| exact IH].
  apply Z.ltb_lt. lia.
Qed.

Lemma len_filter_zero {A : Type} (P : A -> bool) (l : list A) :
  existsb P l = false -> filter P l = [].
Proof.
  induction l as [| a l IH]; cbn [filter existsb]; [reflexivity |].
  destruct (P a); cbn [orb]; [discriminate | exact IH].
Qed.

Lemma filter_all {A : Type} (P : A -> bool) (l : list A) :
  forallb P l = true -> filter P l = l.
Proof.
  induction l as [| a l IH]; cbn [filter forallb]; [reflexivity |].
  destruct (P a); cbn [andb]; [| discriminate].
  intros H. now rewrite IH.
Qed.

(** X4: the ratio contribution of an extracted wallet is 50 when one of its
    rows counts as a supply event and 0 otherwise: the extractor's ratio is
    0.5 or 0, so the scorer's bands for 100, -50 and -100 are never reached
    from extracted features. *)
Theorem extracted_ratio_contribution :
  forall (now : Z) (transactions_df : list Transaction) (wallet_address : string),
  exists features,
    extract_wallet_features now transactions_df wallet_address = Some features
    /\ RiskScorer._score_borrow_supply_ratio (Batch.to_dict features)
       = PInt (if existsb is_supply_event (wallet_rows transactions_df wallet_address)
               then 50 else 0).
Proof.
  intros now df w.
  destruct (wallet_rows df w) as [| tx rest] eqn:E.
  - exists (default_features w). split; [| reflexivity].
    unfold extract_wallet_features. unfold wallet_rows in E.
    destruct (empty df); [reflexivity |]. rewrite E. reflexivity.
  - assert (H : wallet_rows df w <> []) by (rewrite E; discriminate).
    rewrite <- E.
    unfold extract_wallet_features. fold (wallet_rows df w).
    set (wallet_txs := wallet_rows df w) in *.
    assert (E0 : empty df = false).
    { destruct df; [now contradiction H | reflexivity]. }
    rewrite E0. pose proof H as H'. apply empty_false_iff in H'. rewrite H'.
    destruct (_calculate_repayment_frequency_total wallet_txs) as [v1 E1].
    destruct (_calculate_volatile_asset_usage_total wallet_txs) as [v2 E2].
    destruct (_calculate_collateral_factor_total wallet_txs) as [v3 E3].
    destruct (_analyze_borrowing_behavior_total wallet_txs) as [v4 E4].
    destruct (_calculate_health_factor_trend_total wallet_txs) as [v5 E5].
    rewrite E1, E2, E3, E4, E5. cbn [bind].
    unfold _calculate_total_supplied at 1 2, _calculate_total_borrowed at 1.
    fold is_supply_event.
    rewrite <- (len_filter_pos is_supply_event wallet_txs).
    set (n := len (filter is_supply_event wallet_txs)).
    pose proof (len_nonneg (filter is_supply_event wallet_txs)) as Hn. fold n in Hn.
    destruct (Z.ltb_spec 0 (n * 1000)) as [P | P].
    + rewrite half_ratio by lia. cbn [bind].
      eexists. split; [reflexivity |].
      replace (0 <? n) with true by (symmetry; apply Z.ltb_lt; lia).
      reflexivity.
    + cbn [bind]. eexists. split; [reflexivity |].
      replace (0 <? n) with false by (symmetry; apply Z.ltb_ge; lia).
      reflexivity.
Qed.

(** X5: the protocol-version contribution of an extracted wallet is -25
    when the wallet has no rows, 25 when strictly more of its rows are on a
    V3 market than on a V2 market, and 0 otherwise; a tie counts as V2 when
    there is a V2 row and as "unknown" when there is none. *)
Theorem extracted_protocol_version_contribution :
  forall (now : Z) (transactions_df : list Transaction) (wallet_address : string),
  exists features,
    extract_wallet_features now transactions_df wallet_address = Some features
    /\ protocol_version_usage features
       = (let rows := wallet_rows transactions_df wallet_address in
          if empty rows then "none"
          else if len (filter on_v2_market rows) <? len (filter on_v3_market rows) then "v3"
          else if existsb on_v2_market rows then "v2"
          else "unknown")
    /\ RiskScorer._score_protocol_version (Batch.to_dict features)
       = PInt (let rows := wallet_rows transactions_df wallet_address in
               if empty rows then -25
               else if len (filter on_v2_market rows) <? len (filter on_v3_market rows)
                    then 25 else 0).
Proof.
  intros now df w.
  destruct (wallet_rows df w) as [| tx rest] eqn:E.
  - exists (default_features w). split; [| split; reflexivity].
    unfold extract_wallet_features. unfold wallet_rows in E.
    destruct (empty df); [reflexivity |]. rewrite E. reflexivity.
  - assert (H : wallet_rows df w <> []) by (rewrite E; discriminate).
    destruct (extract_wallet_features_rows now df w H)
      as (v1 & v2 & v3 & v4 & v5 & ratio & _ & _ & _ & _ & _ & _ & ->).
    eexists. split; [reflexivity |].
    unfold RiskScorer._score_protocol_version.
    cbn [protocol_version_usage Batch.to_dict RiskScorer.protocol_version_usage
         RiskScorer.get].
    rewrite E. set (rows := tx :: rest).
    unfold _determine_protocol_version.
    change (market_isin Config.COMPOUND_V2_MARKETS) with on_v2_market.
    change (market_isin Config.COMPOUND_V3_MARKETS) with on_v3_market.
    rewrite (len_filter_pos on_v2_market rows).
    change (empty rows) with false. cbv zeta.
    destruct (len (filter on_v2_market rows) <? len (filter on_v3_market rows)).
    + split; reflexivity.
    + destruct (existsb on_v2_market rows); split; reflexivity.
Qed.

Lemma timestamp_max_spec (wallet_txs : list Transaction) :
  wallet_txs <> [] ->
  (exists tx, In tx wallet_txs /\ timestamp tx = timestamp_max wallet_txs)
  /\ Forall (fun tx => timestamp tx <= timestamp_max wallet_txs) wallet_txs.
Proof.
  destruct wallet_txs as [| tx rest]; [congruence | intros _].
  cbn [timestamp_max].
  assert (G : forall rest a,
            (fold_left (fun acc t => Z.max acc (timestamp t)) rest a = a
             \/ exists tx, In tx rest
                  /\ timestamp tx = fold_left (fun acc t => Z.max acc (timestamp t)) rest a)
            /\ Forall (fun tx => timestamp tx
                         <= fold_left (fun acc t => Z.max acc (timestamp t)) rest a) rest).
  { clear. induction rest as [| t rest IH]; intros a; cbn [fold_left].
    - split; [now left | constructor].
    - destruct (IH (Z.max a (timestamp t))) as [[Q | (tx & I & Q)] F].
      + split.
        * destruct (Z.max_spec a (timestamp t)) as [[_ M] | [_ M]].
          -- right. exists t. split; [now left |]. lia.
          -- left. lia.
        * constructor; [| exact F].
          pose proof (timestamp_fold_max rest (Z.max a (timestamp t))). lia.
      + split.
        * right. exists tx. split; [now right | exact Q].
        * constructor; [| exact F].
          pose proof (timestamp_fold_max rest (Z.max a (timestamp t))). lia. }
  destruct (G rest (timestamp tx)) as [[Q | (tx' & I & Q)] F].
  - split.
    + exists tx. split; [now left | now rewrite Q].
    + constructor; [pose proof (timestamp_fold_max rest (timestamp tx)); lia | exact F].
  - split.
    + exists tx'. split; [now right | exact Q].
    + constructor; [pose proof (timestamp_fold_max rest (timestamp tx)); lia | exact F].
Qed.

(** X6: for a wallet with rows, [days_since_last_activity] is the number
    of whole days from the latest of the wallet's rows to the current time,
    rounded toward minus infinity; it is not negative when no row is dated
    after the current time. *)
Theorem inactivity_days_since_latest_row :
  forall (now : Z) (transactions_df : list Transaction) (wallet_address : string),
    wallet_rows transactions_df wallet_address <> [] ->
    exists features latest,
      extract_wallet_features now transactions_df wallet_address = Some features
      /\ In latest (wallet_rows transactions_df wallet_address)
      /\ Forall (fun tx => timestamp tx <= timestamp latest)
                (wallet_rows transactions_df wallet_address)
      /\ last_transaction_date features = Some (timestamp latest)
      /\ 86400000000 * days_since_last_activity features
         <= now - timestamp latest
         < 86400000000 * (days_since_last_activity features + 1)
      /\ (timestamp latest <= now -> 0 <= days_since_last_activity features).
Proof.
  intros now df w H.
  destruct (extract_wallet_features_rows now df w H)
    as (v1 & v2 & v3 & v4 & v5 & ratio & _ & _ & _ & _ & _ & _ & ->).
  destruct (timestamp_max_spec _ H) as [(latest & I & Q) F].
  eexists. exists latest. split; [reflexivity |].
  cbn [last_transaction_date days_since_last_activity].
  unfold _calculate_inactivity_days.
  pose proof H as H'. apply empty_false_iff in H'. rewrite H'. cbv zeta.
  rewrite <- Q in *. unfold days.
  pose proof (Z.mul_div_le (now - timestamp latest) 86400000000 ltac:(lia)).
  pose proof (Z.mul_succ_div_gt (now - timestamp latest) 86400000000 ltac:(lia)).
  repeat split; try assumption; lia.
Qed.

Lemma inactivity_days_since_latest_row_witness :
  exists features latest,
    extract_wallet_features 1700500000000000 collected_rows "0xa" = Some features
    /\ In latest (wallet_rows collected_rows "0xa")
    /\ Forall (fun tx => timestamp tx <= timestamp latest)
              (wallet_rows collected_rows "0xa")
    /\ last_transaction_date features = Some (timestamp latest)
    /\ 86400000000 * days_since_last_activity features
       <= 1700500000000000 - timestamp latest
       < 86400000000 * (days_since_last_activity features + 1)
    /\ (timestamp latest <= 1700500000000000 -> 0 <= days_since_last_activity features).
Proof.
  apply (inactivity_days_since_latest_row 1700500000000000 collected_rows "0xa").
  discriminate.
Defined.

(** X7: a row dated after the current time makes the wallet's
    [days_since_last_activity] negative, and the scorer then gives the
    inactivity contribution of the most active band, 50. *)
Theorem future_dated_row_scores_as_active :
  forall (now : Z) (transactions_df : list Transaction) (wallet_address : string)
         (tx : Transaction),
    In tx (wallet_rows transactions_df wallet_address) ->
    now < timestamp tx ->
    exists features,
      extract_wallet_features now transactions_df wallet_address = Some features
      /\ days_since_last_activity features < 0
      /\ RiskScorer._score_inactivity_days (Batch.to_dict features) = PInt 50.
Proof.
  intros now df w tx I L.
  assert (H : wallet_rows df w <> []) by (intros E; rewrite E in I; exact I).
  destruct (extract_wallet_features_rows now df w H)
    as (v1 & v2 & v3 & v4 & v5 & ratio & _ & _ & _ & _ & _ & _ & ->).
  destruct (timestamp_max_spec _ H) as [_ F].
  rewrite Forall_forall in F. specialize (F tx I).
  eexists. split; [reflexivity |].
  unfold RiskScorer._score_inactivity_days.
  cbn [days_since_last_activity Batch.to_dict RiskScorer.days_since_last_activity
       RiskScorer.get].
  unfold _calculate_inactivity_days.
  pose proof H as H'. apply empty_false_iff in H'. rewrite H'. cbv zeta.
  set (d := days (now - timestamp_max (wallet_rows df w))).
  assert (D : d < 0).
  { subst d. unfold days. apply Z.div_lt_upper_bound; lia. }
  split; [exact D |].
  unfold Py.leb, Py.compare.
  replace (d ?= 7) with Lt by (symmetry; apply Z.compare_lt_iff; lia).
  reflexivity.
Qed.

Lemma future_dated_row_scores_as_active_witness :
  exists features,
    extract_wallet_features 1700100000000000 collected_rows "0xa" = Some features
    /\ days_since_last_activity features < 0
    /\ RiskScorer._score_inactivity_days (Batch.to_dict features) = PInt 50.
Proof.
  apply (future_dated_row_scores_as_active 1700100000000000 collected_rows "0xa"
           (row_at "0xa" "LINK" 1700200000000000)).
  - simpl. right. right. left. reflexivity.
  - reflexivity.
Defined.

Lemma int_truediv_zero (n : Z) : 0 < n -> Py.int_truediv 0 n = Some 0%float.
Proof.
  intros H. unfold Py.int_truediv.
  replace (n =? 0) with false by (symmetry; apply Z.eqb_neq; lia).
  cbn [Z.gcd]. rewrite Z.abs_eq by lia.
  rewrite Z.div_0_l, Z.div_same by lia. reflexivity.
Qed.

Lemma int_truediv_same (n : Z) : 0 < n -> Py.int_truediv n n = Some 1%float.
Proof.
  intros H. unfold Py.int_truediv.
  replace (n =? 0) with false by (symmetry; apply Z.eqb_neq; lia).
  rewrite Z.gcd_diag, Z.abs_eq, Z.div_same by lia. reflexivity.
Qed.

Lemma volatile_usage_none (wallet_txs : list Transaction) :
  wallet_txs <> [] ->
  forallb (fun tx => negb (is_volatile tx)) wallet_txs = true ->
  _calculate_volatile_asset_usage wallet_txs = Some (PFloat 0).
Proof.
  intros H N. unfold _calculate_volatile_asset_usage.
  pose proof H as H'. apply empty_false_iff in H'. rewrite H'. cbv zeta.
  change (fun tx : Transaction =>
            existsb (fun asset => Str.contains asset (Str.upper (market_str tx)))
                    Config.VOLATILE_ASSETS) with is_volatile.
  assert (E : filter is_volatile wallet_txs = []).
  { apply len_filter_zero. clear - N.
    induction wallet_txs as [| a l IH]; [reflexivity |].
    cbn [forallb existsb] in *. apply andb_prop in N. destruct N as [Na Nl].
    destruct (is_volatile a); [discriminate | now apply IH]. }
  rewrite E. unfold Py.truediv.
  pose proof (len_pos wallet_txs H) as P.
  replace (Py.is_zero (PInt (len wallet_txs))) with false
    by (symmetry; apply Z.eqb_neq; lia).
  change (len []) with 0. now rewrite int_truediv_zero.
Qed.

Lemma volatile_usage_all (wallet_txs : list Transaction) :
  wallet_txs <> [] ->
  forallb is_volatile wallet_txs = true ->
  _calculate_volatile_asset_usage wallet_txs = Some (PFloat 1).
Proof.
  intros H N. unfold _calculate_volatile_asset_usage.
  pose proof H as H'. apply empty_false_iff in H'. rewrite H'. cbv zeta.
  change (fun tx : Transaction =>
            existsb (fun asset => Str.contains asset (Str.upper (market_str tx)))
                    Config.VOLATILE_ASSETS) with is_volatile.
  rewrite (filter_all is_volatile wallet_txs N). unfold Py.truediv.
  pose proof (len_pos wallet_txs H) as P.
  replace (Py.is_zero (PInt (len wallet_txs))) with false
    by (symmetry; apply Z.eqb_neq; lia).
  now rewrite int_truediv_same.
Qed.

Lemma forallb_firstn {A : Type} (P : A -> bool) (n : nat) (l : list A) :
  forallb P l = true -> forallb P (firstn n l) = true.
Proof.
  revert n. induction l as [| a l IH]; intros [| n]; cbn [firstn forallb]; try reflexivity.
  intros H. apply andb_prop in H. destruct H as [Ha Hl]. now rewrite Ha, IH.
Qed.

Lemma forallb_skipn {A : Type} (P : A -> bool) (n : nat) (l : list A) :
  forallb P l = true -> forallb P (skipn n l) = true.
Proof.
  revert n. induction l as [| a l IH]; intros [| n]; cbn [skipn forallb]; try reflexivity.
  - tauto.
  - intros H. apply andb_prop in H. destruct H as [Ha Hl]. now apply IH.
Qed.

Lemma tail_head_rows {A : Type} (l : list A) :
  l <> [] ->
  tail 10 l <> [] /\ head (Nat.max 1 (List.length l - 10)) l <> [].
Proof.
  intros H. split.
  - unfold tail. intros E. apply (f_equal (@List.length A)) in E.
    rewrite length_skipn in E. cbn [List.length] in E.
    destruct l; [congruence |]. cbn [List.length] in E. lia.
  - unfold head. destruct l as [| a l]; [congruence |].
    destruct (Nat.max 1 (List.length (a :: l) - 10)) eqn:E; [lia |]. discriminate.
Qed.

(** X8: a wallet all of whose rows are on volatile markets has a volatile
    asset usage of exactly 1.0, and one with no such row exactly 0.0; in
    both cases the recent and the older rows show the same usage, so the
    health factor trend is "stable".  A wallet with a single row is such a
    wallet. *)
Theorem uniform_rows_usage_and_trend :
  forall wallet_txs : list Transaction,
    wallet_txs <> [] ->
    forallb is_volatile wallet_txs = true
    \/ forallb (fun tx => negb (is_volatile tx)) wallet_txs = true ->
    _calculate_volatile_asset_usage wallet_txs
    = Some (PFloat (if forallb is_volatile wallet_txs then 1 else 0))
    /\ _calculate_health_factor_trend wallet_txs = Some "stable".
Proof.
  intros rows H U.
  destruct (tail_head_rows rows H) as [T Hd].
  unfold _calculate_health_factor_trend.
  pose proof H as H'. apply empty_false_iff in H'. rewrite H'. cbv zeta.
  destruct (forallb is_volatile rows) eqn:A.
  - split; [now apply volatile_usage_all |].
    rewrite (volatile_usage_all _ T) by (unfold tail; now apply forallb_skipn).
    rewrite (volatile_usage_all _ Hd) by (unfold head; now apply forallb_firstn).
    reflexivity.
  - destruct U as [U | U]; [discriminate |].
    split; [now apply volatile_usage_none |].
    rewrite (volatile_usage_none _ T) by (unfold tail; now apply forallb_skipn).
    rewrite (volatile_usage_none _ Hd) by (unfold head; now apply forallb_firstn).
    reflexivity.
Qed.

Lemma uniform_rows_usage_and_trend_witness :
  _calculate_volatile_asset_usage
    [row_at "0xa" "cDAI" 1700000000000000; row_at "0xa" "USDC" 1700090000000000]
  = Some (PFloat (if forallb is_volatile
                       [row_at "0xa" "cDAI" 1700000000000000;
                        row_at "0xa" "USDC" 1700090000000000]
                  then 1 else 0))
  /\ _calculate_health_factor_trend
       [row_at "0xa" "cDAI" 1700000000000000; row_at "0xa" "USDC" 1700090000000000]
     = Some "stable".
Proof.
  apply (uniform_rows_usage_and_trend
           [row_at "0xa" "cDAI" 1700000000000000; row_at "0xa" "USDC" 1700090000000000]).
  - discriminate.
  - right. reflexivity.
Defined.

End ExtractorProperties.

(* ================================================================== *)
(** * The simulated transactions and what the extractor reads in them *)

Section SimulatedRows.

Import FeatureExtractor.

Lemma hex_digit_char (n : nat) :
  (n < 16)%nat -> is_hex_text_char (Main.hex_digit n) = true.
Proof.
  intros H. do 16 (destruct n as [| n]; [reflexivity |]). lia.
Qed.

Lemma hex_chars (bs : list Byte.byte) :
  all_chars is_hex_text_char (Main.hex bs) = true.
Proof.
  induction bs as [| b bs IH]; [reflexivity |].
  cbn [Main.hex all_chars].
  rewrite !hex_digit_char, IH; [reflexivity | |].
  - apply Nat.mod_upper_bound. discriminate.
  - apply Nat.Div0.div_lt_upper_bound. pose proof (Byte.to_nat_bounded b). lia.
Qed.

(** A keyword whose first letter is in no character of [s] does not occur
    in [s]. *)
Lemma contains_first_letter (c : ascii) (kw s : string) :
  all_chars (fun a => negb (Ascii.eqb a c)) s = true ->
  Str.contains (String c kw) s = false.
Proof.
  induction s as [| a s IH]; [reflexivity |].
  cbn [all_chars Str.contains String.prefix]. intros H.
  apply andb_prop in H. destruct H as [Ha Hs].
  rewrite (IH Hs). destruct (ascii_dec c a) as [-> | _]; [| reflexivity].
  now rewrite Ascii.eqb_refl in Ha.
Qed.

Lemma lower_hex_text_char (a : ascii) :
  is_hex_text_char a = true ->
  negb (Ascii.eqb (Str.lower_ascii a) "r") = true
  /\ negb (Ascii.eqb (Str.lower_ascii a) "l") = true.
Proof.
  destruct a as [[] [] [] [] [] [] [] []]; intros H; try discriminate H;
    split; reflexivity.
Qed.

Lemma hex_text_lower (c : ascii) (s : string) :
  c = "r"%char \/ c = "l"%char ->
  all_chars is_hex_text_char s = true ->
  all_chars (fun a => negb (Ascii.eqb a c)) (Str.lower s) = true.
Proof.
  intros C. induction s as [| a s IH]; [reflexivity |].
  cbn [all_chars Str.lower]. intros H. apply andb_prop in H. destruct H as [Ha Hs].
  rewrite (IH Hs). destruct (lower_hex_text_char a Ha) as [R L].
  destruct C as [-> | ->]; [now rewrite R | now rewrite L].
Qed.

(** No topic of a collected row mentions a repayment or a liquidation. *)
Lemma topics_of_collected_row (tx : Transaction) :
  collected_row tx = true ->
  topics_mention "repay" tx = false /\ topics_mention "liquidate" tx = false.
Proof.
  unfold collected_row, topics_mention. intros H.
  apply andb_prop in H. destruct H as [_ H].
  destruct (topics tx) as [x |]; [| discriminate].
  induction x as [| topic x IH]; [split; reflexivity |].
  cbn [forallb existsb] in *. apply andb_prop in H. destruct H as [Ht Hx].
  destruct (IH Hx) as [-> ->].
  rewrite !contains_first_letter; [split; reflexivity | |].
  - apply hex_text_lower; [now right | exact Ht].
  - apply hex_text_lower; [now left | exact Ht].
Qed.

(** No configured market name contains one of the keywords that the
    extractor looks for in the [market] column. *)
Lemma market_of_collected_row (tx : Transaction) :
  collected_row tx = true ->
  market_contains_nocase "repay" tx = false
  /\ market_contains_nocase "liquidate" tx = false
  /\ market_contains_nocase "borrow" tx = false.
Proof.
  unfold collected_row, market_isin, market_contains_nocase. intros H.
  apply andb_prop in H. destruct H as [H _].
  destruct (market tx) as [m |]; [| discriminate].
  unfold Str.isin in H. apply existsb_exists in H. destruct H as (name & I & E).
  apply String.eqb_eq in E. subst m.
  assert (A : forallb (fun name =>
                negb (Str.contains "repay" (Str.lower name))
                && negb (Str.contains "liquidate" (Str.lower name))
                && negb (Str.contains "borrow" (Str.lower name)))
              (Config.COMPOUND_V2_MARKETS ++ Config.COMPOUND_V3_MARKETS) = true)
    by reflexivity.
  rewrite forallb_forall in A. specialize (A name I).
  apply andb_prop in A. destruct A as [A B]. apply andb_prop in A. destruct A as [A C].
  apply negb_true_iff in A, B, C. now rewrite A, B, C.
Qed.

Lemma filter_none {A : Type} (P : A -> bool) (l : list A) :
  Forall (fun x => P x = false) l -> filter P l = [].
Proof.
  induction 1 as [| a l Ha _ IH]; [reflexivity |].
  cbn [filter]. now rewrite Ha.
Qed.

(** What the extractor finds in rows of that shape. *)
Lemma collected_rows_features (wallet_txs : list Transaction) :
  wallet_txs <> [] ->
  Forall (fun tx => collected_row tx = true) wallet_txs ->
  _count_liquidations wallet_txs = 0
  /\ _calculate_repayment_frequency wallet_txs = Some (PInt 0)
  /\ _analyze_borrowing_behavior wallet_txs = Some "supplier_only".
Proof.
  intros H F.
  pose proof H as H'. apply empty_false_iff in H'.
  assert (L : filter (fun tx => market_contains_nocase "liquidate" tx
                                || topics_mention "liquidate" tx) wallet_txs = []).
  { apply filter_none. eapply Forall_impl; [| exact F]. intros tx C. cbv beta in *.
    destruct (topics_of_collected_row tx C) as [_ ->].
    destruct (market_of_collected_row tx C) as (_ & -> & _). reflexivity. }
  assert (R : filter (fun tx => market_contains_nocase "repay" tx
                                || topics_mention "repay" tx) wallet_txs = []).
  { apply filter_none. eapply Forall_impl; [| exact F]. intros tx C. cbv beta in *.
    destruct (topics_of_collected_row tx C) as [-> _].
    destruct (market_of_collected_row tx C) as (-> & _ & _). reflexivity. }
  assert (B : filter (market_contains_nocase "borrow") wallet_txs = []).
  { apply filter_none. eapply Forall_impl; [| exact F]. intros tx C. cbv beta in *.
    now destruct (market_of_collected_row tx C) as (_ & _ & ->). }
  repeat split.
  - unfold _count_liquidations. now rewrite L.
  - unfold _calculate_repayment_frequency. rewrite H'. cbv zeta. now rewrite R.
  - unfold _analyze_borrowing_behavior. rewrite H'. cbv zeta. now rewrite B.
Qed.

Lemma simulated_transaction_collected (wallet : string) (i : Z) (d : Main.draws) :
  possible d -> collected_row (Main.simulated_transaction wallet i d) = true.
Proof.
  intros [M _]. unfold collected_row, market_isin.
  cbn [market topics Main.simulated_transaction forallb].
  change (all_chars is_hex_text_char ("0x" ++ Main.hex (Main.topic_bytes d)))
    with (all_chars is_hex_text_char (Main.hex (Main.topic_bytes d))).
  rewrite hex_chars. rewrite !andb_true_r.
  unfold Str.isin. apply existsb_exists.
  exists (nth (Main.market_index d) Main.markets ""). split.
  - change (Config.COMPOUND_V2_MARKETS ++ Config.COMPOUND_V3_MARKETS)%list
      with Main.markets.
    now apply nth_In.
  - apply String.eqb_refl.
Qed.

Lemma simulated_rows_collected (wallet : string) (ds : list Main.draws) (i : Z) :
  Forall possible ds ->
  Forall (fun tx => collected_row tx = true) (Main.simulated_rows wallet i ds).
Proof.
  intros F. revert i. induction F as [| d ds Hd _ IH]; intros i; cbn [Main.simulated_rows].
  - constructor.
  - constructor; [now apply simulated_transaction_collected | apply IH].
Qed.

Lemma create_simulated_transactions_collected (random : nat -> list Main.draws)
      (wallet_addresses : list string) :
  (forall k, Forall possible (random k)) ->
  Forall (fun tx => collected_row tx = true)
         (Main.create_simulated_transactions random wallet_addresses).
Proof.
  intros P. unfold Main.create_simulated_transactions. generalize 0%nat.
  induction wallet_addresses as [| wallet rest IH]; intros k;
    cbn [Main.create_simulated_transactions_from].
  - constructor.
  - apply Forall_app. split; [apply simulated_rows_collected, P | apply IH].
Qed.

(** X9: in the features extracted from the simulated transactions, whatever
    is drawn, no wallet has a liquidation or a repayment, and every wallet
    with rows is a "supplier_only": the drawn transaction type is not kept
    in the rows, the market names hold none of the keywords and the topics
    are hexadecimal digests.  The scorer therefore gives every wallet the
    liquidation contribution 50 and the repayment contribution -50. *)
Theorem simulated_wallets_never_borrow_repay_or_liquidate :
  forall (random : nat -> list Main.draws) (wallet_addresses : list string)
         (now : Z) (wallet_address : string),
    (forall k, Forall possible (random k)) ->
    exists features,
      extract_wallet_features now
        (Main.create_simulated_transactions random wallet_addresses) wallet_address
      = Some features
      /\ number_of_liquidations features = 0
      /\ repayment_frequency features = PInt 0
      /\ borrowing_behavior features
         = (if 0 <? total_transactions features then "supplier_only" else "none")
      /\ RiskScorer._score_liquidation_count (Batch.to_dict features) = PInt 50
      /\ RiskScorer._score_repayment_frequency (Batch.to_dict features) = PInt (-50).
Proof.
  intros random wallets now w P.
  set (df := Main.create_simulated_transactions random wallets).
  destruct (wallet_rows df w) as [| tx rest] eqn:E.
  - exists (default_features w). split; [| repeat split].
    unfold extract_wallet_features. unfold wallet_rows in E.
    destruct (empty df); [reflexivity |]. rewrite E. reflexivity.
  - assert (H : wallet_rows df w <> []) by (rewrite E; discriminate).
    assert (F : Forall (fun tx => collected_row tx = true) (wallet_rows df w)).
    { unfold wallet_rows. apply Forall_forall. intros x I.
      apply filter_In in I. destruct I as [I _].
      pose proof (create_simulated_transactions_collected random wallets P) as C.
      rewrite Forall_forall in C. now apply C. }
    destruct (collected_rows_features _ H F) as (L & R & B).
    destruct (extract_wallet_features_rows now df w H)
      as (v1 & v2 & v3 & v4 & v5 & ratio & E1 & _ & _ & E4 & _ & _ & ->).
    rewrite R in E1. rewrite B in E4. injection E1 as <-. injection E4 as <-.
    eexists. split; [reflexivity |].
    unfold RiskScorer._score_liquidation_count, RiskScorer._score_repayment_frequency.
    cbn [number_of_liquidations repayment_frequency borrowing_behavior total_transactions
         Batch.to_dict RiskScorer.number_of_liquidations RiskScorer.repayment_frequency
         RiskScorer.get].
    rewrite L. pose proof (len_pos _ H) as Q.
    replace (0 <? len (wallet_rows df w)) with true by (symmetry; apply Z.ltb_lt; lia).
    repeat split.
Qed.

Lemma simulated_wallets_never_borrow_repay_or_liquidate_witness :
  exists features,
    extract_wallet_features 1700000000000000
      (Main.create_simulated_transactions same_draws ["0xa"; "0xb"]) "0xb"
    = Some features
    /\ number_of_liquidations features = 0
    /\ repayment_frequency features = PInt 0
    /\ borrowing_behavior features
       = (if 0 <? total_transactions features then "supplier_only" else "none")
    /\ RiskScorer._score_liquidation_count (Batch.to_dict features) = PInt 50
    /\ RiskScorer._score_repayment_frequency (Batch.to_dict features) = PInt (-50).
Proof.
  apply (simulated_wallets_never_borrow_repay_or_liquidate same_draws ["0xa"; "0xb"]
           1700000000000000 "0xb").
  intros k. unfold same_draws, possible.
  repeat constructor; simpl; lia.
Defined.

End SimulatedRows.

(* ================================================================== *)
(** * The sheet parser *)

Section SheetParserProperties.

Import SheetParser.

Lemma hex_run_spec (n : nat) (s rest : string) :
  hex_run n s = Some rest <->
  exists digits, hex_digits n digits = true /\ s = digits ++ rest.
Proof.
  revert s. induction n as [| n IH]; intros s; cbn [hex_run].
  - split.
    + intros [= ->]. exists "". split; reflexivity.
    + intros (digits & D & ->). destruct digits; [reflexivity | discriminate].
  - destruct s as [| c s].
    + split; [discriminate |].
      intros (digits & D & E). destruct digits; discriminate.
    + destruct (is_hex_digit c) eqn:C.
      * rewrite IH. split.
        -- intros (digits & D & ->). exists (String c digits). split; [| reflexivity].
           cbn [hex_digits]. now rewrite C.
        -- intros (digits & D & E). destruct digits as [| c' digits]; [discriminate |].
           cbn [hex_digits] in D. apply andb_prop in D. destruct D as [_ D].
           injection E as -> ->. now exists digits.
      * split; [discriminate |].
        intros (digits & D & E). destruct digits as [| c' digits]; [discriminate |].
        cbn [hex_digits] in D. injection E as -> ->. rewrite C in D. discriminate.
Qed.

Lemma at_end_spec (s : string) :
  at_end s = true <-> s = "" \/ s = String "010" "".
Proof.
  destruct s as [| c [| c' s]]; cbn [at_end].
  - split; [now left | reflexivity].
  - rewrite Ascii.eqb_eq. split.
    + intros ->. now right.
    + intros [E | E]; [discriminate | now injection E].
  - split; [discriminate | intros [E | E]; discriminate].
Qed.

Lemma append_empty_r (s : string) : s ++ "" = s.
Proof.
  induction s as [| c s IH]; [reflexivity |]. cbn [append]. now rewrite IH.
Qed.

Lemma valid_address_digits (address : string) :
  is_valid_ethereum_address address = true ->
  exists digits,
    hex_digits 40 digits = true
    /\ (address = "0x" ++ digits \/ address = "0x" ++ digits ++ String "010" "").
Proof.
  unfold is_valid_ethereum_address.
  destruct address as [| a address]; [discriminate |].
  destruct a as [[] [] [] [] [] [] [] []]; try discriminate.
  destruct address as [| b rest]; [discriminate |].
  destruct b as [[] [] [] [] [] [] [] []]; try discriminate.
  destruct (hex_run 40 rest) as [rest' |] eqn:R; [| discriminate].
  apply hex_run_spec in R. destruct R as (digits & D & ->).
  intros E. apply at_end_spec in E. exists digits. split; [exact D |].
  destruct E as [-> | ->]; [left | right]; [| reflexivity].
  now rewrite append_empty_r.
Qed.

(** X10: [is_valid_ethereum_address] accepts exactly the texts made of
    "0x" and 40 hexadecimal digits of either case, and such a text followed
    by one newline. *)
Theorem is_valid_ethereum_address_accepts :
  forall address : string,
    is_valid_ethereum_address address = true <->
    exists digits,
      hex_digits 40 digits = true
      /\ (address = "0x" ++ digits \/ address = "0x" ++ digits ++ String "010" "").
Proof.
  intros address. split; [apply valid_address_digits |].
  intros (digits & D & [-> | ->]); cbn [append is_valid_ethereum_address].
  - replace (hex_run 40 digits) with (Some "").
    + reflexivity.
    + symmetry. apply hex_run_spec. exists digits. split; [exact D |].
      now rewrite append_empty_r.
  - replace (hex_run 40 (digits ++ String "010" "")) with (Some (String "010" "")).
    + reflexivity.
    + symmetry. apply hex_run_spec. now exists digits.
Qed.

Lemma rstrip_end (s : string) : ends_with_space (rstrip s) = false.
Proof.
  induction s as [| c s IH]; [reflexivity |].
  cbn [rstrip]. destruct (rstrip s) as [| c' r] eqn:E.
  - destruct (is_space c) eqn:C; [reflexivity |]. cbn [ends_with_space]. exact C.
  - cbn [ends_with_space] in *. exact IH.
Qed.

Lemma ends_with_space_append (s : string) (c : ascii) :
  ends_with_space (s ++ String c "") = is_space c.
Proof.
  induction s as [| a s IH]; [reflexivity |].
  cbn [append ends_with_space]. rewrite IH.
  destruct (s ++ String c "") eqn:E; [| reflexivity].
  destruct s; discriminate.
Qed.

Lemma first_value_stripped (values : list cell) (address : string) :
  first_value values = Some address -> ends_with_space address = false.
Proof.
  induction values as [| [text |] rest IH]; cbn [first_value]; [discriminate | | exact IH].
  destruct (strip text) as [| c s] eqn:E; [exact IH |].
  intros [= <-]. rewrite <- E. apply rstrip_end.
Qed.

Lemma row_addresses_well_formed (df : list (list cell)) (address : string) :
  In address (row_addresses df) ->
  exists digits, hex_digits 40 digits = true /\ address = "0x" ++ digits.
Proof.
  induction df as [| row rest IH]; cbn [row_addresses]; [contradiction |].
  destruct (first_value row) as [a |] eqn:F; [| exact IH].
  destruct (is_valid_ethereum_address a) eqn:V; [| exact IH].
  intros [<- | I]; [| now apply IH].
  apply valid_address_digits in V.
  destruct V as (digits & D & [E | E]); [now exists digits |].
  apply first_value_stripped in F. rewrite E in F.
  change ("0x" ++ digits ++ String "010" "")
    with (String "0" (String "x" (digits ++ String "010" ""))) in F.
  cbn [ends_with_space] in F.
  assert (G : ends_with_space (String "x" (digits ++ String "010" "")) = true).
  { cbn [ends_with_space]. destruct (digits ++ String "010" "") eqn:Q.
    - destruct digits; discriminate.
    - rewrite <- Q. apply ends_with_space_append. }
  destruct (digits ++ String "010" "") eqn:Q; [destruct digits; discriminate |].
  rewrite <- Q in *. cbn [ends_with_space] in G. rewrite Q in G, F.
  rewrite <- Q in G, F. congruence.
Qed.

(** X11: whatever the download gives, every address that
    [parse_google_sheet] returns is "0x" followed by exactly 40 hexadecimal
    digits, without the surrounding blanks of its cell and without a final
    newline, and the sheet gives at most one address per row. *)
Theorem parse_google_sheet_addresses :
  forall (fetch : string -> option (list (list cell))) (sheet_url address : string),
    In address (parse_google_sheet fetch sheet_url) ->
    (exists digits, hex_digits 40 digits = true /\ address = "0x" ++ digits)
    /\ is_valid_ethereum_address address = true
    /\ exists sheet_id df,
         extract_sheet_id sheet_url = Some sheet_id
         /\ fetch (csv_url sheet_id) = Some df
         /\ len (parse_google_sheet fetch sheet_url) <= len df.
Proof.
  intros fetch url address. unfold parse_google_sheet.
  destruct (extract_sheet_id url) as [sheet_id |]; [| contradiction].
  destruct (fetch (csv_url sheet_id)) as [df |] eqn:Ef; [| contradiction].
  intros I. split; [now apply (row_addresses_well_formed df) |]. split.
  - clear - I. induction df as [| row rest IH]; cbn [row_addresses] in I; [contradiction |].
    destruct (first_value row) as [a |]; [| now apply IH].
    destruct (is_valid_ethereum_address a) eqn:V; [| now apply IH].
    destruct I as [<- | I]; [exact V | now apply IH].
  - exists sheet_id, df. split; [reflexivity |]. split; [exact Ef |]. clear. unfold len.
    induction df as [| row rest IH]; cbn [row_addresses List.length]; [lia |].
    destruct (first_value row) as [a |]; [| lia].
    destruct (is_valid_ethereum_address a); cbn [List.length]; lia.
Qed.

(** The sheet of four rows gives the address of its first and of its third
    row; the second row has a name before its address and gives none. *)
Lemma parse_google_sheet_addresses_witness :
  parse_google_sheet four_rows_sheet "docs.google.com/spreadsheets/d/abc_-9/edit"
  = [ "0x742d35Cc6634C0532925a3b8D4C9db96C4b4d8b6";
      "0xfaa0768bde629806739c3a4620656c5d26f44ef2" ]
  /\ ((exists digits,
         hex_digits 40 digits = true
         /\ "0xfaa0768bde629806739c3a4620656c5d26f44ef2" = "0x" ++ digits)
      /\ is_valid_ethereum_address "0xfaa0768bde629806739c3a4620656c5d26f44ef2" = true
      /\ exists sheet_id df,
           extract_sheet_id "docs.google.com/spreadsheets/d/abc_-9/edit" = Some sheet_id
           /\ four_rows_sheet (csv_url sheet_id) = Some df
           /\ len (parse_google_sheet four_rows_sheet
                     "docs.google.com/spreadsheets/d/abc_-9/edit") <= len df).
Proof.
  split; [reflexivity |].
  apply (parse_google_sheet_addresses four_rows_sheet
           "docs.google.com/spreadsheets/d/abc_-9/edit"
           "0xfaa0768bde629806739c3a4620656c5d26f44ef2").
  simpl. right. left. reflexivity.
Defined.

Lemma sample_wallets_well_formed :
  forallb (fun address =>
             match address with
             | String "0" (String "x" digits) => hex_digits 40 digits
             | _ => false
             end) get_sample_wallets = true.
Proof. reflexivity. Qed.

Lemma load_wallets_from_sheet_well_formed
      (fetch : string -> option (list (list cell))) (url : string) :
  load_wallets_from_sheet fetch url <> []
  /\ Forall (fun address =>
               exists digits, hex_digits 40 digits = true /\ address = "0x" ++ digits)
            (load_wallets_from_sheet fetch url).
Proof.
  unfold load_wallets_from_sheet.
  destruct (parse_google_sheet fetch url) as [| a l] eqn:E; cbn [empty].
  - split; [discriminate |]. apply Forall_forall. intros address I.
    pose proof sample_wallets_well_formed as W. rewrite forallb_forall in W.
    specialize (W address I).
    destruct address as [| a address]; [discriminate |].
    destruct a as [[] [] [] [] [] [] [] []]; try discriminate.
    destruct address as [| b digits]; [discriminate |].
    destruct b as [[] [] [] [] [] [] [] []]; try discriminate.
    now exists digits.
  - split; [discriminate |]. apply Forall_forall. intros address I.
    rewrite <- E in I. unfold parse_google_sheet in I.
    destruct (extract_sheet_id url) as [sheet_id |]; [| contradiction].
    destruct (fetch (csv_url sheet_id)) as [df |]; [| contradiction].
    now apply (row_addresses_well_formed df).
Qed.

Lemma load_wallet_addresses_well_formed
      (fetch : string -> option (list (list cell))) (sheet_url : option string) :
  load_wallet_addresses fetch sheet_url <> []
  /\ Forall (fun address =>
               exists digits, hex_digits 40 digits = true /\ address = "0x" ++ digits)
            (load_wallet_addresses fetch sheet_url).
Proof.
  unfold load_wallet_addresses.
  destruct sheet_url as [[| c url] |]; apply load_wallets_from_sheet_well_formed.
Qed.

(** X12: [load_wallet_addresses] never returns an empty list, and every
    address it returns is "0x" followed by exactly 40 hexadecimal digits:
    when the link holds no sheet id, when the download fails and when the
    sheet gives no address, the result is the list of 20 sample wallets. *)
Theorem load_wallet_addresses_never_empty :
  forall (fetch : string -> option (list (list cell))) (sheet_url : option string),
    load_wallet_addresses fetch sheet_url <> []
    /\ Forall (fun address =>
                 exists digits, hex_digits 40 digits = true /\ address = "0x" ++ digits)
              (load_wallet_addresses fetch sheet_url)
    /\ (forall url,
          parse_google_sheet fetch url = [] ->
          load_wallets_from_sheet fetch url = get_sample_wallets
          /\ len (load_wallets_from_sheet fetch url) = 20)
    /\ (forall url, extract_sheet_id url = None -> parse_google_sheet fetch url = [])
    /\ (forall url sheet_id,
          extract_sheet_id url = Some sheet_id -> fetch (csv_url sheet_id) = None ->
          parse_google_sheet fetch url = []).
Proof.
  intros fetch sheet_url.
  destruct (load_wallet_addresses_well_formed fetch sheet_url) as [N W].
  split; [exact N |]. split; [exact W |]. split; [| split].
  - intros url E. unfold load_wallets_from_sheet. rewrite E. split; reflexivity.
  - intros url E. unfold parse_google_sheet. now rewrite E.
  - intros url sheet_id E F. unfold parse_google_sheet. now rewrite E, F.
Qed.

Lemma strip_prefix_append (p s : string) : strip_prefix p (p ++ s) = Some s.
Proof.
  induction p as [| a p IH]; [reflexivity |].
  cbn [append strip_prefix]. now rewrite Ascii.eqb_refl.
Qed.

Lemma take_while_append (P : ascii -> bool) (s rest : string) :
  all_chars P s = true ->
  match rest with
  | EmptyString => True
  | String c _ => P c = false
  end ->
  take_while P (s ++ rest) = s.
Proof.
  intros A R. induction s as [| a s IH]; cbn [append].
  - destruct rest as [| c r]; [reflexivity |]. cbn [take_while]. now rewrite R.
  - cbn [all_chars] in A. apply andb_prop in A. destruct A as [Aa As].
    cbn [take_while]. rewrite Aa. now rewrite IH.
Qed.

(** X13: from a link of the usual form, the prefix
    "https://docs.google.com/spreadsheets/d/", an id made of letters,
    digits, "-" and "_", and then nothing or text that starts with another
    character, [extract_sheet_id] returns the id; the export link that
    [parse_google_sheet] builds from an id gives that id back. *)
Theorem extract_sheet_id_of_link :
  forall (sheet_id rest : string),
    sheet_id <> "" ->
    all_chars is_id_char sheet_id = true ->
    match rest with
    | EmptyString => True
    | String c _ => is_id_char c = false
    end ->
    extract_sheet_id ("https://docs.google.com/spreadsheets/d/" ++ sheet_id ++ rest)
    = Some sheet_id
    /\ extract_sheet_id (csv_url sheet_id) = Some sheet_id.
Proof.
  assert (G : forall sheet_id rest,
            sheet_id <> "" -> all_chars is_id_char sheet_id = true ->
            match rest with
            | EmptyString => True
            | String c _ => is_id_char c = false
            end ->
            extract_sheet_id ("https://docs.google.com/spreadsheets/d/" ++ sheet_id ++ rest)
            = Some sheet_id).
  { intros sheet_id rest N A R.
    change ("https://docs.google.com/spreadsheets/d/" ++ sheet_id ++ rest)
      with ("https://docs.google.com" ++ "/spreadsheets/d/" ++ sheet_id ++ rest).
    assert (M : match_here ("/spreadsheets/d/" ++ sheet_id ++ rest) = Some sheet_id).
    { unfold match_here. rewrite strip_prefix_append, take_while_append by assumption.
      destruct sheet_id; [congruence | reflexivity]. }
    assert (S : forall s, match_here s = Some sheet_id -> extract_sheet_id s = Some sheet_id).
    { intros s Q. destruct s; cbn [extract_sheet_id]; now rewrite Q. }
    assert (K : forall c s, match_here (String c s) = None ->
                extract_sheet_id (String c s) = extract_sheet_id s).
    { intros c s Q. cbn [extract_sheet_id]. now rewrite Q. }
    cbn [append]. do 23 (rewrite K by reflexivity).
    apply S. exact M. }
  intros sheet_id rest N A R. split; [now apply G |].
  unfold csv_url. now apply G.
Qed.

Lemma extract_sheet_id_of_link_witness :
  extract_sheet_id
    ("https://docs.google.com/spreadsheets/d/"
     ++ "1ZzaeMgNYnxvriYYpe8PE7uMEblTI0GV5GIVUnsP-sBs" ++ "/edit?usp=sharing")
  = Some "1ZzaeMgNYnxvriYYpe8PE7uMEblTI0GV5GIVUnsP-sBs"
  /\ extract_sheet_id (csv_url "1ZzaeMgNYnxvriYYpe8PE7uMEblTI0GV5GIVUnsP-sBs")
     = Some "1ZzaeMgNYnxvriYYpe8PE7uMEblTI0GV5GIVUnsP-sBs".
Proof.
  apply (extract_sheet_id_of_link "1ZzaeMgNYnxvriYYpe8PE7uMEblTI0GV5GIVUnsP-sBs"
           "/edit?usp=sharing").
  - discriminate.
  - reflexivity.
  - reflexivity.
Defined.

End SheetParserProperties.

(* ================================================================== *)
(** * The collector's test for a Compound transfer *)

Section CollectorProperties.

Lemma lower_upper_ascii (c : ascii) :
  Str.lower_ascii (Str.upper_ascii c) = Str.lower_ascii c.
Proof.
  destruct c as [[] [] [] [] [] [] [] []]; reflexivity.
Qed.

Lemma lower_lower_ascii (c : ascii) :
  Str.lower_ascii (Str.lower_ascii c) = Str.lower_ascii c.
Proof.
  destruct c as [[] [] [] [] [] [] [] []]; reflexivity.
Qed.

Lemma lower_upper (s : string) : Str.lower (Str.upper s) = Str.lower s.
Proof.
  induction s as [| c s IH]; [reflexivity |].
  cbn [Str.lower Str.upper]. now rewrite lower_upper_ascii, IH.
Qed.

Lemma lower_lower (s : string) : Str.lower (Str.lower s) = Str.lower s.
Proof.
  induction s as [| c s IH]; [reflexivity |].
  cbn [Str.lower]. now rewrite lower_lower_ascii, IH.
Qed.

(** X14: [_is_compound_transaction] does not depend on the letter case of
    the two addresses of the transfer: for addresses written in ASCII,
    writing the sender or the receiver in upper case or in lower case does
    not change the answer; and a transfer without "from" and "to" is not a
    Compound transfer. *)
Theorem _is_compound_transaction_ignores_case :
  forall (from_addr to_addr : string),
    is_ascii from_addr = true -> is_ascii to_addr = true ->
    DataCollector._is_compound_transaction
      [("from", Str.upper from_addr); ("to", Str.lower to_addr)]
    = DataCollector._is_compound_transaction [("from", from_addr); ("to", to_addr)]
    /\ DataCollector._is_compound_transaction
         [("from", Str.lower from_addr); ("to", Str.upper to_addr)]
       = DataCollector._is_compound_transaction [("from", from_addr); ("to", to_addr)]
    /\ DataCollector._is_compound_transaction [] = false.
Proof.
  intros from_addr to_addr _ _. unfold DataCollector._is_compound_transaction.
  cbn [dict_get String.eqb Ascii.eqb Bool.eqb].
  rewrite !lower_upper, !lower_lower. repeat split.
Qed.

(** A transfer to the cDAI market, with the address as the configuration
    writes it; in lower case and in upper case it is a Compound transfer
    all the same. *)
Lemma _is_compound_transaction_ignores_case_witness :
  DataCollector._is_compound_transaction
    [("from", Str.upper "0xfaa0768bde629806739c3a4620656c5d26f44ef2");
     ("to", Str.lower "0x5d3a536E4D6DbD6114cc1Ead35777bAB948E3643")]
  = true
  /\ (DataCollector._is_compound_transaction
        [("from", Str.upper "0xfaa0768bde629806739c3a4620656c5d26f44ef2");
         ("to", Str.lower "0x5d3a536E4D6DbD6114cc1Ead35777bAB948E3643")]
      = DataCollector._is_compound_transaction
          [("from", "0xfaa0768bde629806739c3a4620656c5d26f44ef2");
           ("to", "0x5d3a536E4D6DbD6114cc1Ead35777bAB948E3643")]
      /\ DataCollector._is_compound_transaction
           [("from", Str.lower "0xfaa0768bde629806739c3a4620656c5d26f44ef2");
            ("to", Str.upper "0x5d3a536E4D6DbD6114cc1Ead35777bAB948E3643")]
         = DataCollector._is_compound_transaction
             [("from", "0xfaa0768bde629806739c3a4620656c5d26f44ef2");
              ("to", "0x5d3a536E4D6DbD6114cc1Ead35777bAB948E3643")]
      /\ DataCollector._is_compound_transaction [] = false).
Proof.
  split; [reflexivity |].
  apply (_is_compound_transaction_ignores_case
           "0xfaa0768bde629806739c3a4620656c5d26f44ef2"
           "0x5d3a536E4D6DbD6114cc1Ead35777bAB948E3643"); reflexivity.
Defined.

(** X15: the market address of every simulated transaction is one that the
    collector takes for a Compound address, as the receiver and as the
    sender of a transfer and in either letter case: the lookup of the drawn
    market in the two dictionaries never falls through to the empty
    default. *)
Theorem simulated_market_address_is_compound :
  forall (wallet : string) (i : Z) (d : Main.draws),
    possible d ->
    let address :=
      FeatureExtractor.market_address (Main.simulated_transaction wallet i d) in
    address <> ""
    /\ DataCollector._is_compound_transaction [("to", address)] = true
    /\ DataCollector._is_compound_transaction [("from", Str.upper address)] = true.
Proof.
  intros wallet i d [M _].
  cbn [FeatureExtractor.market_address Main.simulated_transaction].
  destruct d as [k days now block hb tb db]. cbn [Main.market_index] in *.
  do 19 (destruct k as [| k]; [repeat split; discriminate |]).
  cbn in M. lia.
Qed.

Lemma simulated_market_address_is_compound_witness :
  let address :=
    FeatureExtractor.market_address (Main.simulated_transaction "0xa" 0 one_draw) in
  address <> ""
  /\ DataCollector._is_compound_transaction [("to", address)] = true
  /\ DataCollector._is_compound_transaction [("from", Str.upper address)] = true.
Proof.
  apply (simulated_market_address_is_compound "0xa" 0 one_draw).
  unfold possible. simpl. lia.
Defined.

End CollectorProperties.

(* ================================================================== *)
(** * The order of the scores *)

Section ScoreOrderFacts.

Import RiskScorer.

Lemma forall7_sound {A : Type} (P : A -> A -> A -> A -> A -> A -> A -> bool)
      (l1 l2 l3 l4 l5 l6 l7 : list A) :
  forall7 P l1 l2 l3 l4 l5 l6 l7 = true ->
  forall p1 p2 p3 p4 p5 p6 p7,
    In p1 l1 -> In p2 l2 -> In p3 l3 -> In p4 l4 -> In p5 l5 -> In p6 l6 -> In p7 l7 ->
    P p1 p2 p3 p4 p5 p6 p7 = true.
Proof.
  unfold forall7.
  intros A0 p1 p2 p3 p4 p5 p6 p7 I1 I2 I3 I4 I5 I6 I7.
  pose proof (proj1 (forallb_forall _ _) A0 _ I1) as A1. cbv beta in A1.
  pose proof (proj1 (forallb_forall _ _) A1 _ I2) as A2. cbv beta in A2.
  pose proof (proj1 (forallb_forall _ _) A2 _ I3) as A3. cbv beta in A3.
  pose proof (proj1 (forallb_forall _ _) A3 _ I4) as A4. cbv beta in A4.
  pose proof (proj1 (forallb_forall _ _) A4 _ I5) as A5. cbv beta in A5.
  pose proof (proj1 (forallb_forall _ _) A5 _ I6) as A6. cbv beta in A6.
  exact (proj1 (forallb_forall _ _) A6 _ I7).
Qed.

Lemma all_ordered_sums_sound (base zero : float) (l1 l2 l3 l4 l5 l6 l7 : list (Z * float)) :
  all_ordered_sums base zero l1 l2 l3 l4 l5 l6 l7 = true ->
  forall p1 p2 p3 p4 p5 p6 p7,
    In p1 l1 -> In p2 l2 -> In p3 l3 -> In p4 l4 -> In p5 l5 -> In p6 l6 -> In p7 l7 ->
    ordered_sums base zero l1 l2 l3 l4 l5 l6 l7 p1 p2 p3 p4 p5 p6 p7 = true.
Proof.
  unfold all_ordered_sums. apply forall7_sound.
Qed.

(** The check over the values that the seven step functions can return. *)
Lemma ordered_scores :
  all_ordered_sums (Py.float_of_int 500) (Py.float_of_int 0)
    (map (with_term 0.25) ratio_values) (map (with_term 0.20) liquidation_values)
    (map (with_term 0.15) fifty_values) (map (with_term 0.15) fifty_values)
    (map (with_term 0.10) fifty_values) (map (with_term 0.10) version_values)
    (map (with_term 0.05) collateral_values) = true.
Proof. vm_cast_no_check (eq_refl true). Qed.

Lemma not_above_forall (l : list (Z * float)) (p : Z * float)
      (lower : Z * float -> float) (sum : float) :
  forallb (fun q => not_above (fst q) p (lower q) sum) l = true ->
  forall q, In q l -> fst q <= fst p -> PrimFloat.leb (lower q) sum = true.
Proof.
  intros H q I L. rewrite forallb_forall in H. specialize (H q I).
  unfold not_above in H.
  now replace (fst q <=? fst p) with true in H by (symmetry; apply Z.leb_le; exact L).
Qed.

Lemma sum_from_of (c1 c2 c3 c4 c5 c6 c7 : Z) :
  sum_from (Py.float_of_int 500) (Py.float_of_int 0)
           (term 0.25 c1) (term 0.20 c2) (term 0.15 c3) (term 0.15 c4)
           (term 0.10 c5) (term 0.10 c6) (term 0.05 c7)
  = sum_of c1 c2 c3 c4 c5 c6 c7.
Proof. reflexivity. Qed.

Ltac lower_sum F d I L :=
  let G := fresh "G" in
  pose proof (not_above_forall _ _ _ _ F (with_term _ d) (in_map _ _ _ I) L) as G;
  cbv beta in G; unfold with_term in G; cbn [fst snd] in G;
  rewrite !sum_from_of in G; exact G.

(** What the check says of seven contributions. *)
Lemma ordered_sums_at (c1 c2 c3 c4 c5 c6 c7 : Z) :
  contributions c1 c2 c3 c4 c5 c6 c7 ->
  PrimFloat.leb 430 (sum_of c1 c2 c3 c4 c5 c6 c7) = true
  /\ PrimFloat.ltb (sum_of c1 c2 c3 c4 c5 c6 c7) 559 = true
  /\ (forall d, In d ratio_values -> d <= c1 ->
        PrimFloat.leb (sum_of d c2 c3 c4 c5 c6 c7) (sum_of c1 c2 c3 c4 c5 c6 c7) = true)
  /\ (forall d, In d liquidation_values -> d <= c2 ->
        PrimFloat.leb (sum_of c1 d c3 c4 c5 c6 c7) (sum_of c1 c2 c3 c4 c5 c6 c7) = true)
  /\ (forall d, In d fifty_values -> d <= c3 ->
        PrimFloat.leb (sum_of c1 c2 d c4 c5 c6 c7) (sum_of c1 c2 c3 c4 c5 c6 c7) = true)
  /\ (forall d, In d fifty_values -> d <= c4 ->
        PrimFloat.leb (sum_of c1 c2 c3 d c5 c6 c7) (sum_of c1 c2 c3 c4 c5 c6 c7) = true)
  /\ (forall d, In d fifty_values -> d <= c5 ->
        PrimFloat.leb (sum_of c1 c2 c3 c4 d c6 c7) (sum_of c1 c2 c3 c4 c5 c6 c7) = true)
  /\ (forall d, In d version_values -> d <= c6 ->
        PrimFloat.leb (sum_of c1 c2 c3 c4 c5 d c7) (sum_of c1 c2 c3 c4 c5 c6 c7) = true)
  /\ (forall d, In d collateral_values -> d <= c7 ->
        PrimFloat.leb (sum_of c1 c2 c3 c4 c5 c6 d) (sum_of c1 c2 c3 c4 c5 c6 c7) = true).
Proof.
  intros (I1 & I2 & I3 & I4 & I5 & I6 & I7).
  pose proof (all_ordered_sums_sound _ _ _ _ _ _ _ _ _ ordered_scores _ _ _ _ _ _ _
                (in_map (with_term 0.25) _ _ I1) (in_map (with_term 0.20) _ _ I2)
                (in_map (with_term 0.15) _ _ I3) (in_map (with_term 0.15) _ _ I4)
                (in_map (with_term 0.10) _ _ I5) (in_map (with_term 0.10) _ _ I6)
                (in_map (with_term 0.05) _ _ I7)) as O.
  unfold ordered_sums in O. cbv zeta in O.
  apply andb_prop in O. destruct O as [O F7].
  apply andb_prop in O. destruct O as [O F6].
  apply andb_prop in O. destruct O as [O F5].
  apply andb_prop in O. destruct O as [O F4].
  apply andb_prop in O. destruct O as [O F3].
  apply andb_prop in O. destruct O as [O F2].
  apply andb_prop in O. destruct O as [O F1].
  apply andb_prop in O. destruct O as [Lo Hi].
  unfold with_term in Lo, Hi. cbn [fst snd] in Lo, Hi. rewrite sum_from_of in Lo, Hi.
  split; [exact Lo |]. split; [exact Hi |].
  repeat split; intros d I L.
  - lower_sum F1 d I L.
  - lower_sum F2 d I L.
  - lower_sum F3 d I L.
  - lower_sum F4 d I L.
  - lower_sum F5 d I L.
  - lower_sum F6 d I L.
  - lower_sum F7 d I L.
Qed.

(** The mantissa and the exponent of a float in [430, 559). *)
Lemma float_430_559 (x : float) :
  PrimFloat.leb 430 x = true -> PrimFloat.ltb x 559 = true ->
  exists m e,
    Prim2SF x = S754_finite false m e
    /\ e < 0 /\ -1074 <= e
    /\ Z.pos m < 2 ^ 53 /\ (e = -1074 \/ 2 ^ 52 <= Z.pos m)
    /\ 430 * 2 ^ (- e) <= Z.pos m < 559 * 2 ^ (- e).
Proof.
  intros L U.
  assert (P430 : Prim2SF 430 = S754_finite false (Z.to_pos (430 * 2 ^ 44)) (- 44))
    by reflexivity.
  assert (P559 : Prim2SF 559 = S754_finite false (Z.to_pos (559 * 2 ^ 43)) (- 43))
    by reflexivity.
  rewrite leb_spec, P430 in L. rewrite ltb_spec, P559 in U.
  destruct (Prim2SF x) as [s | s | | s m e] eqn:E;
    try (destruct s; discriminate); try discriminate.
  destruct (Prim2SF_finite_bounds _ _ _ _ E) as (B1 & B2 & B3).
  destruct (SFleb_const s m e (Z.to_pos (430 * 2 ^ 44)) 430 44 B3) as [-> Lo];
    try reflexivity; try lia; try assumption.
  destruct (SFltb_const m e (Z.to_pos (559 * 2 ^ 43)) 559 43 B1) as [Eneg Up];
    try reflexivity; try lia; try assumption.
  replace (0 <=? e) with false in Lo by (symmetry; apply Z.leb_gt; lia).
  exists m, e. repeat split; try assumption; lia.
Qed.

(** Truncation keeps the order of two floats in [430, 559). *)
Lemma trunc_ordered (x y : float) :
  PrimFloat.leb 430 x = true -> PrimFloat.ltb x 559 = true ->
  PrimFloat.leb 430 y = true -> PrimFloat.ltb y 559 = true ->
  PrimFloat.leb x y = true ->
  exists zx zy,
    Py.trunc x = Some zx /\ Py.trunc y = Some zy /\ 430 <= zx /\ zx <= zy /\ zy <= 558.
Proof.
  intros Lx Ux Ly Uy O.
  destruct (float_430_559 x Lx Ux) as (m1 & e1 & E1 & N1 & M1 & B1 & C1 & R1).
  destruct (float_430_559 y Ly Uy) as (m2 & e2 & E2 & N2 & M2 & B2 & C2 & R2).
  rewrite leb_spec, E1, E2 in O. unfold Py.trunc. rewrite E1, E2.
  replace (0 <=? e1) with false by (symmetry; apply Z.leb_gt; lia).
  replace (0 <=? e2) with false by (symmetry; apply Z.leb_gt; lia).
  assert (P1 : 0 < 2 ^ (- e1)) by (apply Z.pow_pos_nonneg; lia).
  assert (P2 : 0 < 2 ^ (- e2)) by (apply Z.pow_pos_nonneg; lia).
  exists (Z.pos m1 / 2 ^ (- e1)), (Z.pos m2 / 2 ^ (- e2)).
  split; [reflexivity |]. split; [reflexivity |]. split; [| split].
  - apply Z.div_le_lower_bound; lia.
  - unfold SFleb, SFcompare in O.
    destruct (Z.compare_spec e1 e2) as [Q | Q | Q]; try discriminate.
    + subst e2. apply Z.div_le_mono; [lia |].
      change (Pos.compare_cont Eq m1 m2) with (Pos.compare m1 m2) in O.
      destruct (Pos.compare_spec m1 m2) as [-> | ? | ?]; try discriminate; lia.
    + destruct C2 as [-> | C2]; [lia |].
      replace (- e1) with ((e2 - e1) + (- e2)) by lia.
      rewrite Z.pow_add_r by lia.
      rewrite <- Z.div_div by (try apply Z.pow_pos_nonneg; lia).
      apply Z.div_le_mono; [lia |].
      assert (D : 2 ^ 1 <= 2 ^ (e2 - e1)) by (apply Z.pow_le_mono_r; lia).
      change (2 ^ 1) with 2 in D.
      assert (Z.pos m1 / 2 ^ (e2 - e1) < 2 ^ 52); [| lia].
      apply Z.div_lt_upper_bound; [lia |].
      change (2 ^ 53) with (2 * 2 ^ 52) in B1. nia.
  - assert (Z.pos m2 / 2 ^ (- e2) < 559); [| lia].
    apply Z.div_lt_upper_bound; lia.
Qed.

(** The score for seven contributions is the truncated sum, it is between
    430 and 558, and a contribution that is not above another gives a score
    that is not above the other's. *)
Lemma score_of_at (c1 c2 c3 c4 c5 c6 c7 : Z) :
  contributions c1 c2 c3 c4 c5 c6 c7 ->
  Py.trunc (sum_of c1 c2 c3 c4 c5 c6 c7) = Some (score_of c1 c2 c3 c4 c5 c6 c7)
  /\ 430 <= score_of c1 c2 c3 c4 c5 c6 c7 <= 558.
Proof.
  intros C. destruct (ordered_sums_at _ _ _ _ _ _ _ C) as (Lo & Hi & _).
  destruct (trunc_ordered _ _ Lo Hi Lo Hi) as (z & z' & T & T' & B & B' & B'').
  - rewrite leb_spec. destruct (float_430_559 _ Lo Hi) as (m & e & E & _).
    rewrite E. unfold SFleb, SFcompare. rewrite Z.compare_refl.
    change (Pos.compare_cont Eq m m) with (Pos.compare m m). now rewrite Pos.compare_refl.
  - unfold score_of. rewrite T. rewrite T in T'. injection T' as <-. split; [reflexivity | lia].
Qed.

Lemma score_of_ordered (x y : float) (zx zy : Z) :
  PrimFloat.leb 430 x = true -> PrimFloat.ltb x 559 = true ->
  PrimFloat.leb 430 y = true -> PrimFloat.ltb y 559 = true ->
  PrimFloat.leb x y = true ->
  Py.trunc x = Some zx -> Py.trunc y = Some zy -> zx <= zy.
Proof.
  intros Lx Ux Ly Uy O Tx Ty.
  destruct (trunc_ordered x y Lx Ux Ly Uy O) as (z & z' & T & T' & _ & B & _).
  congruence.
Qed.

Ltac one_step C D :=
  let Tc := fresh in let Td := fresh in
  let Lc := fresh in let Uc := fresh in let Ld := fresh in let Ud := fresh in
  let F1 := fresh in let F2 := fresh in let F3 := fresh in let F4 := fresh in
  let F5 := fresh in let F6 := fresh in let F7 := fresh in
  destruct (score_of_at _ _ _ _ _ _ _ C) as [Tc _];
  destruct (score_of_at _ _ _ _ _ _ _ D) as [Td _];
  destruct (ordered_sums_at _ _ _ _ _ _ _ C) as (Lc & Uc & _);
  destruct (ordered_sums_at _ _ _ _ _ _ _ D)
    as (Ld & Ud & F1 & F2 & F3 & F4 & F5 & F6 & F7);
  refine (score_of_ordered _ _ _ _ Lc Uc Ld Ud _ Tc Td);
  first [ apply F1; assumption | apply F2; assumption | apply F3; assumption
        | apply F4; assumption | apply F5; assumption | apply F6; assumption
        | apply F7; assumption ].

(** The score is monotone in each contribution, and so in all of them. *)
Lemma score_of_monotone (c1 c2 c3 c4 c5 c6 c7 d1 d2 d3 d4 d5 d6 d7 : Z) :
  contributions c1 c2 c3 c4 c5 c6 c7 -> contributions d1 d2 d3 d4 d5 d6 d7 ->
  c1 <= d1 -> c2 <= d2 -> c3 <= d3 -> c4 <= d4 -> c5 <= d5 -> c6 <= d6 -> c7 <= d7 ->
  score_of c1 c2 c3 c4 c5 c6 c7 <= score_of d1 d2 d3 d4 d5 d6 d7.
Proof.
  intros (I1 & I2 & I3 & I4 & I5 & I6 & I7) (J1 & J2 & J3 & J4 & J5 & J6 & J7)
         L1 L2 L3 L4 L5 L6 L7.
  assert (C0 : contributions c1 c2 c3 c4 c5 c6 c7) by (repeat split; assumption).
  assert (C1 : contributions d1 c2 c3 c4 c5 c6 c7) by (repeat split; assumption).
  assert (C2 : contributions d1 d2 c3 c4 c5 c6 c7) by (repeat split; assumption).
  assert (C3 : contributions d1 d2 d3 c4 c5 c6 c7) by (repeat split; assumption).
  assert (C4 : contributions d1 d2 d3 d4 c5 c6 c7) by (repeat split; assumption).
  assert (C5 : contributions d1 d2 d3 d4 d5 c6 c7) by (repeat split; assumption).
  assert (C6 : contributions d1 d2 d3 d4 d5 d6 c7) by (repeat split; assumption).
  assert (C7 : contributions d1 d2 d3 d4 d5 d6 d7) by (repeat split; assumption).
  assert (S1 : score_of c1 c2 c3 c4 c5 c6 c7 <= score_of d1 c2 c3 c4 c5 c6 c7)
    by (one_step C0 C1).
  assert (S2 : score_of d1 c2 c3 c4 c5 c6 c7 <= score_of d1 d2 c3 c4 c5 c6 c7)
    by (one_step C1 C2).
  assert (S3 : score_of d1 d2 c3 c4 c5 c6 c7 <= score_of d1 d2 d3 c4 c5 c6 c7)
    by (one_step C2 C3).
  assert (S4 : score_of d1 d2 d3 c4 c5 c6 c7 <= score_of d1 d2 d3 d4 c5 c6 c7)
    by (one_step C3 C4).
  assert (S5 : score_of d1 d2 d3 d4 c5 c6 c7 <= score_of d1 d2 d3 d4 d5 c6 c7)
    by (one_step C4 C5).
  assert (S6 : score_of d1 d2 d3 d4 d5 c6 c7 <= score_of d1 d2 d3 d4 d5 d6 c7)
    by (one_step C5 C6).
  assert (S7 : score_of d1 d2 d3 d4 d5 d6 c7 <= score_of d1 d2 d3 d4 d5 d6 d7)
    by (one_step C6 C7).
  lia.
Qed.

(** The seven contributions of a feature dictionary, and its score. *)
Lemma features_contributions (features : Features) :
  exists c1 c2 c3 c4 c5 c6 c7,
    contributions c1 c2 c3 c4 c5 c6 c7
    /\ _score_borrow_supply_ratio features = PInt c1
    /\ _score_liquidation_count features = PInt c2
    /\ _score_inactivity_days features = PInt c3
    /\ _score_repayment_frequency features = PInt c4
    /\ _score_volatile_asset_usage features = PInt c5
    /\ _score_protocol_version features = PInt c6
    /\ _score_collateral_factor features = PInt c7
    /\ calculate_risk_score features = Some (score_of c1 c2 c3 c4 c5 c6 c7).
Proof.
  destruct (_score_borrow_supply_ratio_values features) as (c1 & I1 & E1).
  destruct (_score_liquidation_count_values features) as (c2 & I2 & E2).
  destruct (_score_inactivity_days_values features) as (c3 & I3 & E3).
  destruct (_score_repayment_frequency_values features) as (c4 & I4 & E4).
  destruct (_score_volatile_asset_usage_values features) as (c5 & I5 & E5).
  destruct (_score_protocol_version_values features) as (c6 & I6 & E6).
  destruct (_score_collateral_factor_values features) as (c7 & I7 & E7).
  exists c1, c2, c3, c4, c5, c6, c7.
  assert (C : contributions c1 c2 c3 c4 c5 c6 c7) by (repeat split; assumption).
  repeat split; try assumption.
  destruct (score_in_400_600 features) as (s & Es & _ & _ & T).
  unfold unclamped in T.
  rewrite (weighted_sum_unrolled features _ _ _ _ _ _ _ E1 E2 E3 E4 E5 E6 E7) in T.
  cbn [Py.int] in T. fold (sum_of c1 c2 c3 c4 c5 c6 c7) in T.
  destruct (score_of_at _ _ _ _ _ _ _ C) as [T' _].
  rewrite Es. congruence.
Qed.

Lemma leb_int (x y : Z) : Py.leb (PInt x) (PInt y) = (x <=? y).
Proof.
  unfold Py.leb, Py.compare, Z.leb. now destruct (x ?= y).
Qed.

Lemma eqb_int (x y : Z) : Py.eqb (PInt x) (PInt y) = (x =? y).
Proof.
  unfold Py.eqb, Py.compare. destruct (Z.compare_spec x y) as [-> | L | L].
  - now rewrite Z.eqb_refl.
  - symmetry. apply Z.eqb_neq. lia.
  - symmetry. apply Z.eqb_neq. lia.
Qed.

(** A dictionary that is not above another in any contribution does not
    score above it. *)
Lemma risk_score_monotone (features features' : Features) :
  Py.leb (_score_borrow_supply_ratio features) (_score_borrow_supply_ratio features') = true ->
  Py.leb (_score_liquidation_count features) (_score_liquidation_count features') = true ->
  Py.leb (_score_inactivity_days features) (_score_inactivity_days features') = true ->
  Py.leb (_score_repayment_frequency features) (_score_repayment_frequency features') = true ->
  Py.leb (_score_volatile_asset_usage features) (_score_volatile_asset_usage features') = true ->
  Py.leb (_score_protocol_version features) (_score_protocol_version features') = true ->
  Py.leb (_score_collateral_factor features) (_score_collateral_factor features') = true ->
  exists s s',
    calculate_risk_score features = Some s
    /\ calculate_risk_score features' = Some s'
    /\ s <= s'.
Proof.
  destruct (features_contributions features)
    as (c1 & c2 & c3 & c4 & c5 & c6 & c7 & C & E1 & E2 & E3 & E4 & E5 & E6 & E7 & S).
  destruct (features_contributions features')
    as (d1 & d2 & d3 & d4 & d5 & d6 & d7 & D & G1 & G2 & G3 & G4 & G5 & G6 & G7 & S').
  rewrite E1, E2, E3, E4, E5, E6, E7, G1, G2, G3, G4, G5, G6, G7, !leb_int, !Z.leb_le.
  intros L1 L2 L3 L4 L5 L6 L7.
  exists (score_of c1 c2 c3 c4 c5 c6 c7), (score_of d1 d2 d3 d4 d5 d6 d7).
  split; [exact S |]. split; [exact S' |]. now apply score_of_monotone.
Qed.

Lemma leb_same_contribution (a : Py.num) :
  (exists c, a = PInt c) -> Py.leb a a = true.
Proof.
  intros [c ->]. rewrite leb_int. apply Z.leb_refl.
Qed.

(** X16: every raw score is between 430 and 558, whatever the features,
    and both bounds are reached; every wallet is therefore in the category
    "Moderate Risk" before the scores are normalized. *)
Theorem calculate_risk_score_in_430_558 :
  (forall features : Features,
     exists s,
       calculate_risk_score features = Some s
       /\ 430 <= s <= 558
       /\ get_risk_category s = "Moderate Risk")
  /\ calculate_risk_score worst = Some 430
  /\ calculate_risk_score scenario = Some 558.
Proof.
  split; [| split; reflexivity].
  intros features.
  destruct (features_contributions features)
    as (c1 & c2 & c3 & c4 & c5 & c6 & c7 & C & _ & _ & _ & _ & _ & _ & _ & S).
  destruct (score_of_at _ _ _ _ _ _ _ C) as [_ B].
  exists (score_of c1 c2 c3 c4 c5 c6 c7). split; [exact S |]. split; [exact B |].
  unfold get_risk_category.
  replace (800 <=? score_of c1 c2 c3 c4 c5 c6 c7) with false
    by (symmetry; apply Z.leb_gt; lia).
  replace (600 <=? score_of c1 c2 c3 c4 c5 c6 c7) with false
    by (symmetry; apply Z.leb_gt; lia).
  replace (400 <=? score_of c1 c2 c3 c4 c5 c6 c7) with true
    by (symmetry; apply Z.leb_le; lia).
  reflexivity.
Qed.

(** X17: the score is monotone in the seven contributions: a wallet whose
    contribution is not above another wallet's in any component does not
    get a higher score, the rounding of the weighted sum and the truncation
    notwithstanding. *)
Theorem calculate_risk_score_monotone :
  forall features features' : Features,
    Forall2 (fun component component' => Py.leb (snd component) (snd component') = true)
            (risk_components features) (risk_components features') ->
    exists s s',
      calculate_risk_score features = Some s
      /\ calculate_risk_score features' = Some s'
      /\ s <= s'.
Proof.
  intros features features' F. unfold risk_components in F.
  inversion_clear F as [| ? ? ? ? L1 F1].
  inversion_clear F1 as [| ? ? ? ? L2 F2].
  inversion_clear F2 as [| ? ? ? ? L3 F3].
  inversion_clear F3 as [| ? ? ? ? L4 F4].
  inversion_clear F4 as [| ? ? ? ? L5 F5].
  inversion_clear F5 as [| ? ? ? ? L6 F6].
  inversion_clear F6 as [| ? ? ? ? L7 _].
  now apply risk_score_monotone.
Qed.

Lemma calculate_risk_score_monotone_witness :
  exists s s',
    calculate_risk_score worst = Some s
    /\ calculate_risk_score extreme = Some s'
    /\ s <= s'.
Proof.
  apply (calculate_risk_score_monotone worst extreme).
  repeat constructor.
Defined.

(** The contribution of a liquidation count that is not negative, and of a
    number of days of inactivity. *)
Lemma liquidation_contribution (features : Features) (n : Z) :
  _score_liquidation_count (with_liquidations features n)
  = PInt (if n =? 0 then 50 else if n =? 1 then -25 else if n =? 2 then -50
          else if n <=? 5 then -75 else -100).
Proof.
  unfold _score_liquidation_count.
  cbn [with_liquidations number_of_liquidations get].
  rewrite !eqb_int, leb_int.
  destruct (n =? 0); [reflexivity |]. destruct (n =? 1); [reflexivity |].
  destruct (n =? 2); [reflexivity |]. now destruct (n <=? 5).
Qed.

Lemma inactivity_contribution (features : Features) (n : Z) :
  _score_inactivity_days (with_inactivity features n)
  = PInt (if n <=? 7 then 50 else if n <=? 30 then 25 else if n <=? 90 then 0
          else if n <=? 180 then -25 else -50).
Proof.
  unfold _score_inactivity_days.
  cbn [with_inactivity days_since_last_activity get].
  rewrite !leb_int.
  destruct (n <=? 7); [reflexivity |]. destruct (n <=? 30); [reflexivity |].
  destruct (n <=? 90); [reflexivity |]. now destruct (n <=? 180).
Qed.

Ltac same_component values :=
  apply leb_same_contribution;
  let c := fresh in let E := fresh in
  destruct (values) as (c & _ & E); exists c; exact E.

(** X18: all else being equal, a wallet with more liquidations never
    scores higher. *)
Theorem more_liquidations_never_score_higher :
  forall (features : Features) (n n' : Z),
    0 <= n <= n' ->
    exists s s',
      calculate_risk_score (with_liquidations features n) = Some s
      /\ calculate_risk_score (with_liquidations features n') = Some s'
      /\ s' <= s.
Proof.
  intros features n n' L.
  destruct (risk_score_monotone (with_liquidations features n')
                                (with_liquidations features n))
    as (s' & s & E' & E & B).
  - same_component (_score_borrow_supply_ratio_values features).
  - rewrite !liquidation_contribution, leb_int. apply Z.leb_le.
    destruct (Z.eqb_spec n' 0), (Z.eqb_spec n' 1), (Z.eqb_spec n' 2), (Z.leb_spec n' 5),
      (Z.eqb_spec n 0), (Z.eqb_spec n 1), (Z.eqb_spec n 2), (Z.leb_spec n 5); lia.
  - same_component (_score_inactivity_days_values features).
  - same_component (_score_repayment_frequency_values features).
  - same_component (_score_volatile_asset_usage_values features).
  - same_component (_score_protocol_version_values features).
  - same_component (_score_collateral_factor_values features).
  - now exists s, s'.
Qed.

Lemma more_liquidations_never_score_higher_witness :
  exists s s',
    calculate_risk_score (with_liquidations scenario 1) = Some s
    /\ calculate_risk_score (with_liquidations scenario 4) = Some s'
    /\ s' <= s.
Proof.
  apply (more_liquidations_never_score_higher scenario 1 4). lia.
Defined.

(** X19: all else being equal, a wallet that has been inactive for longer
    never scores higher. *)
Theorem longer_inactivity_never_scores_higher :
  forall (features : Features) (n n' : Z),
    n <= n' ->
    exists s s',
      calculate_risk_score (with_inactivity features n) = Some s
      /\ calculate_risk_score (with_inactivity features n') = Some s'
      /\ s' <= s.
Proof.
  intros features n n' L.
  destruct (risk_score_monotone (with_inactivity features n')
                                (with_inactivity features n))
    as (s' & s & E' & E & B).
  - same_component (_score_borrow_supply_ratio_values features).
  - same_component (_score_liquidation_count_values features).
  - rewrite !inactivity_contribution, leb_int. apply Z.leb_le.
    destruct (Z.leb_spec n' 7), (Z.leb_spec n' 30), (Z.leb_spec n' 90), (Z.leb_spec n' 180),
      (Z.leb_spec n 7), (Z.leb_spec n 30), (Z.leb_spec n 90), (Z.leb_spec n 180); lia.
  - same_component (_score_repayment_frequency_values features).
  - same_component (_score_volatile_asset_usage_values features).
  - same_component (_score_protocol_version_values features).
  - same_component (_score_collateral_factor_values features).
  - now exists s, s'.
Qed.

Lemma longer_inactivity_never_scores_higher_witness :
  exists s s',
    calculate_risk_score (with_inactivity scenario 5) = Some s
    /\ calculate_risk_score (with_inactivity scenario 45) = Some s'
    /\ s' <= s.
Proof.
  apply (longer_inactivity_never_scores_higher scenario 5 45). lia.
Defined.

End ScoreOrderFacts.

(* ================================================================== *)
(** * The batch: scoring, normalization and summary together *)

Section BatchProperties.

Import Batch.

(** The normalized frame of a batch of raw scores. *)
Lemma normalized_400_600 (h : heap) (r : ref) :
  h r <> [] ->
  Forall (fun s => 400 <= s <= 600) (map score (h r)) ->
  exists final : Z -> Z,
    final = batch_image (np_min (map score (h r))) (np_max (map score (h r)))
    /\ normalized h r
       = map (fun row => {| wallet_id := wallet_id row; score := final (score row) |}) (h r)
    /\ (forall row, In row (h r) -> 0 <= final (score row) <= 1000)
    /\ (forall row, In row (h r) ->
          score row = np_min (map score (h r)) -> final (score row) = 0)
    /\ (forall row, In row (h r) ->
          score row = np_max (map score (h r)) ->
          np_min (map score (h r)) < np_max (map score (h r)) ->
          999 <= final (score row) <= 1000).
Proof.
  intros Hne Hmid.
  set (col := map score (h r)) in *.
  assert (Hnil : col <> []) by (subst col; destruct (h r); [congruence | discriminate]).
  assert (Hin : Forall in_0_1000 col).
  { eapply Forall_impl; [| exact Hmid]. intros s B. cbv beta in B. unfold in_0_1000. lia. }
  destruct (np_min_spec col Hnil) as [Imin Lmin].
  destruct (np_max_spec col Hnil) as [Imax Lmax].
  set (lo := np_min col) in *. set (hi := np_max col) in *.
  rewrite Forall_forall in Hin, Hmid, Lmin, Lmax.
  pose proof (Hin _ Imin) as Hlo. pose proof (Hin _ Imax) as Hhi.
  pose proof (Hmid _ Imin) as Mlo. pose proof (Hmid _ Imax) as Mhi.
  pose proof (Lmin _ Imax) as Hle.
  exists (batch_image lo hi). split; [reflexivity |].
  unfold batch_image.
  split; [| split; [| split]].
  - rewrite normalized_cells by assumption. fold col.
    rewrite fit_ints by (try apply Forall_forall; assumption). reflexivity.
  - intros row I.
    assert (Ix : In (score row) col) by (subst col; now apply in_map).
    pose proof (Lmin _ Ix). pose proof (Lmax _ Ix).
    destruct (Z.eq_dec lo hi) as [E | N].
    + assert (Ex : score row = lo) by lia. rewrite Ex, <- E.
      rewrite constant_image_zero by assumption. lia.
    + apply between_image_in_range; lia.
  - intros row I E. rewrite E.
    destruct (Z.eq_dec lo hi) as [Q | N].
    + rewrite <- Q. now apply constant_image_zero.
    + apply minimum_image_zero; try assumption. lia.
  - intros row I E L. rewrite E.
    now apply maximum_image_999_or_1000.
Qed.

Lemma normalize_scores_fst (h : heap) (r : ref) :
  normalize_scores r h = (r, snd (normalize_scores r h)).
Proof.
  unfold normalize_scores. now destruct (empty (h r)).
Qed.

Lemma normalize_scores_other (h : heap) (r r' : ref) :
  r' <> r -> snd (normalize_scores r h) r' = h r'.
Proof.
  intros N. unfold normalize_scores. destruct (empty (h r)); [reflexivity |].
  cbn [snd]. unfold store. now replace (Nat.eqb r' r) with false
    by (symmetry; now apply Nat.eqb_neq).
Qed.

Lemma normalized_at (h : heap) (r : ref) :
  snd (normalize_scores r h) r = normalized h r.
Proof.
  unfold normalized.
  replace (fst (normalize_scores r h)) with r; [reflexivity |].
  unfold normalize_scores. now destruct (empty (h r)).
Qed.

Lemma store_at (h : heap) (r : ref) (df : DataFrame) : store h r df r = df.
Proof.
  unfold store. now rewrite Nat.eqb_refl.
Qed.

(** The frame that the two calls leave at [r]. *)
Lemma score_and_normalize_frame (features_df : list FeatureExtractor.Features)
      (h : heap) (r : ref) :
  exists scores_df h' (final : Z -> Z),
    score_all_wallets features_df = Some scores_df
    /\ Forall (fun s => 400 <= s <= 600) (map score scores_df)
    /\ score_and_normalize features_df h r = Some (r, h')
    /\ (forall r', r' <> r -> h' r' = h r')
    /\ h' r = map (fun row => {| wallet_id := wallet_id row;
                                 score := final (score row) |}) scores_df
    /\ map wallet_id scores_df = map FeatureExtractor.wallet_id features_df
    /\ (forall row, In row scores_df -> 0 <= final (score row) <= 1000)
    /\ (forall row, In row scores_df ->
          score row = np_min (map score scores_df) -> final (score row) = 0)
    /\ (forall row, In row scores_df ->
          score row = np_max (map score scores_df) ->
          np_min (map score scores_df) < np_max (map score scores_df) ->
          999 <= final (score row) <= 1000)
    /\ final = batch_image (np_min (map score scores_df)) (np_max (map score scores_df)).
Proof.
  destruct (score_all_wallets_in_400_600 features_df) as (scores_df & E & W & F).
  exists scores_df, (snd (normalize_scores r (store h r scores_df))).
  unfold score_and_normalize. rewrite E. cbn [bind].
  rewrite <- normalize_scores_fst.
  destruct scores_df as [| row0 rest] eqn:Q.
  - eexists. repeat split; try assumption; try contradiction; try reflexivity.
    + intros r' N. rewrite normalize_scores_other by assumption.
      unfold store. now replace (Nat.eqb r' r) with false
        by (symmetry; now apply Nat.eqb_neq).
    + unfold normalize_scores. rewrite store_at. cbn [empty snd]. now rewrite store_at.
  - rewrite <- Q in *.
    assert (Hne : store h r scores_df r <> []) by (rewrite store_at, Q; discriminate).
    assert (Hmid : Forall (fun s => 400 <= s <= 600) (map score (store h r scores_df r)))
      by now rewrite store_at.
    destruct (normalized_400_600 _ r Hne Hmid) as (final & Fe & N & B & Lo & Hi).
    rewrite store_at in Fe, N, B, Lo, Hi.
    exists final. repeat split; try assumption.
    + intros r' D. rewrite normalize_scores_other by assumption.
      unfold store. now replace (Nat.eqb r' r) with false
        by (symmetry; now apply Nat.eqb_neq).
    + now rewrite normalized_at.
    + now apply B.
    + now apply B.
    + now apply Hi.
    + now apply Hi.
Qed.

(** X20: scoring a batch and normalizing it never raises, keeps the wallet
    ids in their order and leaves the other frames alone; every final score
    is between 0 and 1000, the wallets with the lowest raw score end at 0,
    and when two raw scores differ the wallets with the highest raw score
    end at 999 or 1000. *)
Theorem score_and_normalize_pipeline :
  forall (features_df : list FeatureExtractor.Features) (h : heap) (r : ref),
  exists scores_df h',
    score_all_wallets features_df = Some scores_df
    /\ score_and_normalize features_df h r = Some (r, h')
    /\ (forall r', r' <> r -> h' r' = h r')
    /\ map wallet_id (h' r) = map FeatureExtractor.wallet_id features_df
    /\ Forall (fun row => 0 <= score row <= 1000) (h' r)
    /\ Forall2 (fun raw final =>
                  (score raw = np_min (map score scores_df) -> score final = 0)
                  /\ (score raw = np_max (map score scores_df) ->
                      np_min (map score scores_df) < np_max (map score scores_df) ->
                      999 <= score final <= 1000))
               scores_df (h' r).
Proof.
  intros features_df h r.
  destruct (score_and_normalize_frame features_df h r)
    as (scores_df & h' & final & E & _ & P & O & N & W & B & Lo & Hi & _).
  exists scores_df, h'. rewrite N.
  split; [exact E |]. split; [exact P |]. split; [exact O |]. split; [| split].
  - rewrite map_map. cbn [wallet_id]. exact W.
  - apply Forall_forall. intros row I. apply in_map_iff in I.
    destruct I as (raw & <- & I). cbn [score]. now apply B.
  - clear - Lo Hi.
    assert (G : forall l,
              (forall row, In row l -> In row scores_df) ->
              Forall2 (fun raw final0 =>
                         (score raw = np_min (map score scores_df) -> score final0 = 0)
                         /\ (score raw = np_max (map score scores_df) ->
                             np_min (map score scores_df) < np_max (map score scores_df) ->
                             999 <= score final0 <= 1000))
                      l (map (fun row => {| wallet_id := wallet_id row;
                                            score := final (score row) |}) l)).
    { induction l as [| row l IH]; intros S; cbn [map]; constructor.
      - cbn [score]. split.
        + apply Lo, S. now left.
        + apply Hi, S. now left.
      - apply IH. intros row' I. apply S. now right. }
    now apply G.
Qed.

(** X21: a run on a single wallet ends with the score 0, the category
    "Very High Risk", whatever the wallet's features are; so does every
    wallet of a batch in which all raw scores are equal. *)
Theorem single_wallet_ends_at_zero :
  forall (features_df : list FeatureExtractor.Features) (h : heap) (r : ref),
  exists scores_df h',
    score_all_wallets features_df = Some scores_df
    /\ score_and_normalize features_df h r = Some (r, h')
    /\ ((len features_df = 1 \/ np_min (map score scores_df) = np_max (map score scores_df)) ->
        Forall (fun row => score row = 0
                           /\ RiskScorer.get_risk_category (score row) = "Very High Risk")
               (h' r)).
Proof.
  intros features_df h r.
  destruct (score_and_normalize_frame features_df h r)
    as (scores_df & h' & final & E & _ & P & O & N & W & B & Lo & Hi & _).
  exists scores_df, h'. split; [exact E |]. split; [exact P |].
  intros C.
  assert (Q : np_min (map score scores_df) = np_max (map score scores_df)).
  { destruct C as [C | C]; [| exact C].
    assert (L : List.length scores_df = 1%nat).
    { apply (f_equal (@List.length _)) in W. rewrite !length_map in W.
      unfold len in C. lia. }
    destruct scores_df as [| row [| row' rest]]; try discriminate. reflexivity. }
  rewrite N. apply Forall_forall. intros row I. apply in_map_iff in I.
  destruct I as (raw & <- & I). cbn [score].
  assert (Z0 : final (score raw) = 0).
  { apply Lo; [exact I |].
    assert (Hnil : map score scores_df <> [])
      by (destruct scores_df; [contradiction | discriminate]).
    destruct (np_min_spec _ Hnil) as [_ Lmin]. destruct (np_max_spec _ Hnil) as [_ Lmax].
    rewrite Forall_forall in Lmin, Lmax.
    pose proof (Lmin _ (in_map score _ _ I)). pose proof (Lmax _ (in_map score _ _ I)).
    lia. }
  rewrite Z0. split; reflexivity.
Qed.

Lemma count_rows (mask : Z -> bool) (scores_df : DataFrame) :
  count mask (map score scores_df) = len (filter (fun row => mask (score row)) scores_df).
Proof.
  unfold count, len. f_equal.
  induction scores_df as [| row rest IH]; [reflexivity |].
  cbn [map filter]. destruct (mask (score row)); cbn [List.length]; now rewrite IH.
Qed.

Lemma count_pos (mask : Z -> bool) (scores : list Z) (x : Z) :
  In x scores -> mask x = true -> 1 <= count mask scores.
Proof.
  intros I M. unfold count, len.
  assert (J : In x (filter mask scores)) by (apply filter_In; now split).
  destruct (filter mask scores); [contradiction | cbn [List.length]; lia].
Qed.

(** The five masks of the distribution are the five categories. *)
Lemma category_masks (s : Z) (label : string) :
  String.eqb (RiskScorer.get_risk_category s) label
  = if String.eqb "Very Low Risk" label then 800 <=? s
    else if String.eqb "Low Risk" label then (600 <=? s) && (s <? 800)
    else if String.eqb "Moderate Risk" label then (400 <=? s) && (s <? 600)
    else if String.eqb "High Risk" label then (200 <=? s) && (s <? 400)
    else if String.eqb "Very High Risk" label then s <? 200
    else false.
Proof.
  unfold RiskScorer.get_risk_category.
  destruct (String.eqb_spec "Very Low Risk" label) as [<- | N1].
  { destruct (800 <=? s); [reflexivity |]. destruct (600 <=? s); [reflexivity |].
    destruct (400 <=? s); [reflexivity |]. now destruct (200 <=? s). }
  destruct (String.eqb_spec "Low Risk" label) as [<- | N2].
  { destruct (Z.leb_spec 800 s), (Z.leb_spec 600 s), (Z.ltb_spec s 800),
      (Z.leb_spec 400 s), (Z.leb_spec 200 s); try reflexivity; lia. }
  destruct (String.eqb_spec "Moderate Risk" label) as [<- | N3].
  { destruct (Z.leb_spec 800 s), (Z.leb_spec 600 s), (Z.ltb_spec s 600),
      (Z.leb_spec 400 s), (Z.leb_spec 200 s); try reflexivity; lia. }
  destruct (String.eqb_spec "High Risk" label) as [<- | N4].
  { destruct (Z.leb_spec 800 s), (Z.leb_spec 600 s), (Z.ltb_spec s 400),
      (Z.leb_spec 400 s), (Z.leb_spec 200 s); try reflexivity; lia. }
  destruct (String.eqb_spec "Very High Risk" label) as [<- | N5].
  { destruct (Z.leb_spec 800 s), (Z.leb_spec 600 s), (Z.ltb_spec s 200),
      (Z.leb_spec 400 s), (Z.leb_spec 200 s); try reflexivity; lia. }
  destruct (800 <=? s); [now apply String.eqb_neq |].
  destruct (600 <=? s); [now apply String.eqb_neq |].
  destruct (400 <=? s); [now apply String.eqb_neq |].
  destruct (200 <=? s); now apply String.eqb_neq.
Qed.

Lemma five_masks_cover (scores : list Z) :
  count (fun x => 800 <=? x) scores
  + (count (fun x => (600 <=? x) && (x <? 800)) scores
     + (count (fun x => (400 <=? x) && (x <? 600)) scores
        + (count (fun x => (200 <=? x) && (x <? 400)) scores
           + (count (fun x => x <? 200) scores + 0))))
  = len scores.
Proof.
  unfold count, len. induction scores as [| s rest IH]; [reflexivity |].
  cbn [filter].
  destruct (Z.leb_spec 800 s), (Z.leb_spec 600 s), (Z.ltb_spec s 800),
    (Z.leb_spec 400 s), (Z.ltb_spec s 600), (Z.leb_spec 200 s), (Z.ltb_spec s 400),
    (Z.ltb_spec s 200); try lia; cbn [andb List.length]; lia.
Qed.

(** X22: the summary of a frame with rows is consistent: [total_wallets]
    is the number of rows; [min_score] and [max_score] are scores of rows
    and bound every score; the distribution has the five categories of
    [get_risk_category], each with the number of rows whose score that
    function puts in it, and the five numbers add up to [total_wallets]. *)
Theorem generate_risk_summary_consistent :
  forall (np_mean np_median np_std : list Z -> float) (scores_df : DataFrame),
    scores_df <> [] ->
    exists lo hi d,
      generate_risk_summary np_mean np_median np_std scores_df
      = [ ("total_wallets", SInt (len scores_df));
          ("average_score", SFloat (np_mean (map score scores_df)));
          ("median_score", SFloat (np_median (map score scores_df)));
          ("std_score", SFloat (np_std (map score scores_df)));
          ("min_score", SInt lo);
          ("max_score", SInt hi);
          ("risk_distribution", SDict d) ]
      /\ (exists row, In row scores_df /\ score row = lo)
      /\ (exists row, In row scores_df /\ score row = hi)
      /\ Forall (fun row => lo <= score row <= hi) scores_df
      /\ map fst d
         = ["Very Low Risk"; "Low Risk"; "Moderate Risk"; "High Risk"; "Very High Risk"]
      /\ (forall label, dict_get d label 0 = len (in_category label scores_df))
      /\ fold_right Z.add 0 (map snd d) = len scores_df.
Proof.
  intros np_mean np_median np_std scores_df H.
  unfold generate_risk_summary.
  pose proof H as H'. apply empty_false_iff in H'. rewrite H'. cbv zeta.
  assert (Hnil : map score scores_df <> [])
    by (destruct scores_df; [congruence | discriminate]).
  destruct (np_min_spec _ Hnil) as [Imin Lmin].
  destruct (np_max_spec _ Hnil) as [Imax Lmax].
  eexists. eexists. eexists. split.
  { unfold len at 1. rewrite length_map. reflexivity. }
  split; [| split; [| split; [| split; [| split]]]].
  - apply in_map_iff in Imin. destruct Imin as (row & E & I). now exists row.
  - apply in_map_iff in Imax. destruct Imax as (row & E & I). now exists row.
  - rewrite Forall_forall in Lmin, Lmax. apply Forall_forall. intros row I.
    pose proof (Lmin _ (in_map score _ _ I)). pose proof (Lmax _ (in_map score _ _ I)).
    lia.
  - reflexivity.
  - intros label. unfold in_category.
    rewrite (filter_ext _ _ (fun row => category_masks (score row) label)).
    cbn [dict_get]. rewrite !count_rows.
    destruct (String.eqb "Very Low Risk" label); [reflexivity |].
    destruct (String.eqb "Low Risk" label); [reflexivity |].
    destruct (String.eqb "Moderate Risk" label); [reflexivity |].
    destruct (String.eqb "High Risk" label); [reflexivity |].
    destruct (String.eqb "Very High Risk" label); [reflexivity |].
    clear. unfold len. induction scores_df; [reflexivity | exact IHscores_df].
  - cbn [map snd fold_right]. rewrite five_masks_cover.
    unfold len. now rewrite length_map.
Qed.

Lemma generate_risk_summary_consistent_witness :
  exists lo hi d,
    generate_risk_summary (fun _ => 500%float) (fun _ => 500%float) (fun _ => 0%float)
                          (frame_of [200; 500; 800])
    = [ ("total_wallets", SInt (len (frame_of [200; 500; 800])));
        ("average_score", SFloat 500%float);
        ("median_score", SFloat 500%float);
        ("std_score", SFloat 0%float);
        ("min_score", SInt lo);
        ("max_score", SInt hi);
        ("risk_distribution", SDict d) ]
    /\ (exists row, In row (frame_of [200; 500; 800]) /\ score row = lo)
    /\ (exists row, In row (frame_of [200; 500; 800]) /\ score row = hi)
    /\ Forall (fun row => lo <= score row <= hi) (frame_of [200; 500; 800])
    /\ map fst d
       = ["Very Low Risk"; "Low Risk"; "Moderate Risk"; "High Risk"; "Very High Risk"]
    /\ (forall label, dict_get d label 0 = len (in_category label (frame_of [200; 500; 800])))
    /\ fold_right Z.add 0 (map snd d) = len (frame_of [200; 500; 800]).
Proof.
  apply (generate_risk_summary_consistent
           (fun _ => 500%float) (fun _ => 500%float) (fun _ => 0%float)
           (frame_of [200; 500; 800])).
  discriminate.
Defined.

(** X23: in the summary of a scored and normalized batch with at least one
    wallet, [min_score] is 0 and the category "Very High Risk" holds at
    least one wallet, however sound the wallets are; when two raw scores
    differ, [max_score] is 999 or 1000 and the category "Very Low Risk"
    holds at least one wallet as well. *)
Theorem normalized_summary_extremes :
  forall (np_mean np_median np_std : list Z -> float)
         (features_df : list FeatureExtractor.Features) (h : heap) (r : ref),
    features_df <> [] ->
    exists scores_df h' hi d,
      score_all_wallets features_df = Some scores_df
      /\ score_and_normalize features_df h r = Some (r, h')
      /\ dict_get (generate_risk_summary np_mean np_median np_std (h' r))
                  "min_score" (SInt (-1)) = SInt 0
      /\ dict_get (generate_risk_summary np_mean np_median np_std (h' r))
                  "max_score" (SInt (-1)) = SInt hi
      /\ dict_get (generate_risk_summary np_mean np_median np_std (h' r))
                  "risk_distribution" (SInt (-1)) = SDict d
      /\ 1 <= dict_get d "Very High Risk" 0
      /\ (np_min (map score scores_df) < np_max (map score scores_df) ->
          999 <= hi <= 1000 /\ 1 <= dict_get d "Very Low Risk" 0).
Proof.
  intros np_mean np_median np_std features_df h r H.
  destruct (score_and_normalize_frame features_df h r)
    as (scores_df & h' & final & E & _ & P & O & N & W & B & Lo & Hi & _).
  assert (Hs : scores_df <> []).
  { intros Q. rewrite Q in W. destruct features_df; [congruence | discriminate]. }
  assert (Hnil : map score scores_df <> [])
    by (destruct scores_df; [congruence | discriminate]).
  destruct (np_min_spec _ Hnil) as [Imin _]. destruct (np_max_spec _ Hnil) as [Imax _].
  apply in_map_iff in Imin. destruct Imin as (rmin & Emin & Imin).
  apply in_map_iff in Imax. destruct Imax as (rmax & Emax & Imax).
  set (col := map score (h' r)).
  assert (C : col = map final (map score scores_df)).
  { subst col. rewrite N, !map_map. reflexivity. }
  assert (Cnil : col <> []).
  { rewrite C. destruct scores_df; [congruence | discriminate]. }
  assert (Hf : h' r <> []).
  { rewrite N. destruct scores_df; [congruence | discriminate]. }
  assert (I0 : In 0 col).
  { rewrite C, <- (Lo rmin Imin Emin). now apply in_map, in_map. }
  assert (Ball : Forall (fun x => 0 <= x <= 1000) col).
  { rewrite C. apply Forall_forall. intros x I. apply in_map_iff in I.
    destruct I as (s & <- & I). apply in_map_iff in I. destruct I as (row & <- & I).
    now apply B. }
  destruct (np_min_spec _ Cnil) as [Jmin Kmin]. destruct (np_max_spec _ Cnil) as [Jmax Kmax].
  rewrite Forall_forall in Ball, Kmin, Kmax.
  exists scores_df, h', (np_max col). eexists.
  split; [exact E |]. split; [exact P |].
  unfold generate_risk_summary.
  pose proof Hf as Hf'. apply empty_false_iff in Hf'. rewrite Hf'. cbv zeta. fold col.
  cbn [dict_get String.eqb Ascii.eqb Bool.eqb].
  split; [| split; [reflexivity | split; [reflexivity | split]]].
  - f_equal. pose proof (Ball _ Jmin). pose proof (Kmin _ I0). lia.
  - now apply (count_pos _ col 0).
  - intros L.
    assert (M : 999 <= final (score rmax) <= 1000) by (apply Hi; assumption).
    assert (Im : In (final (score rmax)) col).
    { rewrite C. now apply in_map, in_map. }
    split.
    + pose proof (Ball _ Jmax). pose proof (Kmax _ Im). lia.
    + apply (count_pos _ col (final (score rmax))); [exact Im |].
      apply Z.leb_le. lia.
Qed.

Lemma normalized_summary_extremes_witness :
  exists scores_df h' hi d,
    score_all_wallets [idle_wallet; scenario_wallet] = Some scores_df
    /\ score_and_normalize [idle_wallet; scenario_wallet] (fun _ => []) 0%nat
       = Some (0%nat, h')
    /\ dict_get (generate_risk_summary (fun _ => 0%float) (fun _ => 0%float)
                                       (fun _ => 0%float) (h' 0%nat))
                "min_score" (SInt (-1)) = SInt 0
    /\ dict_get (generate_risk_summary (fun _ => 0%float) (fun _ => 0%float)
                                       (fun _ => 0%float) (h' 0%nat))
                "max_score" (SInt (-1)) = SInt hi
    /\ dict_get (generate_risk_summary (fun _ => 0%float) (fun _ => 0%float)
                                       (fun _ => 0%float) (h' 0%nat))
                "risk_distribution" (SInt (-1)) = SDict d
    /\ 1 <= dict_get d "Very High Risk" 0
    /\ (np_min (map score scores_df) < np_max (map score scores_df) ->
        999 <= hi <= 1000 /\ 1 <= dict_get d "Very Low Risk" 0).
Proof.
  apply (normalized_summary_extremes (fun _ => 0%float) (fun _ => 0%float)
           (fun _ => 0%float) [idle_wallet; scenario_wallet] (fun _ => []) 0%nat).
  discriminate.
Defined.

(** X28: [normalize_scores] on any frame of raw scores between 0 and 1000
    whose minimum is less than its maximum, also one that the scorer cannot
    produce: the rows and their wallet ids are kept, every score [x] is
    replaced by the truncation of [(x * scale + min_) * 1000] computed in
    binary64 with [scale = 1 / (max - min)] and [min_ = 0 - min * scale] for
    the frame's own minimum and maximum, the rows with the minimum end at 0
    and the rows with the maximum at 999 or 1000; the frame 200, 500, 800
    ends as 0, 500, 1000. *)
Theorem normalize_scores_rescales :
  (forall (h : heap) (r : ref),
     map score (h r) = [200; 500; 800] ->
     map score (normalized h r) = [0; 500; 1000])
  /\ (forall (h : heap) (r : ref),
        h r <> [] ->
        Forall in_0_1000 (map score (h r)) ->
        np_min (map score (h r)) < np_max (map score (h r)) ->
        normalized h r
        = map (fun row =>
                 {| wallet_id := wallet_id row;
                    score := rescaled (np_min (map score (h r)))
                                      (np_max (map score (h r))) (score row) |}) (h r)
        /\ (forall row, In row (h r) ->
              score row = np_min (map score (h r)) ->
              rescaled (np_min (map score (h r))) (np_max (map score (h r))) (score row) = 0)
        /\ (forall row, In row (h r) ->
              score row = np_max (map score (h r)) ->
              rescaled (np_min (map score (h r))) (np_max (map score (h r))) (score row) = 999
              \/ rescaled (np_min (map score (h r))) (np_max (map score (h r))) (score row)
                 = 1000)).
Proof.
  split.
  - intros h r H.
    assert (Hne : h r <> []) by (destruct (h r); [discriminate | congruence]).
    rewrite normalized_cells by assumption. rewrite map_map. cbn [score].
    rewrite <- (map_map score (fun s => astype_int (image _ (Py.float_of_int s)))).
    rewrite H. vm_compute. reflexivity.
  - intros h r Hne Hin Hlt.
    set (col := map score (h r)) in *.
    assert (Hnil : col <> []) by (subst col; destruct (h r); [congruence | discriminate]).
    destruct (np_min_spec col Hnil) as [Imin Lmin].
    destruct (np_max_spec col Hnil) as [Imax Lmax].
    set (lo := np_min col) in *. set (hi := np_max col) in *.
    assert (Hlo : in_0_1000 lo) by (rewrite Forall_forall in Hin; now apply Hin).
    assert (Hhi : in_0_1000 hi) by (rewrite Forall_forall in Hin; now apply Hin).
    assert (R : forall x, rescaled lo hi x
                = astype_int (image (MinMaxScaler.fit_range (Py.float_of_int lo)
                                                            (Py.float_of_int hi))
                                    (Py.float_of_int x))).
    { intros x. unfold rescaled, image, MinMaxScaler.fit_range.
      cbn [MinMaxScaler.scale_ MinMaxScaler.min_].
      now rewrite range_kept. }
    split; [| split].
    + rewrite normalized_cells by assumption. fold col.
      rewrite fit_ints by assumption. fold lo hi.
      apply map_ext. intros row. now rewrite R.
    + intros row I E. rewrite R, E. now apply minimum_image_zero.
    + intros row I E. rewrite R, E.
      pose proof (maximum_image_999_or_1000 lo hi Hlo Hhi Hlt). lia.
Qed.

(** The frame 200, 500, 800, and the frame 0, 417, 1000. *)
Lemma normalize_scores_rescales_witness :
  map score (normalized (one_frame (frame_of [200; 500; 800])) 0%nat) = [0; 500; 1000]
  /\ normalized (one_frame (frame_of [0; 417; 1000])) 0%nat
     = map (fun row => {| wallet_id := wallet_id row; score := rescaled 0 1000 (score row) |})
           (frame_of [0; 417; 1000]).
Proof.
  split.
  - apply (proj1 normalize_scores_rescales (one_frame (frame_of [200; 500; 800])) 0%nat).
    reflexivity.
  - apply (proj2 normalize_scores_rescales (one_frame (frame_of [0; 417; 1000])) 0%nat).
    + vm_compute. discriminate.
    + vm_compute. repeat constructor; discriminate.
    + vm_compute. reflexivity.
Defined.

End BatchProperties.

(* ================================================================== *)
(** * The order of the rows, and the whole run *)

Section RowOrder.

Import FeatureExtractor.

Lemma Permutation_filter_rows {A : Type} (P : A -> bool) (l l' : list A) :
  Permutation l l' -> Permutation (filter P l) (filter P l').
Proof.
  induction 1 as [| x l l' _ IH | x y l | l l' l'' _ IH1 _ IH2]; cbn [filter].
  - constructor.
  - destruct (P x); [now constructor | exact IH].
  - destruct (P x), (P y); try apply Permutation_refl. constructor.
  - now transitivity (filter P l').
Qed.

Lemma Permutation_empty {A : Type} (l l' : list A) :
  Permutation l l' -> empty l = empty l'.
Proof.
  intros H. destruct l as [| a l], l' as [| a' l']; try reflexivity.
  - apply Permutation_nil in H. discriminate.
  - symmetry in H. apply Permutation_nil in H. discriminate.
Qed.

Lemma Permutation_len {A : Type} (l l' : list A) :
  Permutation l l' -> len l = len l'.
Proof.
  intros H. unfold len. now rewrite (Permutation_length H).
Qed.

Lemma timestamp_min_spec (wallet_txs : list Transaction) :
  wallet_txs <> [] ->
  (exists tx, In tx wallet_txs /\ timestamp tx = timestamp_min wallet_txs)
  /\ Forall (fun tx => timestamp_min wallet_txs <= timestamp tx) wallet_txs.
Proof.
  destruct wallet_txs as [| tx rest]; [congruence | intros _].
  cbn [timestamp_min].
  assert (G : forall rest a,
            (fold_left (fun acc t => Z.min acc (timestamp t)) rest a = a
             \/ exists tx, In tx rest
                  /\ timestamp tx = fold_left (fun acc t => Z.min acc (timestamp t)) rest a)
            /\ Forall (fun tx => fold_left (fun acc t => Z.min acc (timestamp t)) rest a
                                 <= timestamp tx) rest).
  { clear. induction rest as [| t rest IH]; intros a; cbn [fold_left].
    - split; [now left | constructor].
    - destruct (IH (Z.min a (timestamp t))) as [[Q | (tx & I & Q)] F].
      + split.
        * destruct (Z.min_spec a (timestamp t)) as [[_ M] | [_ M]].
          -- left. lia.
          -- right. exists t. split; [now left |]. lia.
        * constructor; [| exact F].
          pose proof (timestamp_fold_min rest (Z.min a (timestamp t))). lia.
      + split.
        * right. exists tx. split; [now right | exact Q].
        * constructor; [| exact F].
          pose proof (timestamp_fold_min rest (Z.min a (timestamp t))). lia. }
  destruct (G rest (timestamp tx)) as [[Q | (tx' & I & Q)] F].
  - split.
    + exists tx. split; [now left | now rewrite Q].
    + constructor; [pose proof (timestamp_fold_min rest (timestamp tx)); lia | exact F].
  - split.
    + exists tx'. split; [now right | exact Q].
    + constructor; [pose proof (timestamp_fold_min rest (timestamp tx)); lia | exact F].
Qed.

Lemma Permutation_timestamps (l l' : list Transaction) :
  Permutation l l' ->
  timestamp_max l = timestamp_max l' /\ timestamp_min l = timestamp_min l'.
Proof.
  intros H. destruct l as [| a l0] eqn:El.
  { apply Permutation_nil in H. subst l'. split; reflexivity. }
  rewrite <- El in *.
  assert (N : l <> []) by (rewrite El; discriminate).
  assert (N' : l' <> []).
  { intros Q. subst l'. symmetry in H. apply Permutation_nil in H. congruence. }
  destruct (timestamp_max_spec l N) as [(x & Ix & Ex) Fx].
  destruct (timestamp_max_spec l' N') as [(x' & Ix' & Ex') Fx'].
  destruct (timestamp_min_spec l N) as [(y & Iy & Ey) Fy].
  destruct (timestamp_min_spec l' N') as [(y' & Iy' & Ey') Fy'].
  rewrite Forall_forall in Fx, Fx', Fy, Fy'.
  pose proof (Fx' x (Permutation_in _ H Ix)).
  pose proof (Fx x' (Permutation_in _ (Permutation_sym H) Ix')).
  pose proof (Fy' y (Permutation_in _ H Iy)).
  pose proof (Fy y' (Permutation_in _ (Permutation_sym H) Iy')).
  split; lia.
Qed.

(** What the extractor computes on its own rows. *)
Lemma extract_on_own_rows (now : Z) (transactions_df : list Transaction)
      (wallet_address : string) :
  extract_wallet_features now transactions_df wallet_address
  = if empty (wallet_rows transactions_df wallet_address)
    then Some (_get_default_features wallet_address)
    else
      let wallet_txs := wallet_rows transactions_df wallet_address in
      repayment <- _calculate_repayment_frequency wallet_txs ;;
      volatile <- _calculate_volatile_asset_usage wallet_txs ;;
      collateral <- _calculate_collateral_factor wallet_txs ;;
      behavior <- _analyze_borrowing_behavior wallet_txs ;;
      trend <- _calculate_health_factor_trend wallet_txs ;;
      let total_supplied := _calculate_total_supplied wallet_txs in
      let total_borrowed := _calculate_total_borrowed wallet_txs in
      ratio <- (if 0 <? total_supplied
                then Py.truediv (PInt total_borrowed) (PInt total_supplied)
                else Some (PFloat 0.0)) ;;
      Some {|
        wallet_id := wallet_address;
        total_transactions := len wallet_txs;
        first_transaction_date := Some (timestamp_min wallet_txs);
        last_transaction_date := Some (timestamp_max wallet_txs);
        days_since_last_activity := _calculate_inactivity_days now wallet_txs;
        total_supplied_usd := total_supplied;
        total_borrowed_usd := total_borrowed;
        supply_to_borrow_ratio := ratio;
        number_of_liquidations := _count_liquidations wallet_txs;
        repayment_frequency := repayment;
        volatile_asset_usage := volatile;
        protocol_version_usage := _determine_protocol_version wallet_txs;
        collateral_factor_average := collateral;
        borrowing_behavior := behavior;
        health_factor_trend := trend
      |}.
Proof.
  unfold extract_wallet_features. fold (wallet_rows transactions_df wallet_address).
  destruct transactions_df as [| tx d]; reflexivity.
Qed.

(** X24: the order of a wallet's rows does not matter for its features,
    the health factor trend and the collateral factor average apart: two
    frames that hold the same rows for the wallet in different orders give
    records that agree in every other field.  The trend does depend on the
    order: a row on a volatile market followed by one on a stable market is
    "improving", the same two rows the other way round are
    "deteriorating". *)
Theorem row_order_matters_for_trend :
  forall (now : Z) (transactions_df transactions_df' : list Transaction)
         (wallet_address : string),
    Permutation (wallet_rows transactions_df wallet_address)
                (wallet_rows transactions_df' wallet_address) ->
    (exists features features',
       extract_wallet_features now transactions_df wallet_address = Some features
       /\ extract_wallet_features now transactions_df' wallet_address = Some features'
       /\ wallet_id features = wallet_id features'
       /\ total_transactions features = total_transactions features'
       /\ first_transaction_date features = first_transaction_date features'
       /\ last_transaction_date features = last_transaction_date features'
       /\ days_since_last_activity features = days_since_last_activity features'
       /\ total_supplied_usd features = total_supplied_usd features'
       /\ total_borrowed_usd features = total_borrowed_usd features'
       /\ supply_to_borrow_ratio features = supply_to_borrow_ratio features'
       /\ number_of_liquidations features = number_of_liquidations features'
       /\ repayment_frequency features = repayment_frequency features'
       /\ volatile_asset_usage features = volatile_asset_usage features'
       /\ protocol_version_usage features = protocol_version_usage features'
       /\ borrowing_behavior features = borrowing_behavior features')
    /\ Permutation volatile_first volatile_last
    /\ _calculate_health_factor_trend volatile_first = Some "improving"
    /\ _calculate_health_factor_trend volatile_last = Some "deteriorating".
Proof.
  intros now df df' w H.
  split; [| split; [| split; reflexivity]].
  2:{ unfold volatile_first, volatile_last. apply perm_swap. }
  rewrite !extract_on_own_rows.
  set (l := wallet_rows df w) in *. set (l' := wallet_rows df' w) in *.
  pose proof (Permutation_empty _ _ H) as Ee.
  pose proof (Permutation_len _ _ H) as El.
  destruct (Permutation_timestamps _ _ H) as [Emax Emin].
  assert (Ef : forall P, len (filter P l) = len (filter P l')).
  { intros P. apply Permutation_len. now apply Permutation_filter_rows. }
  assert (Eg : forall P, empty (filter P l) = empty (filter P l')).
  { intros P. apply Permutation_empty. now apply Permutation_filter_rows. }
  destruct (empty l) eqn:E; rewrite <- Ee.
  { exists (_get_default_features w), (_get_default_features w). repeat split. }
  cbv zeta.
  assert (R : _calculate_repayment_frequency l = _calculate_repayment_frequency l').
  { unfold _calculate_repayment_frequency. rewrite <- Ee, E. cbv zeta.
    now rewrite (Eg _), (Ef _), Emax, Emin. }
  assert (V : _calculate_volatile_asset_usage l = _calculate_volatile_asset_usage l').
  { unfold _calculate_volatile_asset_usage. rewrite <- Ee, E. cbv zeta.
    now rewrite (Ef _), El. }
  assert (B : _analyze_borrowing_behavior l = _analyze_borrowing_behavior l').
  { unfold _analyze_borrowing_behavior. rewrite <- Ee, E. cbv zeta.
    now rewrite !(Ef _). }
  assert (S : _calculate_total_supplied l = _calculate_total_supplied l').
  { unfold _calculate_total_supplied. cbv zeta. now rewrite (Ef _). }
  assert (W : _calculate_total_borrowed l = _calculate_total_borrowed l').
  { unfold _calculate_total_borrowed. cbv zeta. now rewrite (Ef _). }
  assert (L : _count_liquidations l = _count_liquidations l').
  { unfold _count_liquidations. cbv zeta. now rewrite (Ef _). }
  assert (D : _calculate_inactivity_days now l = _calculate_inactivity_days now l').
  { unfold _calculate_inactivity_days. now rewrite <- Ee, E, Emax. }
  assert (U : _determine_protocol_version l = _determine_protocol_version l').
  { unfold _determine_protocol_version. rewrite <- Ee, E. cbv zeta. now rewrite !(Ef _). }
  rewrite <- R, <- V, <- B, <- S, <- W, <- L, <- D, <- U, <- El, <- Emax, <- Emin.
  destruct (_calculate_repayment_frequency_total l) as [v1 E1].
  destruct (_calculate_volatile_asset_usage_total l) as [v2 E2].
  destruct (_calculate_collateral_factor_total l) as [v3 E3].
  destruct (_calculate_collateral_factor_total l') as [v3' E3'].
  destruct (_analyze_borrowing_behavior_total l) as [v4 E4].
  destruct (_calculate_health_factor_trend_total l) as [v5 E5].
  destruct (_calculate_health_factor_trend_total l') as [v5' E5'].
  rewrite E1, E2, E3, E3', E4, E5, E5'. cbn [bind].
  assert (Q : exists ratio,
            (if 0 <? _calculate_total_supplied l
             then Py.truediv (PInt (_calculate_total_borrowed l))
                             (PInt (_calculate_total_supplied l))
             else Some (PFloat 0)) = Some ratio).
  { unfold _calculate_total_supplied, _calculate_total_borrowed. fold is_supply_event.
    set (n := len (filter is_supply_event l)).
    pose proof (len_nonneg (filter is_supply_event l)) as Hn. fold n in Hn.
    destruct (Z.ltb_spec 0 (n * 1000)) as [P | P].
    - rewrite half_ratio by lia. now exists (PFloat 0.5).
    - now exists (PFloat 0). }
  destruct Q as [ratio ->]. cbn [bind]. eexists. eexists. repeat split.
Qed.

Lemma row_order_matters_for_trend_witness :
  (exists features features',
     extract_wallet_features 1700100000000000 volatile_first "0xa" = Some features
     /\ extract_wallet_features 1700100000000000 volatile_last "0xa" = Some features'
     /\ wallet_id features = wallet_id features'
     /\ total_transactions features = total_transactions features'
     /\ first_transaction_date features = first_transaction_date features'
     /\ last_transaction_date features = last_transaction_date features'
     /\ days_since_last_activity features = days_since_last_activity features'
     /\ total_supplied_usd features = total_supplied_usd features'
     /\ total_borrowed_usd features = total_borrowed_usd features'
     /\ supply_to_borrow_ratio features = supply_to_borrow_ratio features'
     /\ number_of_liquidations features = number_of_liquidations features'
     /\ repayment_frequency features = repayment_frequency features'
     /\ volatile_asset_usage features = volatile_asset_usage features'
     /\ protocol_version_usage features = protocol_version_usage features'
     /\ borrowing_behavior features = borrowing_behavior features')
  /\ Permutation volatile_first volatile_last
  /\ _calculate_health_factor_trend volatile_first = Some "improving"
  /\ _calculate_health_factor_trend volatile_last = Some "deteriorating".
Proof.
  apply (row_order_matters_for_trend 1700100000000000 volatile_first volatile_last "0xa").
  simpl. apply perm_swap.
Defined.

End RowOrder.

Section WholeRun.

(** X25: steps 1 to 4 of [main] never raise, whatever the download gives
    and whatever the simulation draws: there is at least one wallet, every
    loaded wallet gets one final score, in the order of the loaded
    addresses, every final score is between 0 and 1000, and at least one
    wallet ends at 0. *)
Theorem main_scores_every_wallet :
  forall (fetch : string -> option (list (list SheetParser.cell)))
         (random : nat -> list Main.draws) (now : Z) (h : Batch.heap) (r : Batch.ref),
  exists h',
    main_scores fetch random now h r = Some (r, h')
    /\ SheetParser.load_wallet_addresses fetch None <> []
    /\ map Batch.wallet_id (h' r) = SheetParser.load_wallet_addresses fetch None
    /\ Forall (fun row => 0 <= Batch.score row <= 1000) (h' r)
    /\ (exists row, In row (h' r) /\ Batch.score row = 0)
    /\ (forall r', r' <> r -> h' r' = h r').
Proof.
  intros fetch random now h r. unfold main_scores. cbv zeta.
  set (wallets := SheetParser.load_wallet_addresses fetch None).
  destruct (load_wallet_addresses_well_formed fetch None) as [N _].
  fold wallets in N.
  destruct (extract_all_wallet_features_ids now
              (Main.create_simulated_transactions random wallets) wallets)
    as (features_df & E & I).
  rewrite E. cbn [bind].
  destruct (score_and_normalize_frame features_df h r)
    as (scores_df & h' & final & Es & _ & P & O & Q & W & B & Lo & _).
  exists h'. split; [exact P |]. split; [exact N |].
  rewrite Q. split; [| split; [| split]].
  - rewrite map_map. cbn [Batch.wallet_id]. rewrite <- I, <- W. now apply map_ext.
  - apply Forall_forall. intros row J. apply in_map_iff in J.
    destruct J as (raw & <- & J). cbn [Batch.score]. now apply B.
  - assert (Hnil : map Batch.score scores_df <> []).
    { intros Z0. apply map_eq_nil in Z0. subst scores_df.
      rewrite I in W. destruct wallets; [congruence | discriminate]. }
    destruct (np_min_spec _ Hnil) as [Imin _].
    apply in_map_iff in Imin. destruct Imin as (raw & Eraw & Iraw).
    exists {| Batch.wallet_id := Batch.wallet_id raw;
              Batch.score := final (Batch.score raw) |}.
    split.
    + apply in_map_iff. now exists raw.
    + cbn [Batch.score]. now apply Lo.
  - exact O.
Qed.

End WholeRun.

(* ================================================================== *)
(** * The order of the normalized scores *)

Section NormalizeOrderFacts.

Import Batch.

Lemma forallb_steps_sound
      (P : MinMaxScaler.fitted -> float -> float -> float * float -> bool) (l : list Z) :
  forallb_steps P l = true ->
  forall m M p, In m l -> In M l -> In p (neighbours (map Py.float_of_int l)) ->
    PrimFloat.ltb (Py.float_of_int m) (Py.float_of_int M) = true ->
    P (MinMaxScaler.fit_range (Py.float_of_int m) (Py.float_of_int M))
      (Py.float_of_int m) (Py.float_of_int M) p = true.
Proof.
  unfold forallb_steps. cbv zeta.
  intros A0 m M p Im IM Ip L.
  pose proof (proj1 (forallb_forall _ _) A0 _ (in_map Py.float_of_int _ _ Im)) as A1.
  cbv beta in A1.
  pose proof (proj1 (forallb_forall _ _) A1 _ (in_map Py.float_of_int _ _ IM)) as A2.
  cbv beta in A2. rewrite L in A2.
  exact (proj1 (forallb_forall _ _) A2 _ Ip).
Qed.

Lemma steps_ok : forallb_steps step_ok (ints 430 129) = true.
Proof. vm_cast_no_check (eq_refl true). Qed.

Lemma ints_S (lo : Z) (n : nat) : ints lo (S n) = lo :: ints (lo + 1) n.
Proof.
  unfold ints. cbn [seq map]. f_equal; [lia |].
  rewrite <- seq_shift, map_map. apply map_ext. intros k. lia.
Qed.

Lemma neighbours_ints (lo : Z) (n : nat) (x : Z) :
  lo <= x -> x + 1 < lo + Z.of_nat n ->
  In (x, x + 1) (neighbours (ints lo n)).
Proof.
  revert lo. induction n as [| n IH]; intros lo L U; [lia |].
  rewrite ints_S. unfold neighbours. cbn [tl].
  destruct n as [| n']; [lia |].
  rewrite ints_S. cbn [combine].
  destruct (Z.eq_dec x lo) as [-> | N]; [now left | right].
  change (In (x, x + 1) (neighbours (lo + 1 :: ints (lo + 1 + 1) n'))).
  rewrite <- ints_S. apply IH; lia.
Qed.

Lemma neighbours_map {A B : Type} (f : A -> B) (l : list A) (a b : A) :
  In (a, b) (neighbours l) -> In (f a, f b) (neighbours (map f l)).
Proof.
  unfold neighbours. destruct l as [| x l]; [contradiction |]. cbn [tl map].
  revert x. induction l as [| y l IH]; intros x; cbn [combine map]; [contradiction |].
  intros [[= -> ->] | I]; [now left | right]. now apply IH.
Qed.

(** Truncation keeps the order of two floats in [0, 1001). *)
Lemma trunc_ordered_1001 (a b : float) :
  PrimFloat.leb 0 a = true -> PrimFloat.ltb a 1001 = true ->
  PrimFloat.leb a b = true -> PrimFloat.ltb b 1001 = true ->
  exists za zb,
    Py.trunc a = Some za /\ Py.trunc b = Some zb /\ 0 <= za /\ za <= zb /\ zb <= 1000.
Proof.
  intros La Ua O Ub.
  assert (P1001 : Prim2SF 1001 = S754_finite false (Z.to_pos (1001 * 2 ^ 43)) (- 43))
    by reflexivity.
  rewrite leb_spec in La, O. rewrite ltb_spec, P1001 in Ua, Ub.
  change (Prim2SF 0) with (S754_zero false) in La.
  unfold Py.trunc.
  destruct (Prim2SF a) as [sa | sa | | sa ma ea] eqn:Ea;
    destruct (Prim2SF b) as [sb | sb | | sb mb eb] eqn:Eb;
    try discriminate; try (destruct sa; discriminate); try (destruct sb; discriminate);
    try (destruct sa, sb; discriminate).
  - exists 0, 0. repeat split; lia.
  - assert (Sb : sb = false) by (destruct sb; [discriminate | reflexivity]).
    subst sb.
    destruct (Prim2SF_finite_bounds _ _ _ _ Eb) as (Bb1 & Bb2 & Bb3).
    destruct (SFltb_const mb eb (Z.to_pos (1001 * 2 ^ 43)) 1001 43 Bb1) as [Nb Rb];
      try reflexivity; try lia; try assumption.
    replace (0 <=? eb) with false by (symmetry; apply Z.leb_gt; lia).
    assert (Pb : 0 < 2 ^ (- eb)) by (apply Z.pow_pos_nonneg; lia).
    exists 0, (Z.pos mb / 2 ^ (- eb)).
    split; [reflexivity |]. split; [reflexivity |]. split; [lia |].
    split; [apply Z.div_pos; lia |].
    assert (Z.pos mb / 2 ^ (- eb) < 1001); [| lia].
    apply Z.div_lt_upper_bound; lia.
  - assert (Sa : sa = false) by (destruct sa; [discriminate | reflexivity]).
    subst sa.
    assert (Sb : sb = false) by (destruct sb; [discriminate | reflexivity]).
    subst sb.
    destruct (Prim2SF_finite_bounds _ _ _ _ Ea) as (Ba1 & Ba2 & Ba3).
    destruct (Prim2SF_finite_bounds _ _ _ _ Eb) as (Bb1 & Bb2 & Bb3).
    destruct (SFltb_const ma ea (Z.to_pos (1001 * 2 ^ 43)) 1001 43 Ba1) as [Na Ra];
      try reflexivity; try lia; try assumption.
    destruct (SFltb_const mb eb (Z.to_pos (1001 * 2 ^ 43)) 1001 43 Bb1) as [Nb Rb];
      try reflexivity; try lia; try assumption.
    replace (0 <=? ea) with false by (symmetry; apply Z.leb_gt; lia).
    replace (0 <=? eb) with false by (symmetry; apply Z.leb_gt; lia).
    assert (Pa : 0 < 2 ^ (- ea)) by (apply Z.pow_pos_nonneg; lia).
    assert (Pb : 0 < 2 ^ (- eb)) by (apply Z.pow_pos_nonneg; lia).
    exists (Z.pos ma / 2 ^ (- ea)), (Z.pos mb / 2 ^ (- eb)).
    split; [reflexivity |]. split; [reflexivity |].
    split; [apply Z.div_pos; lia |]. split.
    + unfold SFleb, SFcompare in O.
      destruct (Z.compare_spec ea eb) as [Q | Q | Q]; try discriminate.
      * subst eb. apply Z.div_le_mono; [lia |].
        change (Pos.compare_cont Eq ma mb) with (Pos.compare ma mb) in O.
        destruct (Pos.compare_spec ma mb) as [-> | ? | ?]; try discriminate; lia.
      * destruct Bb3 as [-> | Bb3]; [lia |].
        replace (- ea) with ((eb - ea) + (- eb)) by lia.
        rewrite Z.pow_add_r by lia.
        rewrite <- Z.div_div by (try apply Z.pow_pos_nonneg; lia).
        apply Z.div_le_mono; [lia |].
        assert (D : 2 ^ 1 <= 2 ^ (eb - ea)) by (apply Z.pow_le_mono_r; lia).
        change (2 ^ 1) with 2 in D.
        assert (Z.pos ma / 2 ^ (eb - ea) < 2 ^ 52); [| lia].
        apply Z.div_lt_upper_bound; [lia |].
        change (2 ^ 53) with (2 * 2 ^ 52) in Ba1. nia.
    + assert (Z.pos mb / 2 ^ (- eb) < 1001); [| lia].
      apply Z.div_lt_upper_bound; lia.
Qed.

(** One step up in the raw score does not lower the normalized score. *)
Lemma batch_image_step (lo hi x : Z) :
  430 <= lo -> lo < hi -> hi <= 558 -> lo <= x -> x + 1 <= hi ->
  0 <= batch_image lo hi x
  /\ batch_image lo hi x <= batch_image lo hi (x + 1)
  /\ batch_image lo hi (x + 1) <= 1000.
Proof.
  intros L1 L2 L3 L4 L5.
  assert (Ilo : In lo (ints 430 129)) by (apply in_ints; lia).
  assert (Ihi : In hi (ints 430 129)) by (apply in_ints; lia).
  assert (Ip : In (Py.float_of_int x, Py.float_of_int (x + 1))
                  (neighbours (map Py.float_of_int (ints 430 129)))).
  { apply neighbours_map. apply neighbours_ints; lia. }
  assert (Lt : PrimFloat.ltb (Py.float_of_int lo) (Py.float_of_int hi) = true).
  { rewrite float_of_int_ltb by (unfold in_0_1000; lia). apply Z.ltb_lt. lia. }
  pose proof (forallb_steps_sound _ _ steps_ok lo hi _ Ilo Ihi Ip Lt) as S.
  unfold step_ok in S. cbn [fst snd] in S.
  rewrite !float_of_int_leb in S by (unfold in_0_1000; lia).
  replace (lo <=? x) with true in S by (symmetry; apply Z.leb_le; lia).
  replace (x + 1 <=? hi) with true in S by (symmetry; apply Z.leb_le; lia).
  cbn [andb] in S.
  apply andb_prop in S. destruct S as [S U2].
  apply andb_prop in S. destruct S as [S O].
  apply andb_prop in S. destruct S as [L0 U1].
  destruct (trunc_ordered_1001 _ _ L0 U1 O U2) as (za & zb & Ta & Tb & B1 & B2 & B3).
  unfold batch_image.
  rewrite (astype_int_trunc _ _ Ta) by lia.
  rewrite (astype_int_trunc _ _ Tb) by lia.
  lia.
Qed.

(** The normalized score is monotone in the raw score. *)
Lemma batch_image_monotone (lo hi x y : Z) :
  430 <= lo -> lo < hi -> hi <= 558 -> lo <= x -> x <= y -> y <= hi ->
  batch_image lo hi x <= batch_image lo hi y.
Proof.
  intros L1 L2 L3 L4 L5 L6.
  assert (G : forall k : nat,
            x + Z.of_nat k <= hi ->
            batch_image lo hi x <= batch_image lo hi (x + Z.of_nat k)).
  { induction k as [| k IH]; intros U.
    - replace (x + Z.of_nat 0) with x by lia. lia.
    - pose proof (batch_image_step lo hi (x + Z.of_nat k)) as St.
      replace (x + Z.of_nat k + 1) with (x + Z.of_nat (S k)) in St by lia.
      assert (batch_image lo hi x <= batch_image lo hi (x + Z.of_nat k)) by (apply IH; lia).
      destruct St as (_ & St & _); lia. }
  replace y with (x + Z.of_nat (Z.to_nat (y - x))) by lia.
  apply G. lia.
Qed.

Lemma score_all_wallets_in_430_558 (features_df : list FeatureExtractor.Features)
      (scores_df : DataFrame) :
  score_all_wallets features_df = Some scores_df ->
  Forall (fun s => 430 <= s <= 558) (map score scores_df).
Proof.
  revert scores_df. induction features_df as [| row rest IH]; intros scores_df.
  - intros [= <-]. constructor.
  - cbn [score_all_wallets].
    destruct (features_contributions (to_dict row))
      as (c1 & c2 & c3 & c4 & c5 & c6 & c7 & C & _ & _ & _ & _ & _ & _ & _ & S).
    destruct (score_of_at _ _ _ _ _ _ _ C) as [_ B].
    rewrite S. cbn [bind].
    destruct (score_all_wallets rest) as [scores |]; [| discriminate].
    cbn [bind]. intros [= <-]. cbn [map score].
    constructor; [exact B | now apply IH].
Qed.

(** X26: normalization never reverses the order of two wallets of a
    batch: the final score is a function of the raw score, and a wallet
    whose raw score is not above another's does not end above it; equal
    raw scores end equal. *)
Theorem normalization_keeps_the_order :
  forall (features_df : list FeatureExtractor.Features) (h : heap) (r : ref),
  exists scores_df h' (final : Z -> Z),
    score_all_wallets features_df = Some scores_df
    /\ score_and_normalize features_df h r = Some (r, h')
    /\ h' r = map (fun row => {| wallet_id := wallet_id row;
                                 score := final (score row) |}) scores_df
    /\ (forall row row', In row scores_df -> In row' scores_df ->
          score row <= score row' -> final (score row) <= final (score row')).
Proof.
  intros features_df h r.
  destruct (score_and_normalize_frame features_df h r)
    as (scores_df & h' & final & E & _ & P & _ & N & _ & _ & Lo & _ & Fe).
  exists scores_df, h', final.
  split; [exact E |]. split; [exact P |]. split; [exact N |].
  intros row row' I I' L.
  pose proof (score_all_wallets_in_430_558 _ _ E) as B.
  assert (Hnil : map score scores_df <> [])
    by (destruct scores_df; [contradiction | discriminate]).
  destruct (np_min_spec _ Hnil) as [Imin Lmin]. destruct (np_max_spec _ Hnil) as [Imax Lmax].
  rewrite Forall_forall in B, Lmin, Lmax.
  pose proof (B _ Imin). pose proof (B _ Imax).
  pose proof (Lmin _ (in_map score _ _ I)). pose proof (Lmax _ (in_map score _ _ I)).
  pose proof (Lmin _ (in_map score _ _ I')). pose proof (Lmax _ (in_map score _ _ I')).
  destruct (Z.eq_dec (np_min (map score scores_df)) (np_max (map score scores_df)))
    as [Q | Q].
  - rewrite (Lo row I) by lia. rewrite (Lo row' I') by lia. lia.
  - rewrite Fe. apply batch_image_monotone; lia.
Qed.

End NormalizeOrderFacts.

Section WalletWithoutRows.

Import Batch.

(** X27: a wallet without rows in the transactions frame always gets the
    raw score 495, in the category "Moderate Risk": its default features
    earn 50 for having no liquidation and for using no volatile asset, and
    lose 50 for inactivity, 50 for repayments, 25 for the protocol version
    and 50 for the collateral factor. *)
Theorem wallet_without_rows_scores_495 :
  forall (now : Z) (transactions_df : list FeatureExtractor.Transaction)
         (wallet_address : string),
    wallet_rows transactions_df wallet_address = [] ->
    exists features,
      FeatureExtractor.extract_wallet_features now transactions_df wallet_address
      = Some features
      /\ map snd (RiskScorer.risk_components (to_dict features))
         = [PInt 0; PInt 50; PInt (-50); PInt (-50); PInt 50; PInt (-25); PInt (-50)]
      /\ RiskScorer.calculate_risk_score (to_dict features) = Some 495
      /\ RiskScorer.get_risk_category 495 = "Moderate Risk".
Proof.
  intros now df w E.
  exists (FeatureExtractor.default_features w). split.
  - unfold FeatureExtractor.extract_wallet_features. unfold wallet_rows in E.
    destruct (empty df); [reflexivity |]. rewrite E. reflexivity.
  - repeat split.
Qed.

Lemma wallet_without_rows_scores_495_witness :
  exists features,
    FeatureExtractor.extract_wallet_features 1700000000000000 one_day_rows "0xb"
    = Some features
    /\ map snd (RiskScorer.risk_components (to_dict features))
       = [PInt 0; PInt 50; PInt (-50); PInt (-50); PInt 50; PInt (-25); PInt (-50)]
    /\ RiskScorer.calculate_risk_score (to_dict features) = Some 495
    /\ RiskScorer.get_risk_category 495 = "Moderate Risk".
Proof.
  apply (wallet_without_rows_scores_495 1700000000000000 one_day_rows "0xb").
  reflexivity.
Defined.

End WalletWithoutRows.
